(** * Access control of AWX: a model of [awx/main/access.py]

    The module decides, for a user and a model class, which rows the user may
    see ([get_user_queryset]) and whether the user may perform an action
    ([check_user_access]).  The Django relation store is modelled as a record
    of tables, querysets as lists of rows, Python exceptions as an error
    monad, and the registry as a map from model classes to lists of access
    classes. *)

From Stdlib Require Import Ascii.
From stdpp Require Import base strings list gmap pretty.

Local Open Scope Z_scope.

(** ** Exceptions and the error monad *)

Inductive exn :=
| PermissionDenied (detail : string) (* of rest_framework.exceptions *)
| ParseError                         (* raised by get_object_or_400 *)
| DoesNotExist                       (* Model.objects.get(...) without a row *)
| KeyError (key : string)            (* data['k'] on a missing key *)
| ValueError                         (* int(...) on text that is no number *)
| FieldError                         (* lookup keyword that is no field *)
| AttributeError                     (* attribute read on None *)
| NameError (name : string)          (* unbound global name *)
| TypeError                          (* arguments do not fit the signature *)
| RecursionError.                    (* call depth exhausted *)

Inductive result (A : Type) :=
| Ok (a : A)
| Raise (e : exn).
Arguments Ok {A} a.
Arguments Raise {A} e.

#[export] Instance result_ret : MRet result := λ A a, Ok a.
#[export] Instance result_bind : MBind result := λ A B f m,
  match m with
  | Ok a => f a
  | Raise e => Raise e
  end.

#[export] Instance result_fmap : FMap result := λ A B f m,
  match m with
  | Ok a => Ok (f a)
  | Raise e => Raise e
  end.

(** Python's [a and b] and [a or b] on truth values, where [b] may raise. *)
Definition py_and (a : bool) (b : result bool) : result bool :=
  if a then b else Ok false.
Definition py_or (a : bool) (b : result bool) : result bool :=
  if a then Ok true else b.

(** [bool(n)] for a row count. *)
Definition truthy (n : nat) : bool := negb (Nat.eqb n 0).

(** ** Permission levels *)

(** Modelled from the spec: the [PERM_INVENTORY_*] constants are declared in
    [awx.main.models], which is not among the sources.  The spec names the
    levels admin, write, read, deploy and check; the comments of
    [JobTemplateAccess.can_add] call the deploy level "run".  Only the
    constants being pairwise different matters below. *)
Definition PERM_INVENTORY_ADMIN : string := "admin".
Definition PERM_INVENTORY_READ : string := "read".
Definition PERM_INVENTORY_WRITE : string := "write".
Definition PERM_INVENTORY_DEPLOY : string := "run".
Definition PERM_INVENTORY_CHECK : string := "check".

Definition PERMISSION_TYPES : list string :=
  [ PERM_INVENTORY_ADMIN; PERM_INVENTORY_READ; PERM_INVENTORY_WRITE;
    PERM_INVENTORY_DEPLOY; PERM_INVENTORY_CHECK ].

Definition PERMISSION_TYPES_ALLOWING_INVENTORY_READ : list string :=
  [ PERM_INVENTORY_ADMIN; PERM_INVENTORY_WRITE; PERM_INVENTORY_READ ].

Definition PERMISSION_TYPES_ALLOWING_INVENTORY_WRITE : list string :=
  [ PERM_INVENTORY_ADMIN; PERM_INVENTORY_WRITE ].

Definition PERMISSION_TYPES_ALLOWING_INVENTORY_ADMIN : list string :=
  [ PERM_INVENTORY_ADMIN ].

(** ** The relation store *)

(** A row carries its primary key, the columns the access rules read, and
    its foreign keys as the primary key of the row they point to.
    Many-to-many relations live in through tables of the store. *)

Record User := {
  user_pk : Z;
  is_superuser : bool;
  is_active : bool;
}.

Record Organization := { org_pk : Z }.

Record Team := {
  team_pk : Z;
  team_organization : Z;
  team_active : bool;
}.

Record Inventory := {
  inv_pk : Z;
  inv_organization : Z;
  inv_active : bool;
}.

Record Host := {
  host_pk : Z;
  host_inventory : Z;
  host_active : bool;
}.

Record Group := {
  group_pk : Z;
  group_inventory : Z;
  group_active : bool;
}.

Record Credential := {
  cred_pk : Z;
  cred_user : option Z;
  cred_team : option Z;
  cred_active : bool;
}.

Record Project := {
  project_pk : Z;
  created_by : option Z;
}.

Record Permission := {
  perm_pk : Z;
  perm_user : option Z;
  perm_team : option Z;
  perm_inventory : option Z;
  perm_project : option Z;
  permission_type : string;
}.

Record JobTemplate := {
  jt_pk : Z;
  jt_inventory : Z;
  jt_project : Z;
  jt_job_type : string;
  jt_active : bool;
}.

Record Job := {
  job_pk : Z;
  job_status : string;
}.

Record JobHostSummary := { jhs_pk : Z }.

Record JobEvent := { je_pk : Z }.

Record store := {
  users : list User;
  organizations : list Organization;
  teams : list Team;
  inventories : list Inventory;
  hosts : list Host;
  groups : list Group;
  credentials : list Credential;
  projects : list Project;
  permissions : list Permission;
  job_templates : list JobTemplate;
  jobs : list Job;
  job_host_summaries : list JobHostSummary;
  job_events : list JobEvent;
  (* through tables *)
  organization_admins : list (Z * Z);    (* organization, user *)
  organization_users : list (Z * Z);     (* organization, user *)
  organization_projects : list (Z * Z);  (* organization, project *)
  team_users : list (Z * Z);             (* team, user *)
  team_projects : list (Z * Z);          (* team, project *)
  group_parents : list (Z * Z);          (* group, parent group *)
}.

(** The model classes, and a row of any of them. *)
Inductive model_class :=
| CUser | COrganization | CInventory | CHost | CGroup | CCredential | CTeam
| CProject | CPermission | CJobTemplate | CJob | CJobHostSummary | CJobEvent.

#[export] Instance model_class_eq_dec : EqDecision model_class.
Proof. solve_decision. Defined.

Inductive instance :=
| IUser (u : User)
| IOrganization (o : Organization)
| IInventory (i : Inventory)
| IHost (h : Host)
| IGroup (g : Group)
| ICredential (c : Credential)
| ITeam (t : Team)
| IProject (p : Project)
| IPermission (p : Permission)
| IJobTemplate (t : JobTemplate)
| IJob (j : Job)
| IJobHostSummary (x : JobHostSummary)
| IJobEvent (x : JobEvent).

(** [type(obj)] *)
Definition type_of (i : instance) : model_class :=
  match i with
  | IUser _ => CUser
  | IOrganization _ => COrganization
  | IInventory _ => CInventory
  | IHost _ => CHost
  | IGroup _ => CGroup
  | ICredential _ => CCredential
  | ITeam _ => CTeam
  | IProject _ => CProject
  | IPermission _ => CPermission
  | IJobTemplate _ => CJobTemplate
  | IJob _ => CJob
  | IJobHostSummary _ => CJobHostSummary
  | IJobEvent _ => CJobEvent
  end.

(** [obj.pk] *)
Definition pk_of (i : instance) : Z :=
  match i with
  | IUser u => user_pk u
  | IOrganization o => org_pk o
  | IInventory i => inv_pk i
  | IHost h => host_pk h
  | IGroup g => group_pk g
  | ICredential c => cred_pk c
  | ITeam t => team_pk t
  | IProject p => project_pk p
  | IPermission p => perm_pk p
  | IJobTemplate t => jt_pk t
  | IJob j => job_pk j
  | IJobHostSummary x => jhs_pk x
  | IJobEvent x => je_pk x
  end.

(** [model_class.objects.all()] *)
Definition objects_all (s : store) (c : model_class) : list instance :=
  match c with
  | CUser => IUser <$> users s
  | COrganization => IOrganization <$> organizations s
  | CInventory => IInventory <$> inventories s
  | CHost => IHost <$> hosts s
  | CGroup => IGroup <$> groups s
  | CCredential => ICredential <$> credentials s
  | CTeam => ITeam <$> teams s
  | CProject => IProject <$> projects s
  | CPermission => IPermission <$> permissions s
  | CJobTemplate => IJobTemplate <$> job_templates s
  | CJob => IJob <$> jobs s
  | CJobHostSummary => IJobHostSummary <$> job_host_summaries s
  | CJobEvent => IJobEvent <$> job_events s
  end.

(** Django compares model instances by class and primary key. *)
Definition instance_eqb (a b : instance) : bool :=
  bool_decide (type_of a = type_of b) && bool_decide (pk_of a = pk_of b).

(** Request payloads are dictionaries from field names to JSON scalars. *)
Inductive value :=
| VNone
| VInt (z : Z)
| VStr (s : string).

#[export] Instance value_eq_dec : EqDecision value.
Proof. solve_decision. Defined.

(** [not data]: [None] and the empty dictionary are both falsy. *)
Definition falsy_data (data : option (gmap string value)) : bool :=
  match data with
  | None => true
  | Some d => bool_decide (d = ∅)
  end.

(** ['k' in data] *)
Definition has_key (k : string) (d : gmap string value) : bool :=
  bool_decide (is_Some (d !! k)).

(** [data.get('k', None)] *)
Definition dict_get (k : string) (d : gmap string value) : value :=
  default VNone (d !! k).

(** [data['k']] *)
Definition dict_item (k : string) (d : gmap string value) : result value :=
  match d !! k with
  | Some v => Ok v
  | None => Raise (KeyError k)
  end.

(** The characters [int] drops around a number: the space, and the
    control characters from tab to carriage return. *)
Definition is_space (a : Ascii.ascii) : bool :=
  let n := Ascii.N_of_ascii a in
  bool_decide (n = 32%N) || (bool_decide (9 ≤ n)%N && bool_decide (n ≤ 13)%N).

Definition digit_of (a : Ascii.ascii) : option Z :=
  let n := Z.of_N (Ascii.N_of_ascii a) in
  if bool_decide (48 ≤ n) && bool_decide (n ≤ 57) then Some (n - 48)
  else None.

Fixpoint lstrip (t : string) : string :=
  match t with
  | String a rest => if is_space a then lstrip rest else t
  | EmptyString => EmptyString
  end.

Fixpoint rstrip (t : string) : string :=
  match t with
  | String a rest =>
      match rstrip rest with
      | EmptyString => if is_space a then EmptyString
                       else String a EmptyString
      | rest => String a rest
      end
  | EmptyString => EmptyString
  end.

Fixpoint digits (acc : Z) (t : string) : option Z :=
  match t with
  | String a rest => d ← digit_of a; digits (10 * acc + d) rest
  | EmptyString => Some acc
  end.

Definition unsigned (t : string) : option Z :=
  match t with
  | EmptyString => None
  | _ => digits 0 t
  end.

(** [int(text)]: blanks around the number are dropped, one sign may come
    first, and decimal digits follow; any other text is no number. *)
Definition int_of_text (t : string) : option Z :=
  match rstrip (lstrip t) with
  | String "-"%char rest => Z.opp <$> unsigned rest
  | String "+"%char rest => unsigned rest
  | t => unsigned t
  end.

(** The key a lookup [pk=v] searches for.  [None] matches no row; text is
    converted with [int], which raises [ValueError] on text that is no
    number. *)
Definition pk_of_value (v : value) : result (option Z) :=
  match v with
  | VNone => Ok None
  | VInt z => Ok (Some z)
  | VStr t =>
      match int_of_text t with
      | Some z => Ok (Some z)
      | None => Raise ValueError
      end
  end.

(** Positional arguments of a [can_*] method. *)
Inductive arg :=
| ANone
| AObj (i : instance)
| ADict (d : gmap string value)
| AStr (s : string)
| ABool (b : bool).

(** What the module reads from outside the store. *)
Record environment := {
  argv : list string;               (* sys.argv *)
  validation_info : gmap string Z;  (* LicenseReader().from_file() *)
}.

(** ** Queries *)

(** [qs.count()] *)
Definition count {A} (qs : list A) : nat := length qs.

(** [qs.filter(pk=k)] *)
Definition filter_pk {A} (pk : A → Z) (k : Z) (qs : list A) : list A :=
  filter (λ x, pk x = k) qs.

(** [a | b] on two querysets of one model: the rows of either, once. *)
Definition qs_or {A} (pk : A → Z) (a b : list A) : list A :=
  a ++ filter (λ x, pk x ∉ (pk <$> a)) b.

(** A row of a through table. *)
Definition related (through : list (Z * Z)) (a b : Z) : bool :=
  bool_decide ((a, b) ∈ through).

(** In a filter: the nullable foreign key column [x] holds the key [k]. *)
Definition fk_is (x : option Z) (k : Z) : bool := bool_decide (x = Some k).

Definition get_by_pk {A} (pk : A → Z) (table : list A) (k : Z) : option A :=
  head (filter_pk pk k table).

(** Following a foreign key loads the row it points to. *)
Definition follow {A} (pk : A → Z) (table : list A) (k : Z) : result A :=
  match get_by_pk pk table k with
  | Some x => Ok x
  | None => Raise DoesNotExist
  end.

(** Reading a foreign key attribute ([obj.inventory], [obj.user]) loads
    the row: [None] for a null key, and [DoesNotExist] when the row the key
    points to is gone. *)
Definition follow_null {A} (pk : A → Z) (table : list A) (k : option Z)
  : result (option A) :=
  match k with
  | Some k => Some <$> follow pk table k
  | None => Ok None
  end.

(** [Model.objects.get(pk=v)] *)
Definition objects_get {A} (pk : A → Z) (table : list A) (v : value)
  : result A :=
  k ← pk_of_value v;
  match k ≫= get_by_pk pk table with
  | Some x => Ok x
  | None => Raise DoesNotExist
  end.

(** Modelled from the spec: [get_object_or_400] lives in [awx.main.utils],
    which is not among the sources.  A payload reference to a row that does
    not exist fails with a client error, not with a denial; an error of the
    lookup itself is passed on. *)
Definition get_object_or_400 {A} (pk : A → Z) (table : list A) (v : value)
  : result A :=
  k ← pk_of_value v;
  match k ≫= get_by_pk pk table with
  | Some x => Ok x
  | None => Raise ParseError
  end.

(** Reading a column or a relation of [obj]: [None] has none.  The
    registry hands an access class rows of its own model only; a row of
    another model is refused here as well.  ([obj.pk] is no such read: every
    row has a key.) *)
Definition the_user (obj : option instance) : result User :=
  match obj with Some (IUser x) => Ok x | _ => Raise AttributeError end.
Definition the_organization (obj : option instance) : result Organization :=
  match obj with Some (IOrganization x) => Ok x | _ => Raise AttributeError end.
Definition the_host (obj : option instance) : result Host :=
  match obj with Some (IHost x) => Ok x | _ => Raise AttributeError end.
Definition the_group (obj : option instance) : result Group :=
  match obj with Some (IGroup x) => Ok x | _ => Raise AttributeError end.
Definition the_credential (obj : option instance) : result Credential :=
  match obj with Some (ICredential x) => Ok x | _ => Raise AttributeError end.
Definition the_team (obj : option instance) : result Team :=
  match obj with Some (ITeam x) => Ok x | _ => Raise AttributeError end.
Definition the_project (obj : option instance) : result Project :=
  match obj with Some (IProject x) => Ok x | _ => Raise AttributeError end.
Definition the_permission (obj : option instance) : result Permission :=
  match obj with Some (IPermission x) => Ok x | _ => Raise AttributeError end.
Definition the_job_template (obj : option instance) : result JobTemplate :=
  match obj with Some (IJobTemplate x) => Ok x | _ => Raise AttributeError end.
Definition the_job (obj : option instance) : result Job :=
  match obj with Some (IJob x) => Ok x | _ => Raise AttributeError end.

Section relations.
Context (s : store).

(** [user.admin_of_organizations.all()] *)
Definition admin_of_organizations (u : User) : list Organization :=
  filter (λ o, related (organization_admins s) (org_pk o) (user_pk u))
         (organizations s).

(** [user.organizations.all()] *)
Definition user_organizations (u : User) : list Organization :=
  filter (λ o, related (organization_users s) (org_pk o) (user_pk u))
         (organizations s).

(** [user.teams.all()] *)
Definition user_teams (u : User) : list Team :=
  filter (λ t, related (team_users s) (team_pk t) (user_pk u)) (teams s).

(** [project.organizations.all()] *)
Definition project_organizations (p : Project) : list Organization :=
  filter (λ o, related (organization_projects s) (org_pk o) (project_pk p))
         (organizations s).

(** [project.teams.all()] *)
Definition project_teams (p : Project) : list Team :=
  filter (λ t, related (team_projects s) (team_pk t) (project_pk p))
         (teams s).

(** Modelled from the spec: [Group.all_parents] and [Group.all_children]
    are declared in [awx.main.models], which is not among the sources.
    They are the ancestors and the descendants of a group, the closure of
    the parent relation; a walk needs no more steps than the relation has
    rows. *)
Definition parents_of (g : Z) : list Z :=
  group_pk <$> filter (λ p, related (group_parents s) g (group_pk p))
                      (groups s).
Definition children_of (g : Z) : list Z :=
  group_pk <$> filter (λ c, related (group_parents s) (group_pk c) g)
                      (groups s).
Fixpoint closure (step : Z → list Z) (n : nat) (g : Z) : list Z :=
  match n with
  | O => []
  | S n => step g ++ (step g ≫= closure step n)
  end.
Definition all_parents (g : Group) : list Z :=
  closure parents_of (length (group_parents s)) (group_pk g).
Definition all_children (g : Group) : list Z :=
  closure children_of (length (group_parents s)) (group_pk g).
End relations.

(** ** The access classes *)

Abbreviation dict := (gmap string value).

(** [user.can_access(model_class, action, *args)]: the way back into
    [check_user_access] for the same user. *)
Abbreviation access_callback :=
  (model_class → string → list arg → result bool).

Definition arg_of_obj (obj : option instance) : arg :=
  match obj with
  | Some i => AObj i
  | None => ANone
  end.

Definition arg_of_data (data : option dict) : arg :=
  match data with
  | Some d => ADict d
  | None => ANone
  end.

Module BaseAccess.
Section methods.
Context (s : store) (user : User) (can_access : access_callback).
(** [self.can_change], resolved in the subclass. *)
Context (self_can_change : option instance → option dict → result bool).

Definition get_queryset (model : model_class) : list instance :=
  if is_superuser user then objects_all s model else [].

Definition can_read (obj : option instance) : result bool :=
  Ok (is_superuser user).

Definition can_add (data : option dict) : result bool :=
  Ok (is_superuser user).

Definition can_change (obj : option instance) (data : option dict)
  : result bool :=
  Ok (is_superuser user).

Definition can_write (obj : option instance) (data : option dict)
  : result bool :=
  self_can_change obj data.

Definition can_admin (obj : option instance) (data : option dict)
  : result bool :=
  self_can_change obj data.

Definition can_delete (obj : option instance) : result bool :=
  Ok (is_superuser user).

(** [type(None)] is no registered model: access to it is denied. *)
Definition can_attach (obj sub_obj : option instance) (relationship : string)
    (data : option dict) (skip_sub_obj_read_check : bool) : result bool :=
  if skip_sub_obj_read_check then self_can_change obj None
  else
    c ← self_can_change obj None;
    py_and c (match sub_obj with
              | Some i => can_access (type_of i) "read" [AObj i]
              | None => Ok false
              end).

Definition can_unattach (obj sub_obj : option instance)
    (relationship : string) : result bool :=
  self_can_change obj None.
End methods.
End BaseAccess.

Module UserAccess.
Section methods.
Context (s : store) (user : User).

Definition get_queryset : list User :=
  let qs := filter (λ u, is_active u) (users s) in
  if is_superuser user then qs
  else
    filter (λ u,
      bool_decide (user_pk u = user_pk user)
      || existsb (λ o, related (organization_users s) (org_pk o) (user_pk u))
                 (admin_of_organizations s user)
      || existsb (λ t, related (team_users s) (team_pk t) (user_pk u))
                 (user_teams s user)) qs.

Definition can_admin (obj : option instance) (data : option dict)
  : result bool :=
  if is_superuser user then Ok true
  else
    o ← the_user obj;
    Ok (truthy (count
      (filter (λ g, related (organization_admins s) (org_pk g) (user_pk user))
              (user_organizations s o)))).

Definition can_change (obj : option instance) (data : option dict)
  : result bool :=
  py_or (from_option (instance_eqb (IUser user)) false obj)
        (can_admin obj data).

Definition can_read (obj : option instance) : result bool :=
  let matching_teams :=
    count (filter (λ t, related (team_users s) (team_pk t) (user_pk user))
                  (user_teams s user)) in
  py_or (truthy matching_teams) (can_change obj None).

Definition can_add (data : option dict) : result bool :=
  Ok (is_superuser user || truthy (count (admin_of_organizations s user))).

Definition can_delete (obj : option instance) : result bool :=
  if from_option (λ o, instance_eqb o (IUser user)) false obj then Ok false
  else
    let super_users :=
      filter (λ u, is_active u && is_superuser u) (users s) in
    o ← the_user obj;
    if is_superuser o && bool_decide (count super_users = 1%nat)
    then Ok false
    else
      py_or (is_superuser user)
        (Ok (truthy (count
          (filter (λ g, related (organization_admins s) (org_pk g)
                                (user_pk user))
                  (user_organizations s o))))).
End methods.
End UserAccess.

Module OrganizationAccess.
Section methods.
Context (s : store) (user : User).

Definition get_queryset : list Organization :=
  let qs := organizations s in
  if is_superuser user then qs
  else
    filter (λ o, related (organization_admins s) (org_pk o) (user_pk user)
                 || related (organization_users s) (org_pk o) (user_pk user))
           qs.

Definition can_change (obj : option instance) (data : option dict)
  : result bool :=
  py_or (is_superuser user)
    (o ← the_organization obj;
     Ok (related (organization_admins s) (org_pk o) (user_pk user))).

Definition can_read (obj : option instance) : result bool :=
  c ← can_change obj None;
  py_or c
    (o ← the_organization obj;
     Ok (related (organization_users s) (org_pk o) (user_pk user))).

Definition can_delete (obj : option instance) : result bool :=
  can_change obj None.
End methods.
End OrganizationAccess.

Module InventoryAccess.
Section methods.
Context (s : store) (user : User) (can_access : access_callback).

(** [allowed or ...]: [None] and the empty list are both falsy. *)
Definition get_queryset (allowed : list string) : list Inventory :=
  let allowed :=
    match allowed with
    | [] => PERMISSION_TYPES_ALLOWING_INVENTORY_READ
    | _ => allowed
    end in
  let qs := filter (λ i, inv_active i) (inventories s) in
  if is_superuser user then qs
  else
    let admin_of :=
      filter (λ i, related (organization_admins s) (inv_organization i)
                           (user_pk user)) qs in
    let has_user_perms :=
      filter (λ i, existsb (λ p,
                fk_is (perm_inventory p) (inv_pk i)
                && fk_is (perm_user p) (user_pk user)
                && bool_decide (permission_type p ∈ allowed))
              (permissions s)) qs in
    let has_team_perms :=
      filter (λ i, existsb (λ p,
                fk_is (perm_inventory p) (inv_pk i)
                && from_option (λ t, related (team_users s) t (user_pk user))
                               false (perm_team p)
                && bool_decide (permission_type p ∈ allowed))
              (permissions s)) qs in
    qs_or inv_pk (qs_or inv_pk admin_of has_user_perms) has_team_perms.

Definition has_permission_types (obj : option instance)
    (allowed : list string) : result bool :=
  match obj with
  | None => Ok false
  | Some o =>
      Ok (truthy (count (filter_pk inv_pk (pk_of o) (get_queryset allowed))))
  end.

Definition can_read (obj : option instance) : result bool :=
  has_permission_types obj PERMISSION_TYPES_ALLOWING_INVENTORY_READ.

Definition can_add (data : option dict) : result bool :=
  if falsy_data data then
    Ok (is_superuser user || truthy (count (admin_of_organizations s user)))
  else if is_superuser user then Ok true
  else
    org ← get_object_or_400 org_pk (organizations s)
            (dict_get "organization" (default ∅ data));
    can_access COrganization "change" [AObj (IOrganization org); ANone].

(** [data and 'organization' in data and not self.can_add(data)] *)
Definition organization_refused (data : option dict) : result bool :=
  if negb (falsy_data data) && has_key "organization" (default ∅ data)
  then negb <$> can_add data
  else Ok false.

Definition can_change (obj : option instance) (data : option dict)
  : result bool :=
  refused ← organization_refused data;
  if (refused : bool) then Ok false
  else has_permission_types obj PERMISSION_TYPES_ALLOWING_INVENTORY_WRITE.

Definition can_admin (obj : option instance) (data : option dict)
  : result bool :=
  refused ← organization_refused data;
  if (refused : bool) then Ok false
  else has_permission_types obj PERMISSION_TYPES_ALLOWING_INVENTORY_ADMIN.

Definition can_delete (obj : option instance) : result bool :=
  can_admin obj None.
End methods.
End InventoryAccess.

Module HostAccess.
Section methods.
Context (s : store) (e : environment) (user : User).
Context (can_access : access_callback).
(** [self.user.get_queryset(model_class)] *)
Context (user_get_queryset : model_class → result (list instance)).

Definition get_queryset : result (list Host) :=
  let qs := filter (λ h, host_active h) (hosts s) in
  inventories_qs ← user_get_queryset CInventory;
  Ok (filter (λ h, host_inventory h
                   ∈ pk_of <$> (inventories_qs : list instance)) qs).

Definition can_read (obj : option instance) : result bool :=
  match obj with
  | None => Ok false
  | Some _ =>
      h ← the_host obj;
      inventory ← follow inv_pk (inventories s) (host_inventory h);
      can_access CInventory "read" [AObj (IInventory inventory)]
  end.

Definition can_add (data : option dict) : result bool :=
  if falsy_data data || negb (has_key "inventory" (default ∅ data))
  then Ok false
  else
    inventory ← get_object_or_400 inv_pk (inventories s)
                  (dict_get "inventory" (default ∅ data));
    c ← can_access CInventory "change" [AObj (IInventory inventory); ANone];
    if negb c then Ok false
    else
      let validation_info := validation_info e in
      let validation_info :=
        if bool_decide ("test" ∈ argv e)
        then <["free_instances" := 99999999]> validation_info
        else validation_info in
      if bool_decide (0 < default 0 (validation_info !! "free_instances"))
      then Ok true
      else
        let instances :=
          default 0 (validation_info !! "available_instances") in
        Raise (PermissionDenied
          ("license range of " +:+ pretty instances
           +:+ " instances has been exceed")).

Definition can_change (obj : option instance) (data : option dict)
  : result bool :=
  moved ←
    match obj with
    | None => Ok false
    | Some _ =>
        if falsy_data data then Ok false
        else
          h ← the_host obj;
          inventory ← follow inv_pk (inventories s) (host_inventory h);
          Ok (bool_decide (VInt (inv_pk inventory)
                           ≠ dict_get "inventory" (default ∅ data)))
    end;
  if (moved : bool)
  then Raise (PermissionDenied "Unable to change inventory on a host")
  else
    match obj with
    | None => Ok false
    | Some _ =>
        h ← the_host obj;
        inventory ← follow inv_pk (inventories s) (host_inventory h);
        can_access CInventory "change" [AObj (IInventory inventory); ANone]
    end.
End methods.
End HostAccess.

Module GroupAccess.
Section methods.
Context (s : store) (user : User).
Context (can_access : access_callback).
Context (user_get_queryset : model_class → result (list instance)).

Definition get_queryset : result (list Group) :=
  let qs := filter (λ g, group_active g) (groups s) in
  inventories_qs ← user_get_queryset CInventory;
  Ok (filter (λ g, group_inventory g
                   ∈ pk_of <$> (inventories_qs : list instance)) qs).

Definition can_read (obj : option instance) : result bool :=
  match obj with
  | None => Ok false
  | Some _ =>
      g ← the_group obj;
      inventory ← follow inv_pk (inventories s) (group_inventory g);
      can_access CInventory "read" [AObj (IInventory inventory)]
  end.

Definition can_add (data : option dict) : result bool :=
  if falsy_data data || negb (has_key "inventory" (default ∅ data))
  then Ok false
  else
    inventory ← get_object_or_400 inv_pk (inventories s)
                  (dict_get "inventory" (default ∅ data));
    can_access CInventory "change" [AObj (IInventory inventory); ANone].

Definition can_change (obj : option instance) (data : option dict)
  : result bool :=
  match obj with
  | None => Ok false
  | Some _ =>
      g ← the_group obj;
      inventory ← follow inv_pk (inventories s) (group_inventory g);
      can_access CInventory "change" [AObj (IInventory inventory); ANone]
  end.

Definition can_attach (obj sub_obj : option instance) (relationship : string)
    (data : option dict) (skip_sub_obj_read_check : bool) : result bool :=
  base ← BaseAccess.can_attach can_access can_change obj sub_obj relationship
           data skip_sub_obj_read_check;
  if negb base then Ok false
  else if bool_decide (type_of <$> obj = type_of <$> sub_obj) then
    g ← the_group obj;
    let parent_pks : gset Z := list_to_set (all_parents s g) ∪ {[group_pk g]} in
    c ← the_group sub_obj;
    let child_pks : gset Z := list_to_set (all_children s c) ∪ {[group_pk c]} in
    if bool_decide (parent_pks ∩ child_pks ≠ ∅) then Ok false
    else Ok true
  else Ok true.
End methods.
End GroupAccess.

Module CredentialAccess.
Section methods.
Context (s : store) (user : User) (can_access : access_callback).

Definition get_queryset : list Credential :=
  let qs := filter (λ c, cred_active c) (credentials s) in
  if is_superuser user then qs
  else
    let orgs_as_admin := admin_of_organizations s user in
    filter (λ c,
      fk_is (cred_user c) (user_pk user)
      || from_option (λ u,
           existsb (λ o, related (organization_users s) (org_pk o) u)
                   orgs_as_admin) false (cred_user c)
      || from_option (λ u,
           existsb (λ o, related (organization_admins s) (org_pk o) u)
                   orgs_as_admin) false (cred_user c)
      || from_option (λ t,
           existsb (λ row, bool_decide (team_pk row = t)
                           && bool_decide (team_organization row
                                           ∈ org_pk <$> orgs_as_admin))
                   (teams s)) false (cred_team c)
      || from_option (λ t, related (team_users s) t (user_pk user))
                     false (cred_team c)) qs.

Definition can_change (obj : option instance) (data : option dict)
  : result bool :=
  if is_superuser user then Ok true
  else
    c ← the_credential obj;
    owner ← follow_null user_pk (users s) (cred_user c);
    if from_option (λ o, bool_decide (user_pk user = user_pk o)) false owner
    then Ok true
    else if from_option
              (λ o, truthy (count
                 (filter (λ g, related (organization_admins s) (org_pk g)
                                       (user_pk user))
                         (user_organizations s o)))) false owner
    then Ok true
    else
      team ← follow_null team_pk (teams s) (cred_team c);
      match team with
      | Some team =>
          org ← follow org_pk (organizations s) (team_organization team);
          if related (organization_admins s) (org_pk org) (user_pk user)
          then Ok true
          else Ok false
      | None => Ok false
      end.

Definition can_read (obj : option instance) : result bool :=
  match obj with
  | None => Ok false
  | Some _ => can_change obj None
  end.

(** ['user' in data] on [None] is a [TypeError]; a payload naming neither
    a user nor a team falls off the end of the method, which is falsy. *)
Definition can_add (data : option dict) : result bool :=
  if is_superuser user then Ok true
  else
    match data with
    | None => Raise TypeError
    | Some d =>
        if has_key "user" d then
          v ← dict_item "user" d;
          user_obj ← objects_get user_pk (users s) v;
          can_access CUser "change" [AObj (IUser user_obj); ANone]
        else if has_key "team" d then
          v ← dict_item "team" d;
          team_obj ← objects_get team_pk (teams s) v;
          can_access CTeam "change" [AObj (ITeam team_obj); ANone]
        else Ok false
    end.

Definition can_delete (obj : option instance) : result bool :=
  c ← the_credential obj;
  owner ← follow_null user_pk (users s) (cred_user c);
  unassociated ←
    match owner with
    | Some _ => Ok false
    | None =>
        team ← follow_null team_pk (teams s) (cred_team c);
        Ok (if team is None then true else false)
    end;
  if (unassociated : bool) then Ok true
  else can_change obj None.
End methods.
End CredentialAccess.

Module TeamAccess.
Section methods.
Context (s : store) (user : User).

Definition get_queryset : list Team :=
  let qs := filter (λ t, team_active t) (teams s) in
  if is_superuser user then qs
  else
    filter (λ t,
      related (organization_admins s) (team_organization t) (user_pk user)
      || related (team_users s) (team_pk t) (user_pk user)) qs.

Definition can_add (data : option dict) : result bool :=
  if is_superuser user then Ok true
  else if truthy (count (admin_of_organizations s user)) then Ok true
  else Ok false.

Definition can_change (obj : option instance) (data : option dict)
  : result bool :=
  if is_superuser user then Ok true
  else
    t ← the_team obj;
    org ← follow org_pk (organizations s) (team_organization t);
    if related (organization_admins s) (org_pk org) (user_pk user)
    then Ok true
    else Ok false.

Definition can_read (obj : option instance) : result bool :=
  c ← can_change obj None;
  if (c : bool) then Ok true
  else
    t ← the_team obj;
    if related (team_users s) (team_pk t) (user_pk user) then Ok true
    else Ok false.

Definition can_delete (obj : option instance) : result bool :=
  can_change obj None.
End methods.
End TeamAccess.

Module ProjectAccess.
Section methods.
Context (s : store) (user : User).

Definition get_queryset : list Project :=
  let base := projects s in
  if is_superuser user then base
  else
    let my_teams := user_teams s user in
    let my_orgs := admin_of_organizations s user in
    qs_or project_pk
      (filter (λ p, existsb (λ t, related (team_projects s) (team_pk t)
                                          (project_pk p)) my_teams) base)
      (filter (λ p, existsb (λ o, related (organization_projects s)
                                          (org_pk o) (project_pk p)) my_orgs)
              base).

(** The body of the loop over [organizations] reads the global name
    [project], which the module never binds: its first round raises. *)
Definition can_change (obj : option instance) (data : option dict)
  : result bool :=
  if is_superuser user then Ok true
  else
    p ← the_project obj;
    creator ← follow_null user_pk (users s) (created_by p);
    if from_option (λ u, bool_decide (user_pk u = user_pk user)) false creator
    then Ok true
    else
      let organizations :=
        filter (λ o, related (organization_admins s) (org_pk o) (user_pk user)
                     && related (organization_projects s) (org_pk o)
                                (project_pk p))
               (organizations s) in
      match organizations with
      | [] => Ok false
      | _ :: _ => Raise (NameError "project")
      end.

Definition can_read (obj : option instance) : result bool :=
  c ← can_change obj None;
  if (c : bool) then Ok true else Ok false.

Definition can_delete (obj : option instance) : result bool :=
  can_change obj None.
End methods.
End ProjectAccess.

Module PermissionAccess.
Section methods.
Context (s : store) (user : User).

Definition get_queryset : list Permission := permissions s.

(** The last test filters the admins of the team's organization, which
    are users, on the keyword [user].  The user model is Django's own, and
    it has no field of that name: once the team and its organization are
    loaded the lookup raises [FieldError]. *)
Definition can_change (obj : option instance) (data : option dict)
  : result bool :=
  if is_superuser user then Ok true
  else
    p ← the_permission obj;
    grantee ← follow_null user_pk (users s) (perm_user p);
    if from_option
         (λ u, bool_decide (0 < count
            (filter (λ g, related (organization_admins s) (org_pk g)
                                  (user_pk user))
                    (user_organizations s u)))%nat) false grantee
    then Ok true
    else
      team ← follow_null team_pk (teams s) (perm_team p);
      match team with
      | Some team =>
          org ← follow org_pk (organizations s) (team_organization team);
          Raise FieldError
      | None => Ok false
      end.

Definition can_read (obj : option instance) : result bool :=
  p ← the_permission obj;
  grantee ← follow_null user_pk (users s) (perm_user p);
  if from_option (λ u, bool_decide (user_pk u = user_pk user)) false grantee
  then Ok true
  else
    team ← follow_null team_pk (teams s) (perm_team p);
    if from_option (λ t, related (team_users s) (team_pk t) (user_pk user))
         false team
    then Ok true
    else can_change obj None.

Definition can_delete (obj : option instance) : result bool :=
  can_change obj None.
End methods.
End PermissionAccess.

Module JobTemplateAccess.
Section methods.
Context (s : store) (user : User).

Definition get_queryset : list JobTemplate :=
  let qs := job_templates s in
  if is_superuser user then qs
  else
    filter (λ t,
      existsb (λ o, related (organization_projects s) (org_pk o)
                            (jt_project t)
                    && related (organization_admins s) (org_pk o)
                               (user_pk user))
              (organizations s)
      || existsb (λ m, related (team_projects s) (team_pk m) (jt_project t)
                       && related (team_users s) (team_pk m) (user_pk user))
                 (teams s))
      (filter (λ t, jt_active t) qs).

(** One round of the loops over the user's and the teams' permissions. *)
Definition launch_step (job_type : value) (has_launch_permission : bool)
    (perm : Permission) : bool :=
  if bool_decide (job_type = VStr PERM_INVENTORY_CHECK) then true
  else if bool_decide (job_type = VStr PERM_INVENTORY_DEPLOY)
          && bool_decide (permission_type perm = PERM_INVENTORY_DEPLOY)
  then true
  else has_launch_permission.

Definition user_permissions (inventory : Inventory) (project : Project)
  : list Permission :=
  filter (λ p, fk_is (perm_inventory p) (inv_pk inventory)
               && fk_is (perm_project p) (project_pk project)
               && fk_is (perm_user p) (user_pk user)) (permissions s).

Definition team_permissions (inventory : Inventory) (project : Project)
  : list Permission :=
  filter (λ p, fk_is (perm_inventory p) (inv_pk inventory)
               && fk_is (perm_project p) (project_pk project)
               && from_option (λ t, related (team_users s) t (user_pk user))
                              false (perm_team p)) (permissions s).

Definition has_launch_permission (inventory : Inventory) (project : Project)
    (job_type : value) : bool :=
  foldl (launch_step job_type)
    (foldl (launch_step job_type) false (user_permissions inventory project))
    (team_permissions inventory project).

(** [data.has_key('credential')] and the ownership test under it. *)
Definition has_credential (d : dict) : result bool :=
  if has_key "credential" d then
    v ← dict_item "credential" d;
    credential ← objects_get cred_pk (credentials s) v;
    team ← follow_null team_pk (teams s) (cred_team credential);
    let by_team :=
      from_option (λ t, related (team_users s) (team_pk t) (user_pk user))
        false team in
    owner ← follow_null user_pk (users s) (cred_user credential);
    let by_user :=
      from_option (λ u, bool_decide (user_pk u = user_pk user)) false owner in
    Ok (by_team || by_user)
  else Ok true.

Definition can_add (data : option dict) : result bool :=
  if is_superuser user then Ok true
  else if falsy_data data || has_key "_method" (default ∅ data) then Ok true
  else
    let d : dict := default ∅ data in
    v ← dict_item "project" d;
    project ← objects_get project_pk (projects s) v;
    v ← dict_item "inventory" d;
    inventory ← objects_get inv_pk (inventories s) v;
    let admin_of_orgs :=
      filter (λ o, related (organization_admins s) (org_pk o) (user_pk user))
             (project_organizations s project) in
    if bool_decide (0 < count admin_of_orgs)%nat then Ok true
    else
      job_type ← dict_item "job_type" d;
      if negb (has_launch_permission inventory project job_type)
      then Ok false
      else
        owned ← has_credential d;
        if negb owned then Ok false
        else if truthy (count
                  (filter (λ t, related (team_users s) (team_pk t)
                                        (user_pk user))
                          (project_teams s project)))
        then Ok false
        else Ok true.

Definition can_read (obj : option instance) : result bool :=
  t ← the_job_template obj;
  inventory ← follow inv_pk (inventories s) (jt_inventory t);
  project ← follow project_pk (projects s) (jt_project t);
  let data : dict :=
    {[ "inventory" := VInt (inv_pk inventory);
       "project" := VInt (project_pk project);
       "job_type" := VStr (jt_job_type t) ]} in
  can_add (Some data).

Definition can_change (obj : option instance) (data : option dict)
  : result bool :=
  Ok (is_superuser user).
End methods.
End JobTemplateAccess.

Module JobAccess.
Section methods.
Context (s : store) (user : User).

Definition get_queryset : list Job := jobs s.

Definition can_change (obj : option instance) (data : option dict)
  : result bool :=
  py_and (is_superuser user)
    (j ← the_job obj; Ok (bool_decide (job_status j = "new"))).

Definition can_start (obj : option instance) : result bool := Ok false.

Definition can_cancel (obj : option instance) : result bool := Ok false.
End methods.
End JobAccess.

Module JobHostSummaryAccess.
Definition get_queryset (s : store) : list JobHostSummary :=
  job_host_summaries s.
End JobHostSummaryAccess.

Module JobEventAccess.
Definition get_queryset (s : store) : list JobEvent := job_events s.
End JobEventAccess.

(** ** Method resolution *)

Inductive access_class :=
| UserAccess | OrganizationAccess | InventoryAccess | HostAccess | GroupAccess
| CredentialAccess | TeamAccess | ProjectAccess | PermissionAccess
| JobTemplateAccess | JobAccess | JobHostSummaryAccess | JobEventAccess.

(** The [model] attribute of an access class. *)
Definition model (cls : access_class) : model_class :=
  match cls with
  | UserAccess => CUser
  | OrganizationAccess => COrganization
  | InventoryAccess => CInventory
  | HostAccess => CHost
  | GroupAccess => CGroup
  | CredentialAccess => CCredential
  | TeamAccess => CTeam
  | ProjectAccess => CProject
  | PermissionAccess => CPermission
  | JobTemplateAccess => CJobTemplate
  | JobAccess => CJob
  | JobHostSummaryAccess => CJobHostSummary
  | JobEventAccess => CJobEvent
  end.

(** Unpacking [*args]: an object or [None] where the method expects an
    object, a dictionary or [None] where it expects a payload.  An argument
    of another kind is refused at the call. *)
Definition as_obj (a : arg) : result (option instance) :=
  match a with
  | ANone => Ok None
  | AObj i => Ok (Some i)
  | _ => Raise AttributeError
  end.

Definition as_data (a : arg) : result (option dict) :=
  match a with
  | ANone => Ok None
  | ADict d => Ok (Some d)
  | _ => Raise AttributeError
  end.

Definition as_str (a : arg) : result string :=
  match a with
  | AStr x => Ok x
  | _ => Raise AttributeError
  end.

(** The truth value of [skip_sub_obj_read_check]. *)
Definition as_bool (a : arg) : result bool :=
  match a with
  | ABool b => Ok b
  | ANone => Ok false
  | AObj _ => Ok true
  | ADict d => Ok (negb (bool_decide (d = ∅)))
  | AStr x => Ok (negb (bool_decide (x = "")))
  end.

Section resolution.
Context (s : store) (e : environment) (user : User).
Context (can_access : access_callback).

(** Each class inherits from [BaseAccess] what it does not define. *)
Definition can_change (cls : access_class)
  : option instance → option dict → result bool :=
  match cls with
  | UserAccess => UserAccess.can_change s user
  | OrganizationAccess => OrganizationAccess.can_change s user
  | InventoryAccess => InventoryAccess.can_change s user can_access
  | HostAccess => HostAccess.can_change s can_access
  | GroupAccess => GroupAccess.can_change s can_access
  | CredentialAccess => CredentialAccess.can_change s user
  | TeamAccess => TeamAccess.can_change s user
  | ProjectAccess => ProjectAccess.can_change s user
  | PermissionAccess => PermissionAccess.can_change s user
  | JobTemplateAccess => JobTemplateAccess.can_change user
  | JobAccess => JobAccess.can_change user
  | JobHostSummaryAccess | JobEventAccess => BaseAccess.can_change user
  end.

Definition can_read (cls : access_class) : option instance → result bool :=
  match cls with
  | UserAccess => UserAccess.can_read s user
  | OrganizationAccess => OrganizationAccess.can_read s user
  | InventoryAccess => InventoryAccess.can_read s user
  | HostAccess => HostAccess.can_read s can_access
  | GroupAccess => GroupAccess.can_read s can_access
  | CredentialAccess => CredentialAccess.can_read s user
  | TeamAccess => TeamAccess.can_read s user
  | ProjectAccess => ProjectAccess.can_read s user
  | PermissionAccess => PermissionAccess.can_read s user
  | JobTemplateAccess => JobTemplateAccess.can_read s user
  | JobAccess | JobHostSummaryAccess | JobEventAccess =>
      BaseAccess.can_read user
  end.

Definition can_add (cls : access_class) : option dict → result bool :=
  match cls with
  | UserAccess => UserAccess.can_add s user
  | InventoryAccess => InventoryAccess.can_add s user can_access
  | HostAccess => HostAccess.can_add s e can_access
  | GroupAccess => GroupAccess.can_add s can_access
  | CredentialAccess => CredentialAccess.can_add s user can_access
  | TeamAccess => TeamAccess.can_add s user
  | JobTemplateAccess => JobTemplateAccess.can_add s user
  | OrganizationAccess | ProjectAccess | PermissionAccess | JobAccess
  | JobHostSummaryAccess | JobEventAccess => BaseAccess.can_add user
  end.

Definition can_write (cls : access_class)
  : option instance → option dict → result bool :=
  BaseAccess.can_write (can_change cls).

Definition can_admin (cls : access_class)
  : option instance → option dict → result bool :=
  match cls with
  | UserAccess => UserAccess.can_admin s user
  | InventoryAccess => InventoryAccess.can_admin s user can_access
  | _ => BaseAccess.can_admin (can_change cls)
  end.

Definition can_delete (cls : access_class) : option instance → result bool :=
  match cls with
  | UserAccess => UserAccess.can_delete s user
  | OrganizationAccess => OrganizationAccess.can_delete s user
  | InventoryAccess => InventoryAccess.can_delete s user can_access
  | CredentialAccess => CredentialAccess.can_delete s user
  | TeamAccess => TeamAccess.can_delete s user
  | ProjectAccess => ProjectAccess.can_delete s user
  | PermissionAccess => PermissionAccess.can_delete s user
  | HostAccess | GroupAccess | JobTemplateAccess | JobAccess
  | JobHostSummaryAccess | JobEventAccess => BaseAccess.can_delete user
  end.

Definition can_attach (cls : access_class)
  : option instance → option instance → string → option dict → bool →
    result bool :=
  match cls with
  | GroupAccess => GroupAccess.can_attach s can_access
  | _ => BaseAccess.can_attach can_access (can_change cls)
  end.

Definition can_unattach (cls : access_class)
  : option instance → option instance → string → result bool :=
  BaseAccess.can_unattach (can_change cls).

(** Calling a bound method with [*args]. *)
Definition call_obj (m : option instance → result bool) (args : list arg)
  : result bool :=
  match args with
  | [obj] => obj ← as_obj obj; m obj
  | _ => Raise TypeError
  end.

Definition call_data (m : option dict → result bool) (args : list arg)
  : result bool :=
  match args with
  | [data] => data ← as_data data; m data
  | _ => Raise TypeError
  end.

Definition call_obj_data (m : option instance → option dict → result bool)
    (args : list arg) : result bool :=
  match args with
  | [obj; data] => obj ← as_obj obj; data ← as_data data; m obj data
  | _ => Raise TypeError
  end.

Definition call_attach
    (m : option instance → option instance → string → option dict → bool →
         result bool) (args : list arg) : result bool :=
  match args with
  | [obj; sub_obj; relationship; data] =>
      obj ← as_obj obj; sub_obj ← as_obj sub_obj;
      relationship ← as_str relationship; data ← as_data data;
      m obj sub_obj relationship data false
  | [obj; sub_obj; relationship; data; skip] =>
      obj ← as_obj obj; sub_obj ← as_obj sub_obj;
      relationship ← as_str relationship; data ← as_data data;
      skip ← as_bool skip;
      m obj sub_obj relationship data skip
  | _ => Raise TypeError
  end.

Definition call_unattach
    (m : option instance → option instance → string → result bool)
    (args : list arg) : result bool :=
  match args with
  | [obj; sub_obj; relationship] =>
      obj ← as_obj obj; sub_obj ← as_obj sub_obj;
      relationship ← as_str relationship;
      m obj sub_obj relationship
  | _ => Raise TypeError
  end.

(** [getattr(access_instance, 'can_%s' % action, None)] *)
Definition getattr_can (cls : access_class) (action : string)
  : option (list arg → result bool) :=
  if bool_decide (action = "read") then Some (call_obj (can_read cls))
  else if bool_decide (action = "add") then Some (call_data (can_add cls))
  else if bool_decide (action = "change")
  then Some (call_obj_data (can_change cls))
  else if bool_decide (action = "write")
  then Some (call_obj_data (can_write cls))
  else if bool_decide (action = "admin")
  then Some (call_obj_data (can_admin cls))
  else if bool_decide (action = "delete")
  then Some (call_obj (can_delete cls))
  else if bool_decide (action = "attach")
  then Some (call_attach (can_attach cls))
  else if bool_decide (action = "unattach")
  then Some (call_unattach (can_unattach cls))
  else
    match cls with
    | JobAccess =>
        if bool_decide (action = "start")
        then Some (call_obj JobAccess.can_start)
        else if bool_decide (action = "cancel")
        then Some (call_obj JobAccess.can_cancel)
        else None
    | _ => None
    end.
End resolution.

(** [access_instance.get_queryset()] *)
Definition get_queryset (s : store) (user : User)
    (user_get_queryset : model_class → result (list instance))
    (cls : access_class) : result (list instance) :=
  match cls with
  | UserAccess => Ok (IUser <$> UserAccess.get_queryset s user)
  | OrganizationAccess =>
      Ok (IOrganization <$> OrganizationAccess.get_queryset s user)
  | InventoryAccess =>
      Ok (IInventory <$> InventoryAccess.get_queryset s user [])
  | HostAccess =>
      qs ← HostAccess.get_queryset s user_get_queryset;
      Ok (IHost <$> (qs : list Host))
  | GroupAccess =>
      qs ← GroupAccess.get_queryset s user_get_queryset;
      Ok (IGroup <$> (qs : list Group))
  | CredentialAccess =>
      Ok (ICredential <$> CredentialAccess.get_queryset s user)
  | TeamAccess => Ok (ITeam <$> TeamAccess.get_queryset s user)
  | ProjectAccess => Ok (IProject <$> ProjectAccess.get_queryset s user)
  | PermissionAccess => Ok (IPermission <$> PermissionAccess.get_queryset s)
  | JobTemplateAccess =>
      Ok (IJobTemplate <$> JobTemplateAccess.get_queryset s user)
  | JobAccess => Ok (IJob <$> JobAccess.get_queryset s)
  | JobHostSummaryAccess =>
      Ok (IJobHostSummary <$> JobHostSummaryAccess.get_queryset s)
  | JobEventAccess => Ok (IJobEvent <$> JobEventAccess.get_queryset s)
  end.

(** ** The registry *)

(** [access_registry] maps a model class to its access classes; a class
    that was never registered has none. *)
Definition registry := model_class → list access_class.

Definition register_access (model_class : model_class)
    (access_class : access_class) (access_registry : registry) : registry :=
  λ c, if decide (c = model_class)
       then access_registry c ++ [access_class]
       else access_registry c.

(** The registry once the module is loaded. *)
Definition access_registry : registry :=
  foldl (λ r '(m, a), register_access m a r) (λ _, [])
    [ (CUser, UserAccess); (COrganization, OrganizationAccess);
      (CInventory, InventoryAccess); (CHost, HostAccess);
      (CGroup, GroupAccess); (CCredential, CredentialAccess);
      (CTeam, TeamAccess); (CProject, ProjectAccess);
      (CPermission, PermissionAccess); (CJobTemplate, JobTemplateAccess);
      (CJob, JobAccess); (CJobHostSummary, JobHostSummaryAccess);
      (CJobEvent, JobEventAccess) ].

(** ** The entry points *)

(** Modelled from the spec: [user.can_access] and [user.get_queryset] are
    attached to the user model in [awx.main.models], which is not among the
    sources; they call back into [check_user_access] and
    [get_user_queryset] for that user.  [depth] bounds how deep these calls
    nest. *)
Fixpoint get_user_queryset_at (depth : nat) (s : store) (user : User)
    (model_class : model_class) : result (list instance) :=
  match depth with
  | O => Raise RecursionError
  | S depth =>
      querysets ← mapM (get_queryset s user (get_user_queryset_at depth s user))
                       (access_registry model_class);
      match querysets with
      | [] => Ok []
      | [qs] => Ok qs
      | _ =>
          Ok (foldl (λ queryset (qs : list instance),
                       filter (λ x, pk_of x ∈ pk_of <$> qs) queryset)
                    (objects_all s model_class) querysets)
      end
  end.

Fixpoint check_access_list (methods : list (option (list arg → result bool)))
    (args : list arg) : result bool :=
  match methods with
  | [] => Ok false
  | None :: rest => check_access_list rest args
  | Some access_method :: rest =>
      result ← access_method args;
      if (result : bool) then Ok result else check_access_list rest args
  end.

Fixpoint check_user_access_at (depth : nat) (s : store) (e : environment)
    (user : User) (model_class : model_class) (action : string)
    (args : list arg) : result bool :=
  match depth with
  | O => Raise RecursionError
  | S depth =>
      check_access_list
        ((λ cls, getattr_can s e user (check_user_access_at depth s e user)
                             cls action)
         <$> access_registry model_class)
        args
  end.

(** No chain of calls in the module nests deeper than this. *)
Definition call_depth : nat := 4.

Definition get_user_queryset (s : store) (user : User)
    (model_class : model_class) : result (list instance) :=
  get_user_queryset_at call_depth s user model_class.

Definition check_user_access (s : store) (e : environment) (user : User)
    (model_class : model_class) (action : string) (args : list arg)
  : result bool :=
  check_user_access_at call_depth s e user model_class action args.

(** ** A small installation *)

(** One superuser and four ordinary users; an organization with two teams,
    two inventories, two groups and three projects; and a handful of
    permissions.  The examples below are run on it. *)
Module demo.
Definition root := {| user_pk := 1; is_superuser := true; is_active := true |}.
Definition alice :=
  {| user_pk := 2; is_superuser := false; is_active := true |}.
Definition bob := {| user_pk := 3; is_superuser := false; is_active := true |}.
Definition carol :=
  {| user_pk := 4; is_superuser := false; is_active := true |}.
Definition dave := {| user_pk := 5; is_superuser := false; is_active := true |}.

Definition org1 := {| org_pk := 1 |}.
Definition team1 :=
  {| team_pk := 1; team_organization := 1; team_active := true |}.
Definition team2 :=
  {| team_pk := 2; team_organization := 1; team_active := true |}.

Definition inv1 := {| inv_pk := 1; inv_organization := 1; inv_active := true |}.
Definition inv2 :=
  {| inv_pk := 2; inv_organization := 1; inv_active := false |}.
Definition host1 :=
  {| host_pk := 1; host_inventory := 1; host_active := true |}.
Definition groupA :=
  {| group_pk := 1; group_inventory := 1; group_active := true |}.
Definition groupB :=
  {| group_pk := 2; group_inventory := 1; group_active := true |}.

Definition cred1 :=
  {| cred_pk := 1; cred_user := Some 2; cred_team := None;
     cred_active := true |}.

Definition proj1 := {| project_pk := 1; created_by := Some 1 |}.
Definition proj2 := {| project_pk := 2; created_by := Some 1 |}.
Definition proj3 := {| project_pk := 3; created_by := Some 1 |}.

(** alice administers inventory 1, carol may read it, bob may run check
    jobs of project 1 on it, and team 2 may run check jobs of projects 2
    and 3 on it. *)
Definition perm1 :=
  {| perm_pk := 1; perm_user := Some 2; perm_team := None;
     perm_inventory := Some 1; perm_project := None;
     permission_type := PERM_INVENTORY_ADMIN |}.
Definition perm2 :=
  {| perm_pk := 2; perm_user := Some 3; perm_team := None;
     perm_inventory := Some 1; perm_project := Some 1;
     permission_type := PERM_INVENTORY_CHECK |}.
Definition perm3 :=
  {| perm_pk := 3; perm_user := Some 4; perm_team := None;
     perm_inventory := Some 1; perm_project := None;
     permission_type := PERM_INVENTORY_READ |}.
Definition perm4 :=
  {| perm_pk := 4; perm_user := None; perm_team := Some 2;
     perm_inventory := Some 1; perm_project := Some 2;
     permission_type := PERM_INVENTORY_CHECK |}.
Definition perm5 :=
  {| perm_pk := 5; perm_user := None; perm_team := Some 2;
     perm_inventory := Some 1; perm_project := Some 3;
     permission_type := PERM_INVENTORY_CHECK |}.

Definition template1 :=
  {| jt_pk := 1; jt_inventory := 1; jt_project := 1;
     jt_job_type := PERM_INVENTORY_CHECK; jt_active := true |}.
Definition template2 :=
  {| jt_pk := 2; jt_inventory := 1; jt_project := 1;
     jt_job_type := PERM_INVENTORY_DEPLOY; jt_active := false |}.

Definition job1 := {| job_pk := 1; job_status := "new" |}.

(** bob is on team 1 and dave on team 2; team 2 works on project 3. *)
Definition db : store :=
  {| users := [root; alice; bob; carol; dave];
     organizations := [org1];
     teams := [team1; team2];
     inventories := [inv1; inv2];
     hosts := [host1];
     groups := [groupA; groupB];
     credentials := [cred1];
     projects := [proj1; proj2; proj3];
     permissions := [perm1; perm2; perm3; perm4; perm5];
     job_templates := [template1; template2];
     jobs := [job1];
     job_host_summaries := [];
     job_events := [];
     organization_admins := [];
     organization_users := [(1, 2)];
     organization_projects := [(1, 1); (1, 2); (1, 3)];
     team_users := [(1, 3); (2, 5)];
     team_projects := [(2, 3)];
     group_parents := [] |}.

(** A licence for ten hosts, all of them used. *)
Definition licence_used : gmap string Z :=
  {[ "free_instances" := 0; "available_instances" := 10 ]}.
Definition licence_free : gmap string Z :=
  {[ "free_instances" := 4; "available_instances" := 10 ]}.

(** The payload of a job template on inventory 1. *)
Definition template_payload (project : Z) (job_type : string)
  : gmap string value :=
  {[ "project" := VInt project; "inventory" := VInt 1;
     "job_type" := VStr job_type ]}.

Definition production := {| argv := ["manage.py"; "runserver"];
                            validation_info := licence_used |}.
Definition production_free := {| argv := ["manage.py"; "runserver"];
                                 validation_info := licence_free |}.
Definition testing := {| argv := ["manage.py"; "test"];
                         validation_info := licence_used |}.
End demo.

(** * Properties *)

(** ** The registry holds one access class per model *)

Definition evaluator (c : model_class) : access_class :=
  match c with
  | CUser => UserAccess
  | COrganization => OrganizationAccess
  | CInventory => InventoryAccess
  | CHost => HostAccess
  | CGroup => GroupAccess
  | CCredential => CredentialAccess
  | CTeam => TeamAccess
  | CProject => ProjectAccess
  | CPermission => PermissionAccess
  | CJobTemplate => JobTemplateAccess
  | CJob => JobAccess
  | CJobHostSummary => JobHostSummaryAccess
  | CJobEvent => JobEventAccess
  end.

Lemma access_registry_evaluator c : access_registry c = [evaluator c].
Proof. by destruct c. Qed.

Lemma model_evaluator c : model (evaluator c) = c.
Proof. by destruct c. Qed.

Lemma result_bind_id (m : result bool) :
  (r ← m; if (r : bool) then Ok r else Ok false) = m.
Proof. by destruct m as [[]|]. Qed.

Lemma check_user_access_at_S n s e user c action args :
  check_user_access_at (S n) s e user c action args =
  match getattr_can s e user (check_user_access_at n s e user)
                    (evaluator c) action with
  | Some access_method => access_method args
  | None => Ok false
  end.
Proof.
  simpl. rewrite access_registry_evaluator. simpl.
  destruct (getattr_can _ _ _ _ _ _); [apply result_bind_id | done].
Qed.

(** ** The depth of nested calls *)

(** How deep the calls under one entry nest: attaching asks to read the
    other object, hosts and groups ask about their inventory, inventories
    and credentials about an organization, a user or a team. *)
Definition rank (c : model_class) : nat :=
  match c with
  | CHost | CGroup => 3
  | CInventory | CCredential => 2
  | _ => 1
  end.

Definition rank_call (c : model_class) (action : string) : nat :=
  if bool_decide (action = "attach") then 4 else rank c.

Lemma result_bind_ext {A B} (m : result A) (k k' : A → result B) :
  (∀ a, k a = k' a) → m ≫= k = m ≫= k'.
Proof. intros H. destruct m; simpl; [apply H | done]. Qed.

Section callbacks.
Context (s : store) (e : environment) (user : User).
Context (f g : access_callback).

(** [f] and [g] agree on the calls that nest less deep than [k]. *)
Definition agree_below (k : nat) : Prop :=
  ∀ c a x, (rank_call c a < k)%nat → f c a x = g c a x.

Ltac agree H :=
  repeat first
    [ reflexivity
    | apply result_bind_ext; intros ?
    | match goal with
      | |- context [f ?c ?a ?x] =>
          rewrite (H c a x) by (apply Nat.ltb_lt; vm_compute; reflexivity)
      end
    | case_match ].

Lemma can_add_agree cls data :
  agree_below (rank (model cls)) →
  can_add s e user f cls data = can_add s e user g cls data.
Proof.
  intros H. destruct cls; simpl in *; try done.
  - unfold InventoryAccess.can_add. agree H.
  - unfold HostAccess.can_add. agree H.
  - unfold GroupAccess.can_add. agree H.
  - unfold CredentialAccess.can_add. agree H.
Qed.

Lemma can_read_agree cls obj :
  agree_below (rank (model cls)) →
  can_read s user f cls obj = can_read s user g cls obj.
Proof.
  intros H. destruct cls; simpl in *; try done.
  - unfold HostAccess.can_read. agree H.
  - unfold GroupAccess.can_read. agree H.
Qed.

Lemma can_change_agree cls obj data :
  agree_below (rank (model cls)) →
  can_change s user f cls obj data = can_change s user g cls obj data.
Proof.
  intros H. destruct cls; simpl in *; try done.
  - unfold InventoryAccess.can_change, InventoryAccess.organization_refused.
    pose proof (can_add_agree InventoryAccess data H) as Ha. simpl in Ha.
    rewrite Ha. agree H.
  - unfold HostAccess.can_change. agree H.
  - unfold GroupAccess.can_change. agree H.
Qed.

Lemma can_admin_agree cls obj data :
  agree_below (rank (model cls)) →
  can_admin s user f cls obj data = can_admin s user g cls obj data.
Proof.
  intros H.
  destruct cls;
    try (exact (can_change_agree _ obj data H)); try done.
  simpl in *.
  unfold InventoryAccess.can_admin, InventoryAccess.organization_refused.
  pose proof (can_add_agree InventoryAccess data H) as Ha. simpl in Ha.
  rewrite Ha. agree H.
Qed.

Lemma can_delete_agree cls obj :
  agree_below (rank (model cls)) →
  can_delete s user f cls obj = can_delete s user g cls obj.
Proof.
  intros H. by destruct cls.
Qed.

Lemma agree_below_le k k' : (k ≤ k')%nat → agree_below k' → agree_below k.
Proof. intros Hk H c a x Hr. apply H. lia. Qed.

Lemma rank_le (c : model_class) : (rank c ≤ 3)%nat.
Proof. destruct c; simpl; lia. Qed.

Lemma can_attach_agree cls obj sub_obj relationship data skip :
  agree_below 4 →
  can_attach s user f cls obj sub_obj relationship data skip =
  can_attach s user g cls obj sub_obj relationship data skip.
Proof.
  intros H.
  assert (Hc : ∀ o d,
            can_change s user f cls o d = can_change s user g cls o d).
  { intros o d. apply can_change_agree.
    eapply agree_below_le; [|done]. pose proof (rank_le (model cls)). lia. }
  assert (Hb : BaseAccess.can_attach f (can_change s user f cls) obj sub_obj
                 relationship data skip =
               BaseAccess.can_attach g (can_change s user g cls) obj sub_obj
                 relationship data skip).
  { unfold BaseAccess.can_attach. rewrite !Hc.
    destruct skip; [done|]. apply result_bind_ext; intros c.
    destruct c, sub_obj as [i|]; simpl; try done.
    apply H. unfold rank_call. simpl. pose proof (rank_le (type_of i)). lia. }
  destruct cls; simpl; try done.
  unfold GroupAccess.can_attach.
  change (GroupAccess.can_change s f) with (can_change s user f GroupAccess).
  change (GroupAccess.can_change s g) with (can_change s user g GroupAccess).
  by rewrite Hb.
Qed.

Lemma call_obj_ext m m' args :
  (∀ obj, m obj = m' obj) → call_obj m args = call_obj m' args.
Proof.
  intros H. unfold call_obj. repeat case_match; try done.
  apply result_bind_ext; intros; apply H.
Qed.

Lemma call_data_ext m m' args :
  (∀ data, m data = m' data) → call_data m args = call_data m' args.
Proof.
  intros H. unfold call_data. repeat case_match; try done.
  apply result_bind_ext; intros; apply H.
Qed.

Lemma call_obj_data_ext m m' args :
  (∀ obj data, m obj data = m' obj data) →
  call_obj_data m args = call_obj_data m' args.
Proof.
  intros H. unfold call_obj_data. repeat case_match; try done.
  repeat (apply result_bind_ext; intros); apply H.
Qed.

Lemma call_attach_ext m m' args :
  (∀ obj sub_obj relationship data skip,
      m obj sub_obj relationship data skip =
      m' obj sub_obj relationship data skip) →
  call_attach m args = call_attach m' args.
Proof.
  intros H. unfold call_attach. repeat case_match; try done.
  all: repeat (apply result_bind_ext; intros); apply H.
Qed.

Lemma call_unattach_ext m m' args :
  (∀ obj sub_obj relationship,
      m obj sub_obj relationship = m' obj sub_obj relationship) →
  call_unattach m args = call_unattach m' args.
Proof.
  intros H. unfold call_unattach. repeat case_match; try done.
  repeat (apply result_bind_ext; intros); apply H.
Qed.

(** A method depends on the callback only through calls that nest less
    deep than its own. *)
Lemma getattr_can_agree cls action args :
  agree_below (rank_call (model cls) action) →
  (λ m, m args) <$> getattr_can s e user f cls action =
  (λ m, m args) <$> getattr_can s e user g cls action.
Proof.
  unfold rank_call, getattr_can. intros H.
  repeat case_bool_decide; simplify_eq; simpl in H; simpl fmap; f_equal.
  all: first
    [ apply call_obj_ext; intros;
      first [by apply can_read_agree | by apply can_delete_agree]
    | apply call_data_ext; intros; by apply can_add_agree
    | apply call_obj_data_ext; intros;
      first [by apply can_change_agree | by apply can_admin_agree]
    | apply call_attach_ext; intros; by apply can_attach_agree
    | apply call_unattach_ext; intros; by apply can_change_agree
    | by destruct cls ].
Qed.
End callbacks.

Lemma rank_call_pos c a : (0 < rank_call c a)%nat.
Proof. unfold rank_call. case_bool_decide; [lia|]. destruct c; simpl; lia. Qed.

Lemma rank_call_le c a : (rank_call c a ≤ call_depth)%nat.
Proof.
  unfold rank_call, call_depth. case_bool_decide; [lia|].
  pose proof (rank_le c). lia.
Qed.

(** Two depths that both cover a call give the same answer. *)
Lemma check_user_access_at_agree k s e user :
  ∀ n m c a x, (rank_call c a ≤ k)%nat → (k ≤ n)%nat → (k ≤ m)%nat →
    check_user_access_at n s e user c a x =
    check_user_access_at m s e user c a x.
Proof.
  induction k as [|k IH]; intros n m c a x Hr Hn Hm.
  { pose proof (rank_call_pos c a). lia. }
  destruct n as [|n]; [lia|]. destruct m as [|m]; [lia|].
  rewrite !check_user_access_at_S.
  assert (Hag : agree_below (check_user_access_at n s e user)
                  (check_user_access_at m s e user) (rank_call c a)).
  { intros c' a' x' Hlt. apply IH; lia. }
  rewrite <-(model_evaluator c) in Hag at 1.
  apply (getattr_can_agree s e user _ _ (evaluator c) a x) in Hag.
  destruct (getattr_can _ _ _ (check_user_access_at n s e user) _ _),
    (getattr_can _ _ _ (check_user_access_at m s e user) _ _);
    simpl in Hag; by simplify_eq.
Qed.

(** From [call_depth] on, more depth changes no answer. *)
Theorem check_user_access_at_stable n s e user c a x :
  (call_depth ≤ n)%nat →
  check_user_access_at n s e user c a x = check_user_access s e user c a x.
Proof.
  intros Hn. apply (check_user_access_at_agree call_depth); [|done..].
  apply rank_call_le.
Qed.

(** [check_user_access] is a fixed point of the dispatch: the callback of a
    method is [check_user_access] itself. *)
Theorem check_user_access_unfold s e user c action args :
  check_user_access s e user c action args =
  match getattr_can s e user (check_user_access s e user)
                    (evaluator c) action with
  | Some access_method => access_method args
  | None => Ok false
  end.
Proof.
  rewrite <-(check_user_access_at_stable (S call_depth)) by lia.
  by rewrite check_user_access_at_S.
Qed.

Lemma get_user_queryset_at_S n s user c :
  get_user_queryset_at (S n) s user c =
  get_queryset s user (get_user_queryset_at n s user) (evaluator c).
Proof.
  simpl. rewrite access_registry_evaluator. simpl.
  by destruct (get_queryset _ _ _ _).
Qed.

Lemma get_queryset_agree s user f g cls :
  f CInventory = g CInventory →
  get_queryset s user f cls = get_queryset s user g cls.
Proof.
  intros H. destruct cls; simpl; try done.
  - unfold HostAccess.get_queryset. by rewrite H.
  - unfold GroupAccess.get_queryset. by rewrite H.
Qed.

Theorem get_user_queryset_at_stable n s user c :
  (2 ≤ n)%nat →
  get_user_queryset_at n s user c = get_user_queryset s user c.
Proof.
  intros Hn. destruct n as [|[|n]]; [lia..|].
  unfold get_user_queryset, call_depth.
  rewrite !get_user_queryset_at_S. apply get_queryset_agree.
  by rewrite !get_user_queryset_at_S.
Qed.

Theorem get_user_queryset_unfold s user c :
  get_user_queryset s user c =
  get_queryset s user (get_user_queryset s user) (evaluator c).
Proof.
  rewrite <-(get_user_queryset_at_stable (S call_depth))
    by (unfold call_depth; lia).
  by rewrite get_user_queryset_at_S.
Qed.

Arguments check_user_access : simpl never.
Arguments get_user_queryset : simpl never.

(** ** No call runs out of depth *)

(** The call did not hit the bound on nested calls. *)
Definition within_depth {A} (r : result A) : Prop := r ≠ Raise RecursionError.

Lemma within_depth_Ok {A} (a : A) : within_depth (Ok a).
Proof. done. Qed.

Lemma within_depth_bind {A B} (m : result A) (k : A → result B) :
  within_depth m → (∀ a, within_depth (k a)) → within_depth (m ≫= k).
Proof.
  intros Hm Hk. destruct m; [apply Hk|]. intros [= ->]. by apply Hm.
Qed.

Lemma within_depth_fmap {A B} (g : A → B) (m : result A) :
  within_depth m → within_depth (g <$> m).
Proof. intros Hm. destruct m; [done|]. intros [= ->]. by apply Hm. Qed.

Section depth.
Context (s : store) (e : environment) (user : User).
Context (f : access_callback).

Definition safe_below (k : nat) : Prop :=
  ∀ c a x, (rank_call c a < k)%nat → within_depth (f c a x).

Ltac within H :=
  repeat first
    [ apply within_depth_Ok
    | discriminate
    | apply within_depth_bind; [|intros ?]
    | apply within_depth_fmap
    | apply H; apply Nat.ltb_lt; vm_compute; reflexivity
    | case_match
    | progress unfold within_depth at 1 ].

Lemma can_add_within cls data :
  safe_below (rank (model cls)) → within_depth (can_add s e user f cls data).
Proof.
  intros H. destruct cls; simpl;
    unfold UserAccess.can_add, InventoryAccess.can_add, HostAccess.can_add,
      GroupAccess.can_add, CredentialAccess.can_add, TeamAccess.can_add,
      JobTemplateAccess.can_add, JobTemplateAccess.has_credential,
      BaseAccess.can_add,
      get_object_or_400, objects_get, dict_item, follow_null, follow,
      pk_of_value; within H.
Qed.

Lemma can_read_within cls obj :
  safe_below (rank (model cls)) → within_depth (can_read s user f cls obj).
Proof.
  intros H. destruct cls; simpl;
    unfold UserAccess.can_read, UserAccess.can_change, UserAccess.can_admin,
      OrganizationAccess.can_read, OrganizationAccess.can_change,
      InventoryAccess.can_read, InventoryAccess.has_permission_types,
      HostAccess.can_read, GroupAccess.can_read,
      CredentialAccess.can_read, CredentialAccess.can_change,
      TeamAccess.can_read, TeamAccess.can_change,
      ProjectAccess.can_read, ProjectAccess.can_change,
      PermissionAccess.can_read, PermissionAccess.can_change,
      JobTemplateAccess.can_read, JobTemplateAccess.can_add,
      JobTemplateAccess.has_credential, BaseAccess.can_read,
      py_or, py_and, follow_null, follow, objects_get, dict_item, pk_of_value,
      the_user, the_organization, the_host, the_group,
      the_credential, the_team, the_project, the_permission,
      the_job_template; within H.
Qed.

Lemma can_change_within cls obj data :
  safe_below (rank (model cls)) →
  within_depth (can_change s user f cls obj data).
Proof.
  intros H. destruct cls; simpl;
    unfold UserAccess.can_change, UserAccess.can_admin,
      OrganizationAccess.can_change,
      InventoryAccess.can_change, InventoryAccess.organization_refused,
      InventoryAccess.can_add, InventoryAccess.has_permission_types,
      HostAccess.can_change, GroupAccess.can_change,
      CredentialAccess.can_change, TeamAccess.can_change,
      ProjectAccess.can_change, PermissionAccess.can_change,
      JobTemplateAccess.can_change, JobAccess.can_change,
      BaseAccess.can_change,
      py_or, py_and, follow_null, follow, get_object_or_400, pk_of_value,
      the_user, the_organization, the_host, the_group,
      the_credential, the_team, the_project, the_permission, the_job;
    within H.
Qed.

Lemma can_admin_within cls obj data :
  safe_below (rank (model cls)) →
  within_depth (can_admin s user f cls obj data).
Proof.
  intros H.
  destruct cls; try exact (can_change_within _ obj data H); simpl;
    unfold UserAccess.can_admin,
      InventoryAccess.can_admin, InventoryAccess.organization_refused,
      InventoryAccess.can_add, InventoryAccess.has_permission_types,
      get_object_or_400, pk_of_value, the_user; within H.
Qed.

Lemma can_delete_within cls obj :
  safe_below (rank (model cls)) → within_depth (can_delete s user f cls obj).
Proof.
  intros H.
  destruct cls; simpl;
    try exact (can_change_within OrganizationAccess obj None H);
    try exact (can_change_within TeamAccess obj None H);
    try exact (can_change_within ProjectAccess obj None H);
    try exact (can_change_within PermissionAccess obj None H);
    try exact (can_admin_within InventoryAccess obj None H).
  all: unfold UserAccess.can_delete, CredentialAccess.can_delete,
         CredentialAccess.can_change, BaseAccess.can_delete,
         py_or, follow_null, follow, the_user, the_credential; within H.
Qed.

Lemma safe_below_le k k' : (k ≤ k')%nat → safe_below k' → safe_below k.
Proof. intros Hk H c a x Hr. apply H. lia. Qed.

Lemma can_attach_within cls obj sub_obj relationship data skip :
  safe_below 4 →
  within_depth (can_attach s user f cls obj sub_obj relationship data skip).
Proof.
  intros H.
  assert (Hc : ∀ o d, within_depth (can_change s user f cls o d)).
  { intros o d. apply can_change_within.
    eapply safe_below_le; [|done]. pose proof (rank_le (model cls)). lia. }
  assert (Hb : within_depth
            (BaseAccess.can_attach f (can_change s user f cls) obj sub_obj
               relationship data skip)).
  { unfold BaseAccess.can_attach. destruct skip; [apply Hc|].
    apply within_depth_bind; [apply Hc|]. intros c.
    destruct c, sub_obj as [i|]; simpl; try done.
    apply H. unfold rank_call. simpl. pose proof (rank_le (type_of i)). lia. }
  destruct cls; try exact Hb.
  unfold can_attach, GroupAccess.can_attach.
  apply within_depth_bind; [exact Hb|]. intros base.
  unfold the_group. within H.
Qed.

Lemma call_obj_within m args :
  (∀ obj, within_depth (m obj)) → within_depth (call_obj m args).
Proof. intros H. unfold call_obj, as_obj. within H. Qed.

Lemma call_data_within m args :
  (∀ data, within_depth (m data)) → within_depth (call_data m args).
Proof. intros H. unfold call_data, as_data. within H. Qed.

Lemma call_obj_data_within m args :
  (∀ obj data, within_depth (m obj data)) →
  within_depth (call_obj_data m args).
Proof. intros H. unfold call_obj_data, as_obj, as_data. within H. Qed.

Lemma call_attach_within m args :
  (∀ obj sub_obj relationship data skip,
     within_depth (m obj sub_obj relationship data skip)) →
  within_depth (call_attach m args).
Proof.
  intros H. unfold call_attach, as_obj, as_data, as_str, as_bool. within H.
Qed.

Lemma call_unattach_within m args :
  (∀ obj sub_obj relationship, within_depth (m obj sub_obj relationship)) →
  within_depth (call_unattach m args).
Proof. intros H. unfold call_unattach, as_obj, as_str. within H. Qed.

Lemma getattr_can_within cls action args access_method :
  safe_below (rank_call (model cls) action) →
  getattr_can s e user f cls action = Some access_method →
  within_depth (access_method args).
Proof.
  unfold rank_call, getattr_can. intros H Hm.
  repeat case_bool_decide; simplify_eq; simpl in H.
  all: first
    [ apply call_obj_within; intros;
      first [by apply can_read_within | by apply can_delete_within]
    | apply call_data_within; intros; by apply can_add_within
    | apply call_obj_data_within; intros;
      first [by apply can_change_within | by apply can_admin_within]
    | apply call_attach_within; intros; by apply can_attach_within
    | apply call_unattach_within; intros; by apply can_change_within
    | idtac ].
  all: destruct cls; simplify_eq; by apply call_obj_within.
Qed.
End depth.

(** A depth that covers a call is enough for it. *)
Lemma check_user_access_at_within n s e user :
  ∀ c a x, (rank_call c a ≤ n)%nat →
    within_depth (check_user_access_at n s e user c a x).
Proof.
  induction n as [|n IH]; intros c a x Hr.
  { pose proof (rank_call_pos c a). lia. }
  rewrite check_user_access_at_S.
  destruct (getattr_can _ _ _ _ _ _) as [m|] eqn:Hm; [|done].
  apply (getattr_can_within s e user _ _ _ x m) in Hm; [done|].
  rewrite model_evaluator. intros c' a' x' Hlt. apply IH. lia.
Qed.

(** [check_user_access] answers or raises an exception of the code: the
    bound on the depth of calls is never hit. *)
Theorem check_user_access_within_depth s e user c action args :
  check_user_access s e user c action args ≠ Raise RecursionError.
Proof. apply check_user_access_at_within, rank_call_le. Qed.

Theorem get_user_queryset_within_depth s user c :
  get_user_queryset s user c ≠ Raise RecursionError.
Proof.
  rewrite get_user_queryset_unfold. by destruct c.
Qed.

(** ** Hosts *)

(** Calling a method with the arguments of a request. *)
Lemma call_obj_arg m obj : call_obj m [arg_of_obj obj] = m obj.
Proof. by destruct obj. Qed.

Lemma call_data_arg m data : call_data m [arg_of_data data] = m data.
Proof. by destruct data. Qed.

Lemma call_obj_data_arg m obj data :
  call_obj_data m [arg_of_obj obj; arg_of_data data] = m obj data.
Proof. by destruct obj, data. Qed.

Lemma call_unattach_arg m obj sub_obj relationship :
  call_unattach m [arg_of_obj obj; arg_of_obj sub_obj; AStr relationship]
  = m obj sub_obj relationship.
Proof. by destruct obj, sub_obj. Qed.
Lemma falsy_data_lookup d k v : d !! k = Some v → falsy_data (Some d) = false.
Proof.
  intros H. apply bool_decide_eq_false_2. intros ->.
  by rewrite lookup_empty in H.
Qed.

Lemma has_key_Some (d : dict) k v : d !! k = Some v → has_key k d = true.
Proof. intros H. apply bool_decide_eq_true_2. by rewrite H. Qed.

Lemma has_key_None (d : dict) k : d !! k = None → has_key k d = false.
Proof. intros H. apply bool_decide_eq_false_2. rewrite H. by intros [? ?]. Qed.

Lemma get_by_pk_Some {A} (pk : A → Z) table k x :
  get_by_pk pk table k = Some x → pk x = k ∧ x ∈ table.
Proof.
  unfold get_by_pk, filter_pk. intros H. apply head_Some_elem_of in H.
  by apply list_elem_of_filter in H.
Qed.

Lemma falsy_data_Some d : falsy_data (Some d) = bool_decide (d = ∅).
Proof. done. Qed.




(** The licence test of [HostAccess.can_add], for an actor who may change
    the inventory the payload names. *)
Lemma host_add_cases s e user d inventory :
  d !! "inventory" = Some (VInt (inv_pk inventory)) →
  get_by_pk inv_pk (inventories s) (inv_pk inventory) = Some inventory →
  check_user_access s e user CInventory "change"
    [AObj (IInventory inventory); ANone] = Ok true →
  check_user_access s e user CHost "add" [ADict d] =
    if bool_decide ("test" ∈ argv e) then Ok true
    else if bool_decide (0 < default 0 (validation_info e !! "free_instances"))
    then Ok true
    else Raise (PermissionDenied
           ("license range of "
            +:+ pretty (default 0 (validation_info e !! "available_instances"))
            +:+ " instances has been exceed")).
Proof.
  intros Hd Hrow Hchange. rewrite check_user_access_unfold. simpl.
  unfold HostAccess.can_add. rewrite falsy_data_Some.
  assert (d ≠ ∅) as Hne by (intros ->; by rewrite lookup_empty in Hd).
  rewrite (bool_decide_eq_false_2 (d = ∅)) by done.
  unfold has_key, dict_get, get_object_or_400. simpl. rewrite Hd. simpl.
  rewrite Hrow. simpl. rewrite Hchange. simpl.
  destruct (bool_decide ("test" ∈ argv e)); [|done].
  by rewrite lookup_insert_eq.
Qed.

(** C2, as the code has it.  For an actor who may change the target
    inventory, in a process that was not started with a [test] argument,
    [HostAccess.can_add] raises [PermissionDenied] naming the configured
    number of instances when the licence reports no free instance, and
    returns true when it reports some; under a [test] argument it returns
    true whatever the licence reports. *)
Theorem host_add_licence s e user d inventory :
  d !! "inventory" = Some (VInt (inv_pk inventory)) →
  get_by_pk inv_pk (inventories s) (inv_pk inventory) = Some inventory →
  check_user_access s e user CInventory "change"
    [AObj (IInventory inventory); ANone] = Ok true →
  ("test" ∉ argv e →
   default 0 (validation_info e !! "free_instances") ≤ 0 →
     check_user_access s e user CHost "add" [ADict d] =
     Raise (PermissionDenied
       ("license range of "
        +:+ pretty (default 0 (validation_info e !! "available_instances"))
        +:+ " instances has been exceed")))
  ∧ ("test" ∉ argv e →
     0 < default 0 (validation_info e !! "free_instances") →
     check_user_access s e user CHost "add" [ADict d] = Ok true)
  ∧ ("test" ∈ argv e →
     check_user_access s e user CHost "add" [ADict d] = Ok true).
Proof.
  intros Hd Hrow Hchange.
  rewrite (host_add_cases s e user d inventory) by done.
  repeat split; intros; repeat case_bool_decide; try done; lia.
Qed.

Lemma host_add_licence_witness :
  check_user_access demo.db demo.production demo.alice CHost "add"
    [ADict {[ "inventory" := VInt 1 ]}]
  = Raise (PermissionDenied "license range of 10 instances has been exceed")
  ∧ check_user_access demo.db demo.production_free demo.alice CHost "add"
      [ADict {[ "inventory" := VInt 1 ]}] = Ok true.
Proof.
  split.
  - refine (proj1 (host_add_licence demo.db demo.production demo.alice
                     {[ "inventory" := VInt 1 ]} demo.inv1 _ _ _) _ _).
    + reflexivity.
    + reflexivity.
    + reflexivity.
    + apply (bool_decide_unpack _). vm_compute. exact I.
    + vm_compute. discriminate.
  - refine (proj1 (proj2 (host_add_licence demo.db demo.production_free
                            demo.alice {[ "inventory" := VInt 1 ]} demo.inv1
                            _ _ _)) _ _).
    + reflexivity.
    + reflexivity.
    + reflexivity.
    + apply (bool_decide_unpack _). vm_compute. exact I.
    + vm_compute. reflexivity.
Defined.

(** C2 as stated fails: in a test run the licence is not consulted.  root
    may change inventory 1 and the licence reports no free instance, yet the
    host may be added. *)
Lemma host_add_test_run_ignores_licence :
  check_user_access demo.db demo.testing demo.root CInventory "change"
    [AObj (IInventory demo.inv1); ANone] = Ok true
  ∧ validation_info demo.testing !! "free_instances" = Some 0
  ∧ check_user_access demo.db demo.testing demo.root CHost "add"
      [ADict {[ "inventory" := VInt 1 ]}] = Ok true.
Proof. by vm_compute. Qed.

(** ** Users *)

(** C6. Nobody may delete their own account, and nobody, superusers
    included, may delete a superuser who is the only active superuser
    left. *)
Theorem user_delete_self_or_last_superuser s e user target :
  user_pk target = user_pk user
  ∨ (is_superuser target = true
     ∧ filter (λ u, is_active u && is_superuser u) (users s) = [target]) →
  check_user_access s e user CUser "delete" [AObj (IUser target)] = Ok false.
Proof.
  intros H. rewrite check_user_access_unfold. simpl.
  unfold UserAccess.can_delete, instance_eqb. simpl.
  destruct (decide (user_pk target = user_pk user)) as [Heq|Hne].
  { by rewrite bool_decide_eq_true_2. }
  rewrite bool_decide_eq_false_2 by done.
  destruct H as [|[Hsuper Hlast]]; [done|].
  by rewrite Hlast, Hsuper.
Qed.

Lemma user_delete_self_or_last_superuser_witness :
  check_user_access demo.db demo.production demo.alice CUser "delete"
    [AObj (IUser demo.alice)] = Ok false
  ∧ check_user_access demo.db demo.production demo.alice CUser "delete"
      [AObj (IUser demo.root)] = Ok false.
Proof.
  split; apply user_delete_self_or_last_superuser.
  - left. reflexivity.
  - right. split; reflexivity.
Defined.

(** [UserAccess.can_read] counts the teams of the acting user that have the
    acting user as a member, whoever [obj] is. *)
Lemma user_read_on_a_team s e user obj :
  user_teams s user ≠ [] →
  check_user_access s e user CUser "read" [arg_of_obj obj] = Ok true.
Proof.
  intros Hteams. rewrite check_user_access_unfold. simpl evaluator.
  assert (getattr_can s e user (check_user_access s e user) UserAccess "read"
          = Some (call_obj (UserAccess.can_read s user))) as -> by done.
  assert (call_obj (UserAccess.can_read s user) [arg_of_obj obj]
          = UserAccess.can_read s user obj) as -> by (by destruct obj).
  unfold UserAccess.can_read.
  assert (filter (λ t, related (team_users s) (team_pk t) (user_pk user))
                 (user_teams s user) = user_teams s user) as ->.
  { unfold user_teams. by rewrite list_filter_filter_l. }
  by destruct (user_teams s user).
Qed.

(** C7, at the failing input.  bob and carol share no team and no
    organization, and bob is not a superuser; bob sits on a team, and that
    alone lets him read carol, whom the queryset of the same class hides
    from him. *)
Theorem user_read_without_relation :
  is_superuser demo.bob = false
  ∧ user_teams demo.db demo.carol = []
  ∧ user_organizations demo.db demo.carol = []
  ∧ get_user_queryset demo.db demo.bob CUser = Ok [IUser demo.bob]
  ∧ check_user_access demo.db demo.production demo.bob CUser "read"
      [AObj (IUser demo.carol)] = Ok true.
Proof. by vm_compute. Qed.

(** ** Job templates *)

(** C8, at the failing input.  dave's only grants come through team 2.
    Team 2 does not work on project 2, and the template is allowed; team 2
    works on project 3, and the template is refused: the test on the
    project's teams is the wrong way round. *)
Theorem job_template_add_team_association :
  is_superuser demo.dave = false
  ∧ JobTemplateAccess.user_permissions demo.db demo.dave demo.inv1 demo.proj2
    = []
  ∧ JobTemplateAccess.team_permissions demo.db demo.dave demo.inv1 demo.proj2
    = [demo.perm4]
  ∧ project_teams demo.db demo.proj2 = []
  ∧ check_user_access demo.db demo.production demo.dave CJobTemplate "add"
      [ADict (demo.template_payload 2 PERM_INVENTORY_CHECK)] = Ok true
  ∧ JobTemplateAccess.team_permissions demo.db demo.dave demo.inv1 demo.proj3
    = [demo.perm5]
  ∧ project_teams demo.db demo.proj3 = [demo.team2]
  ∧ user_teams demo.db demo.dave = [demo.team2]
  ∧ check_user_access demo.db demo.production demo.dave CJobTemplate "add"
      [ADict (demo.template_payload 3 PERM_INVENTORY_CHECK)] = Ok false.
Proof. by vm_compute. Qed.

(** ** Querysets *)

Lemma truthy_count_true {A} (l : list A) :
  truthy (count l) = true ↔ ∃ x, x ∈ l.
Proof.
  destruct l as [|x l]; simpl.
  - split; [done|]. intros [x Hx]. by apply not_elem_of_nil in Hx.
  - split; [|done]. intros _. exists x. left.
Qed.

Lemma elem_of_filter_pk {A} (pk : A → Z) k l x :
  x ∈ filter_pk pk k l ↔ pk x = k ∧ x ∈ l.
Proof. unfold filter_pk. by rewrite list_elem_of_filter. Qed.

Lemma elem_of_qs_or {A} (pk : A → Z) a b x :
  x ∈ qs_or pk a b ↔ x ∈ a ∨ ((pk x ∉ (pk <$> a)) ∧ x ∈ b).
Proof. unfold qs_or. by rewrite elem_of_app, list_elem_of_filter. Qed.

(** A key is among the rows of [a | b] when it is among those of [a] or of
    [b]. *)
Lemma qs_or_has_pk {A} (pk : A → Z) k a b :
  (∃ x, x ∈ filter_pk pk k (qs_or pk a b)) ↔
  (∃ x, x ∈ filter_pk pk k a) ∨ (∃ x, x ∈ filter_pk pk k b).
Proof.
  setoid_rewrite elem_of_filter_pk. setoid_rewrite elem_of_qs_or. split.
  - intros (x & Hk & [Ha | [_ Hb]]); eauto.
  - intros [(x & Hk & Ha) | (x & Hk & Hb)]; [by eauto|].
    destruct (decide (pk x ∈ pk <$> a)) as [Hin|Hout]; [|by eauto].
    apply list_elem_of_fmap in Hin as (y & Hy & Hya).
    exists y. split; [congruence | by left].
Qed.

Lemma existsb_true {A} (f : A → bool) l :
  existsb f l = true ↔ ∃ x, x ∈ l ∧ f x = true.
Proof.
  rewrite existsb_exists. by setoid_rewrite list_elem_of_In.
Qed.

(** ** Inactive rows *)

(** The soft-delete flag of a row, for the models that the classes filter
    on it. *)
Definition active_row (i : instance) : bool :=
  match i with
  | IUser u => is_active u
  | IInventory i => inv_active i
  | IHost h => host_active h
  | IGroup g => group_active g
  | ICredential c => cred_active c
  | ITeam t => team_active t
  | IJobTemplate t => jt_active t
  | _ => true
  end.

(** X29. Apart from the job templates of a superuser, no queryset holds an
    inactive row. *)
Lemma get_user_queryset_active s user c qs i :
  (c = CJobTemplate → is_superuser user = false) →
  get_user_queryset s user c = Ok qs →
  i ∈ qs →
  active_row i = true.
Proof.
  intros Hc. rewrite get_user_queryset_unfold.
  destruct c; simpl;
    unfold UserAccess.get_queryset, OrganizationAccess.get_queryset,
      InventoryAccess.get_queryset, CredentialAccess.get_queryset,
      TeamAccess.get_queryset, ProjectAccess.get_queryset,
      JobTemplateAccess.get_queryset;
    try rewrite Hc by done;
    intros [= <-] Hin;
    apply list_elem_of_fmap in Hin as (x & -> & Hin); simpl; try done;
    destruct (is_superuser user);
    repeat first
      [ apply list_elem_of_filter in Hin as [? Hin]
      | apply elem_of_qs_or in Hin as [Hin | [? Hin]] ];
    by apply Is_true_true.
Qed.

Lemma get_user_queryset_active_witness :
  active_row (IInventory demo.inv1) = true.
Proof.
  refine (get_user_queryset_active demo.db demo.carol CInventory
            [IInventory demo.inv1] (IInventory demo.inv1) _ _ _).
  - discriminate.
  - reflexivity.
  - left.
Defined.

(** C9, at the failing input.  For a superuser the queryset of job
    templates is every row: template 2 is inactive and is returned. *)
Theorem job_template_queryset_superuser_inactive :
  jt_active demo.template2 = false
  ∧ get_user_queryset demo.db demo.root CJobTemplate
    = Ok [IJobTemplate demo.template1; IJobTemplate demo.template2].
Proof. by vm_compute. Qed.

(** ** Inventories *)

(** The permissions that tie [user] to the inventory [k], directly or
    through a team. *)
Definition inventory_grants (s : store) (user : User) (k : Z)
  : list Permission :=
  filter (λ p, fk_is (perm_inventory p) k
               && (fk_is (perm_user p) (user_pk user)
                   || from_option (λ t, related (team_users s) t (user_pk user))
                                  false (perm_team p)))
         (permissions s).

(** The rows with key [k] among the active inventories that pass [test]. *)
Lemma active_inventories_has_pk s k (test : Inventory → bool) :
  (∃ x, x ∈ filter_pk inv_pk k
              (filter (λ i, test i)
                      (filter (λ i, inv_active i) (inventories s)))) ↔
  ∃ row, row ∈ inventories s ∧ inv_pk row = k ∧ inv_active row = true
         ∧ test row = true.
Proof.
  split.
  - intros (x & H). apply elem_of_filter_pk in H as [Hk H].
    apply list_elem_of_filter in H as [Htest H].
    apply list_elem_of_filter in H as [Hactive H].
    exists x. by rewrite <-!Is_true_true.
  - intros (row & H & Hk & Hactive & Htest). exists row.
    apply elem_of_filter_pk. split; [done|].
    apply list_elem_of_filter. split; [by apply Is_true_true|].
    apply list_elem_of_filter. split; [by apply Is_true_true | done].
Qed.

(** A grant at one of the [allowed] levels, held directly or through a
    team. *)
Lemma inventory_grants_allowed s user k (allowed : list string) :
  existsb (λ p, fk_is (perm_inventory p) k
                && fk_is (perm_user p) (user_pk user)
                && bool_decide (permission_type p ∈ allowed))
          (permissions s) = true
  ∨ existsb (λ p, fk_is (perm_inventory p) k
                  && from_option (λ t, related (team_users s) t (user_pk user))
                                 false (perm_team p)
                  && bool_decide (permission_type p ∈ allowed))
            (permissions s) = true ↔
  ∃ p, p ∈ inventory_grants s user k ∧ permission_type p ∈ allowed.
Proof.
  unfold inventory_grants. rewrite !existsb_true. split.
  - intros [(p & Hp & H) | (p & Hp & H)];
      apply andb_true_iff in H as [H Hlevel];
      apply andb_true_iff in H as [Hinv Hwho];
      apply bool_decide_eq_true in Hlevel;
      exists p; (split; [|done]);
      apply list_elem_of_filter; (split; [|done]);
      apply Is_true_true; rewrite Hinv, Hwho; [done | apply orb_true_r].
  - intros (p & Hp & Hlevel). apply list_elem_of_filter in Hp as [H Hp].
    apply Is_true_true, andb_true_iff in H as [Hinv Hwho].
    apply (bool_decide_eq_true_2 _) in Hlevel.
    apply orb_true_iff in Hwho as [Hwho | Hwho]; [left | right];
      exists p; by rewrite Hinv, Hwho, Hlevel.
Qed.

Lemma has_permission_types_true s user inv allowed :
  is_superuser user = false →
  allowed ≠ [] →
  InventoryAccess.has_permission_types s user (Some (IInventory inv)) allowed
  = Ok true ↔
  ∃ row, row ∈ inventories s ∧ inv_pk row = inv_pk inv
    ∧ inv_active row = true
    ∧ (related (organization_admins s) (inv_organization row) (user_pk user)
       = true
       ∨ ∃ p, p ∈ inventory_grants s user (inv_pk inv)
              ∧ permission_type p ∈ allowed).
Proof.
  intros Huser Hallowed.
  unfold InventoryAccess.has_permission_types, InventoryAccess.get_queryset.
  simpl. rewrite Huser.
  destruct allowed as [|level allowed]; [done|].
  set (levels := level :: allowed).
  split.
  - intros [= H]. apply truthy_count_true in H.
    rewrite !qs_or_has_pk, !active_inventories_has_pk in H.
    destruct H as [[H | H] | H]; destruct H as (row & ? & Hk & ? & H);
      exists row; (repeat split; try done); [by left | right..];
      apply inventory_grants_allowed; rewrite <-Hk; [by left | by right].
  - intros (row & ? & Hk & ? & H). f_equal. apply truthy_count_true.
    rewrite !qs_or_has_pk, !active_inventories_has_pk.
    destruct H as [H | H]; [by eauto 10|].
    apply inventory_grants_allowed in H. rewrite <-Hk in H.
    destruct H as [H | H]; eauto 10.
Qed.

Lemma has_permission_types_Ok s user inv allowed :
  ∃ b, InventoryAccess.has_permission_types s user (Some (IInventory inv))
         allowed = Ok b.
Proof. unfold InventoryAccess.has_permission_types. simpl. eauto. Qed.

Lemma has_permission_types_false s user inv allowed :
  InventoryAccess.has_permission_types s user (Some (IInventory inv)) allowed
  ≠ Ok true →
  InventoryAccess.has_permission_types s user (Some (IInventory inv)) allowed
  = Ok false.
Proof.
  destruct (has_permission_types_Ok s user inv allowed) as [[] ->]; done.
Qed.

Lemma organization_refused_without s user f data :
  from_option (λ d : dict, d !! "organization") None data = None →
  InventoryAccess.organization_refused s user f data = Ok false.
Proof.
  intros H. unfold InventoryAccess.organization_refused, has_key.
  destruct data as [d|]; simpl in *; [|done].
  rewrite H. rewrite (bool_decide_eq_false_2 (is_Some None)).
  - by rewrite andb_false_r.
  - by intros [? ?].
Qed.

Lemma check_inventory_read s e user inv :
  check_user_access s e user CInventory "read" [AObj (IInventory inv)] =
  InventoryAccess.has_permission_types s user (Some (IInventory inv))
    PERMISSION_TYPES_ALLOWING_INVENTORY_READ.
Proof. by rewrite check_user_access_unfold. Qed.

Lemma check_inventory_change s e user inv data action :
  action = "change" ∨ action = "write" →
  from_option (λ d : dict, d !! "organization") None data = None →
  check_user_access s e user CInventory action
    [AObj (IInventory inv); arg_of_data data] =
  InventoryAccess.has_permission_types s user (Some (IInventory inv))
    PERMISSION_TYPES_ALLOWING_INVENTORY_WRITE.
Proof.
  intros Ha Hd. rewrite check_user_access_unfold.
  assert (getattr_can s e user (check_user_access s e user)
            (evaluator CInventory) action
          = Some (call_obj_data
              (InventoryAccess.can_change s user (check_user_access s e user))))
    as -> by (by destruct Ha as [-> | ->]).
  assert (∀ m, call_obj_data m [AObj (IInventory inv); arg_of_data data]
               = m (Some (IInventory inv)) data) as ->
    by (by destruct data).
  unfold InventoryAccess.can_change.
  by rewrite organization_refused_without.
Qed.

Lemma check_inventory_admin s e user inv data :
  from_option (λ d : dict, d !! "organization") None data = None →
  check_user_access s e user CInventory "admin"
    [AObj (IInventory inv); arg_of_data data] =
  InventoryAccess.has_permission_types s user (Some (IInventory inv))
    PERMISSION_TYPES_ALLOWING_INVENTORY_ADMIN.
Proof.
  intros Hd. rewrite check_user_access_unfold.
  assert (getattr_can s e user (check_user_access s e user)
            (evaluator CInventory) "admin"
          = Some (call_obj_data
              (InventoryAccess.can_admin s user (check_user_access s e user))))
    as -> by done.
  assert (∀ m, call_obj_data m [AObj (IInventory inv); arg_of_data data]
               = m (Some (IInventory inv)) data) as ->
    by (by destruct data).
  unfold InventoryAccess.can_admin.
  by rewrite organization_refused_without.
Qed.

(** What a single grant gives on an inventory. *)
Lemma single_grant_permission_types s user inv p allowed :
  is_superuser user = false →
  allowed ≠ [] →
  (∃ row, row ∈ inventories s ∧ inv_pk row = inv_pk inv
          ∧ inv_active row = true) →
  (∀ row, row ∈ inventories s → inv_pk row = inv_pk inv →
     related (organization_admins s) (inv_organization row) (user_pk user)
     = false) →
  inventory_grants s user (inv_pk inv) = [p] →
  InventoryAccess.has_permission_types s user (Some (IInventory inv)) allowed
  = Ok (bool_decide (permission_type p ∈ allowed)).
Proof.
  intros Huser Hallowed (row & Hrow & Hk & Hact) Hadm Hgrants.
  case_bool_decide as Hty.
  - apply has_permission_types_true; [done..|].
    exists row. repeat split; try done. right. exists p.
    rewrite Hgrants. split; [apply list_elem_of_singleton|]; done.
  - apply has_permission_types_false. intros H.
    apply has_permission_types_true in H; [|done..].
    destruct H as (row' & Hrow' & Hk' & _ & [H | (q & Hq & Hqty)]).
    + by rewrite Hadm in H.
    + rewrite Hgrants in Hq. apply list_elem_of_singleton in Hq. by subst q.
Qed.

(** C3, as the code has it.  A user who is no superuser and no admin of the
    inventory's organization holds one grant on an active inventory, and the
    payload names no organization.  An admin grant passes the read, write,
    change and admin checks; a read grant passes the read check and fails the
    others; a check grant passes none. *)
Theorem inventory_grant_levels s e user inv p data :
  is_superuser user = false →
  (∃ row, row ∈ inventories s ∧ inv_pk row = inv_pk inv
          ∧ inv_active row = true) →
  (∀ row, row ∈ inventories s → inv_pk row = inv_pk inv →
     related (organization_admins s) (inv_organization row) (user_pk user)
     = false) →
  inventory_grants s user (inv_pk inv) = [p] →
  from_option (λ d : dict, d !! "organization") None data = None →
  (permission_type p = PERM_INVENTORY_ADMIN →
     check_user_access s e user CInventory "read" [AObj (IInventory inv)]
     = Ok true
     ∧ check_user_access s e user CInventory "write"
         [AObj (IInventory inv); arg_of_data data] = Ok true
     ∧ check_user_access s e user CInventory "change"
         [AObj (IInventory inv); arg_of_data data] = Ok true
     ∧ check_user_access s e user CInventory "admin"
         [AObj (IInventory inv); arg_of_data data] = Ok true)
  ∧ (permission_type p = PERM_INVENTORY_READ →
     check_user_access s e user CInventory "read" [AObj (IInventory inv)]
     = Ok true
     ∧ check_user_access s e user CInventory "write"
         [AObj (IInventory inv); arg_of_data data] = Ok false
     ∧ check_user_access s e user CInventory "change"
         [AObj (IInventory inv); arg_of_data data] = Ok false
     ∧ check_user_access s e user CInventory "admin"
         [AObj (IInventory inv); arg_of_data data] = Ok false)
  ∧ (permission_type p = PERM_INVENTORY_CHECK →
     check_user_access s e user CInventory "read" [AObj (IInventory inv)]
     = Ok false
     ∧ check_user_access s e user CInventory "write"
         [AObj (IInventory inv); arg_of_data data] = Ok false
     ∧ check_user_access s e user CInventory "change"
         [AObj (IInventory inv); arg_of_data data] = Ok false
     ∧ check_user_access s e user CInventory "admin"
         [AObj (IInventory inv); arg_of_data data] = Ok false).
Proof.
  intros Huser Hrow Hadm Hgrants Hdata.
  rewrite check_inventory_read, !check_inventory_change, check_inventory_admin
    by eauto.
  rewrite !(single_grant_permission_types s user inv p) by done.
  repeat split; by rewrite H.
Qed.

Lemma inventory_grant_levels_witness :
  (check_user_access demo.db demo.production demo.alice CInventory "read"
     [AObj (IInventory demo.inv1)] = Ok true
   ∧ check_user_access demo.db demo.production demo.alice CInventory "write"
       [AObj (IInventory demo.inv1); ANone] = Ok true
   ∧ check_user_access demo.db demo.production demo.alice CInventory "change"
       [AObj (IInventory demo.inv1); ANone] = Ok true
   ∧ check_user_access demo.db demo.production demo.alice CInventory "admin"
       [AObj (IInventory demo.inv1); ANone] = Ok true)
  ∧ (check_user_access demo.db demo.production demo.carol CInventory "read"
       [AObj (IInventory demo.inv1)] = Ok true
     ∧ check_user_access demo.db demo.production demo.carol CInventory "write"
         [AObj (IInventory demo.inv1); ANone] = Ok false
     ∧ check_user_access demo.db demo.production demo.carol CInventory "change"
         [AObj (IInventory demo.inv1); ANone] = Ok false
     ∧ check_user_access demo.db demo.production demo.carol CInventory "admin"
         [AObj (IInventory demo.inv1); ANone] = Ok false).
Proof.
  split.
  - refine (proj1 (inventory_grant_levels demo.db demo.production demo.alice
                     demo.inv1 demo.perm1 None _ _ _ _ _) _).
    + reflexivity.
    + exists demo.inv1. repeat split. left.
    + intros row _ _. reflexivity.
    + reflexivity.
    + reflexivity.
    + reflexivity.
  - refine (proj1 (proj2 (inventory_grant_levels demo.db demo.production
                            demo.carol demo.inv1 demo.perm3 None _ _ _ _ _)) _).
    + reflexivity.
    + exists demo.inv1. repeat split. left.
    + intros row _ _. reflexivity.
    + reflexivity.
    + reflexivity.
    + reflexivity.
Defined.

(** C3 as stated fails for the check level: bob is no superuser and no
    organization admin, and his only tie to the active inventory 1 is a
    direct grant at check level; he may not read it. *)
Lemma inventory_check_grant_cannot_read :
  is_superuser demo.bob = false
  ∧ organization_admins demo.db = []
  ∧ inv_active demo.inv1 = true
  ∧ inventory_grants demo.db demo.bob (inv_pk demo.inv1) = [demo.perm2]
  ∧ perm_user demo.perm2 = Some (user_pk demo.bob)
  ∧ permission_type demo.perm2 = PERM_INVENTORY_CHECK
  ∧ check_user_access demo.db demo.production demo.bob CInventory "read"
      [AObj (IInventory demo.inv1)] = Ok false.
Proof. by vm_compute. Qed.

(** ** Launch permissions of job templates *)

Lemma has_launch_permission_foldl s user inventory project job_type :
  JobTemplateAccess.has_launch_permission s user inventory project job_type =
  foldl (JobTemplateAccess.launch_step job_type) false
    (JobTemplateAccess.user_permissions s user inventory project
     ++ JobTemplateAccess.team_permissions s user inventory project).
Proof.
  unfold JobTemplateAccess.has_launch_permission. by rewrite foldl_app.
Qed.

Lemma objects_get_pk {A} (pk : A → Z) table k x :
  get_by_pk pk table k = Some x → objects_get pk table (VInt k) = Ok x.
Proof. unfold objects_get. simpl. by intros ->. Qed.

(** [JobTemplateAccess.can_add] past its shortcuts: the launch permission,
    then the credential, then the teams of the project. *)
Lemma job_template_add_stages s e user d project inventory :
  is_superuser user = false →
  d !! "_method" = None →
  d !! "project" = Some (VInt (project_pk project)) →
  get_by_pk project_pk (projects s) (project_pk project) = Some project →
  d !! "inventory" = Some (VInt (inv_pk inventory)) →
  get_by_pk inv_pk (inventories s) (inv_pk inventory) = Some inventory →
  filter (λ o, related (organization_admins s) (org_pk o) (user_pk user))
         (project_organizations s project) = [] →
  check_user_access s e user CJobTemplate "add" [ADict d] =
    job_type ← dict_item "job_type" d;
    if negb (JobTemplateAccess.has_launch_permission s user inventory project
               job_type)
    then Ok false
    else
      owned ← JobTemplateAccess.has_credential s user d;
      if negb owned then Ok false
      else if truthy (count
                (filter (λ t, related (team_users s) (team_pk t) (user_pk user))
                        (project_teams s project)))
      then Ok false
      else Ok true.
Proof.
  intros Huser Hmethod Hp Hproject Hi Hinventory Hadmin.
  rewrite check_user_access_unfold. simpl.
  unfold JobTemplateAccess.can_add. rewrite Huser, falsy_data_Some.
  assert (d ≠ ∅) as Hne by (intros ->; by rewrite lookup_empty in Hp).
  rewrite (bool_decide_eq_false_2 (d = ∅)) by done.
  unfold has_key, dict_item. simpl. rewrite Hmethod, Hp, Hi.
  rewrite (bool_decide_eq_false_2 (is_Some None)) by (by intros [? ?]).
  simpl. rewrite (objects_get_pk _ _ _ _ Hproject). simpl.
  rewrite (objects_get_pk _ _ _ _ Hinventory). simpl.
  by rewrite Hadmin.
Qed.

(** The permissions that tie [user], directly or through a team, to the
    inventory and the project. *)
Definition pair_grants (s : store) (user : User) (inventory : Inventory)
    (project : Project) : list Permission :=
  filter (λ p, fk_is (perm_inventory p) (inv_pk inventory)
               && fk_is (perm_project p) (project_pk project)
               && (fk_is (perm_user p) (user_pk user)
                   || from_option (λ t, related (team_users s) t (user_pk user))
                                  false (perm_team p)))
         (permissions s).

(** Going over one permission again changes nothing. *)
Lemma launch_step_foldl job_type p (l : list Permission) acc :
  l ≠ [] → Forall (λ q, q = p) l →
  foldl (JobTemplateAccess.launch_step job_type) acc l
  = JobTemplateAccess.launch_step job_type acc p.
Proof.
  intros Hl Hall. revert acc.
  induction Hall as [|q l -> _ IH]; [done|]. intros acc. simpl.
  destruct l as [|q l]; [done|]. rewrite IH by done.
  unfold JobTemplateAccess.launch_step. by repeat case_match.
Qed.

(** With one grant on the pair, the two loops of [can_add] see that grant
    and no other. *)
Lemma single_pair_grant s user inventory project p job_type :
  pair_grants s user inventory project = [p] →
  JobTemplateAccess.has_launch_permission s user inventory project job_type
  = JobTemplateAccess.launch_step job_type false p.
Proof.
  intros Hgrant. rewrite has_launch_permission_foldl.
  assert (∀ q, q ∈ pair_grants s user inventory project ↔
               q ∈ JobTemplateAccess.user_permissions s user inventory project
                   ++ JobTemplateAccess.team_permissions s user inventory
                        project) as Hmem.
  { intros q. unfold pair_grants, JobTemplateAccess.user_permissions,
      JobTemplateAccess.team_permissions.
    rewrite elem_of_app, !list_elem_of_filter, !Is_true_true,
      !andb_true_iff, orb_true_iff. tauto. }
  apply launch_step_foldl.
  - intros Hnil. specialize (Hmem p). rewrite Hnil, Hgrant in Hmem.
    apply (not_elem_of_nil p), Hmem. left.
  - apply Forall_forall. intros q Hq. apply Hmem in Hq.
    rewrite Hgrant in Hq. by apply list_elem_of_singleton in Hq.
Qed.

(** C4, as the code has it.  A user who is no superuser and no admin of the
    project's organizations holds one grant on the inventory and project of
    a payload that has no [_method] key and names no credential.  When the
    user is on no team of the project, a check template may be added
    whatever the level of the grant is, and a deploy template exactly when
    the level is deploy.  When the user is on a team of the project the
    template is refused, a check template with its grant included. *)
Theorem job_template_add_grant_level s e user d project inventory p :
  is_superuser user = false →
  d !! "_method" = None →
  d !! "credential" = None →
  d !! "project" = Some (VInt (project_pk project)) →
  get_by_pk project_pk (projects s) (project_pk project) = Some project →
  d !! "inventory" = Some (VInt (inv_pk inventory)) →
  get_by_pk inv_pk (inventories s) (inv_pk inventory) = Some inventory →
  filter (λ o, related (organization_admins s) (org_pk o) (user_pk user))
         (project_organizations s project) = [] →
  pair_grants s user inventory project = [p] →
  (filter (λ t, related (team_users s) (team_pk t) (user_pk user))
          (project_teams s project) = [] →
     (d !! "job_type" = Some (VStr PERM_INVENTORY_CHECK) →
      check_user_access s e user CJobTemplate "add" [ADict d] = Ok true)
     ∧ (d !! "job_type" = Some (VStr PERM_INVENTORY_DEPLOY) →
        check_user_access s e user CJobTemplate "add" [ADict d]
        = Ok (bool_decide (permission_type p = PERM_INVENTORY_DEPLOY))))
  ∧ (filter (λ t, related (team_users s) (team_pk t) (user_pk user))
            (project_teams s project) ≠ [] →
     ∀ job_type, d !! "job_type" = Some (VStr job_type) →
       check_user_access s e user CJobTemplate "add" [ADict d] = Ok false).
Proof.
  intros Huser Hmethod Hcredential Hp Hproject Hi Hinventory Hadmin Hgrant.
  rewrite (job_template_add_stages s e user d project inventory) by done.
  unfold dict_item, JobTemplateAccess.has_credential.
  rewrite (has_key_None d _ Hcredential).
  split.
  - intros ->. split; intros ->; simpl;
      rewrite (single_pair_grant s user inventory project p) by done;
      unfold JobTemplateAccess.launch_step; simpl; [done|].
    by destruct (bool_decide (permission_type p = PERM_INVENTORY_DEPLOY)).
  - intros Hteam job_type ->. simpl.
    destruct (JobTemplateAccess.has_launch_permission _ _ _ _ _); [|done].
    simpl. by destruct (filter _ (project_teams s project)).
Qed.

Lemma job_template_add_grant_level_witness :
  check_user_access demo.db demo.production demo.bob CJobTemplate "add"
    [ADict (demo.template_payload 1 PERM_INVENTORY_CHECK)] = Ok true
  ∧ check_user_access demo.db demo.production demo.bob CJobTemplate "add"
      [ADict (demo.template_payload 1 PERM_INVENTORY_DEPLOY)] = Ok false
  ∧ check_user_access demo.db demo.production demo.dave CJobTemplate "add"
      [ADict (demo.template_payload 3 PERM_INVENTORY_CHECK)] = Ok false.
Proof.
  split; [|split].
  - refine (proj1 (proj1 (job_template_add_grant_level demo.db demo.production
                     demo.bob (demo.template_payload 1 PERM_INVENTORY_CHECK)
                     demo.proj1 demo.inv1 demo.perm2 _ _ _ _ _ _ _ _ _) _) _);
      reflexivity.
  - refine (proj2 (proj1 (job_template_add_grant_level demo.db demo.production
                     demo.bob (demo.template_payload 1 PERM_INVENTORY_DEPLOY)
                     demo.proj1 demo.inv1 demo.perm2 _ _ _ _ _ _ _ _ _) _) _);
      reflexivity.
  - refine (proj2 (job_template_add_grant_level demo.db demo.production
                     demo.dave (demo.template_payload 3 PERM_INVENTORY_CHECK)
                     demo.proj3 demo.inv1 demo.perm5 _ _ _ _ _ _ _ _ _) _
              PERM_INVENTORY_CHECK _);
      try reflexivity.
    vm_compute. discriminate.
Defined.

(** ** Groups *)

(** The store once [child] has been made a child of [parent], which is what
    the caller does when [can_attach] allowed it. *)
Definition attach_group (s : store) (parent child : Group) : store :=
  {| users := users s; organizations := organizations s; teams := teams s;
     inventories := inventories s; hosts := hosts s; groups := groups s;
     credentials := credentials s; projects := projects s;
     permissions := permissions s; job_templates := job_templates s;
     jobs := jobs s; job_host_summaries := job_host_summaries s;
     job_events := job_events s;
     organization_admins := organization_admins s;
     organization_users := organization_users s;
     organization_projects := organization_projects s;
     team_users := team_users s; team_projects := team_projects s;
     group_parents := (group_pk child, group_pk parent) :: group_parents s |}.

(** [parent_pks & child_pks] in [GroupAccess.can_attach]. *)
Definition attach_overlap (s : store) (obj sub_obj : Group) : gset Z :=
  (list_to_set (all_parents s obj) ∪ {[group_pk obj]})
  ∩ (list_to_set (all_children s sub_obj) ∪ {[group_pk sub_obj]}).

Lemma check_group_change s e user g :
  check_user_access s e user CGroup "change" [AObj (IGroup g); ANone] =
  GroupAccess.can_change s (check_user_access s e user) (Some (IGroup g)) None.
Proof. by rewrite check_user_access_unfold. Qed.

Lemma check_group_attach s e user a b relationship data :
  check_user_access s e user CGroup "change" [AObj (IGroup a); ANone]
  = Ok true →
  check_user_access s e user CGroup "read" [AObj (IGroup b)] = Ok true →
  check_user_access s e user CGroup "attach"
    [AObj (IGroup a); AObj (IGroup b); AStr relationship; arg_of_data data]
  = Ok (bool_decide (attach_overlap s a b = ∅)).
Proof.
  intros Hchange Hread. rewrite check_group_change in Hchange.
  rewrite check_user_access_unfold.
  assert (getattr_can s e user (check_user_access s e user)
            (evaluator CGroup) "attach"
          = Some (call_attach
              (GroupAccess.can_attach s (check_user_access s e user))))
    as -> by done.
  assert (∀ m, call_attach m [AObj (IGroup a); AObj (IGroup b);
                              AStr relationship; arg_of_data data]
               = m (Some (IGroup a)) (Some (IGroup b)) relationship data false)
    as -> by (by destruct data).
  unfold GroupAccess.can_attach, BaseAccess.can_attach.
  rewrite Hchange. simpl. rewrite Hread. simpl.
  fold (attach_overlap s a b).
  destruct (decide (attach_overlap s a b = ∅)) as [H|H].
  - rewrite (bool_decide_eq_true_2 (_ = ∅)) by done.
    by rewrite (bool_decide_eq_false_2 (_ ≠ ∅)) by (by intros ?).
  - rewrite (bool_decide_eq_false_2 (_ = ∅)) by done.
    by rewrite (bool_decide_eq_true_2 (_ ≠ ∅)) by done.
Qed.

(** Once attached, the parent is an ancestor of the child. *)
Lemma all_parents_attach s parent child :
  parent ∈ groups s →
  group_pk parent ∈ all_parents (attach_group s parent child) child.
Proof.
  intros Hrow. unfold all_parents. simpl. apply elem_of_app. left.
  unfold parents_of. simpl. apply list_elem_of_fmap_2.
  apply list_elem_of_filter. split; [|done].
  apply Is_true_true, bool_decide_eq_true. left.
Qed.

(** C5. When the user may change group A and read group B, attaching B as
    a child of A is allowed exactly when A with its ancestors shares no group
    with B with its descendants; so it is refused when A is B or a
    descendant of B, and once B is a child of A, attaching A as a child of B
    is refused. *)
Theorem group_attach_cycle s e user a b relationship data :
  (check_user_access s e user CGroup "change" [AObj (IGroup a); ANone]
   = Ok true →
   check_user_access s e user CGroup "read" [AObj (IGroup b)] = Ok true →
   check_user_access s e user CGroup "attach"
     [AObj (IGroup a); AObj (IGroup b); AStr relationship; arg_of_data data]
   = Ok (bool_decide (attach_overlap s a b = ∅))
   ∧ (group_pk a = group_pk b ∨ group_pk a ∈ all_children s b
      ∨ group_pk b ∈ all_parents s a →
      check_user_access s e user CGroup "attach"
        [AObj (IGroup a); AObj (IGroup b); AStr relationship; arg_of_data data]
      = Ok false))
  ∧ (a ∈ groups s →
     check_user_access (attach_group s a b) e user CGroup "change"
       [AObj (IGroup b); ANone] = Ok true →
     check_user_access (attach_group s a b) e user CGroup "read"
       [AObj (IGroup a)] = Ok true →
     check_user_access (attach_group s a b) e user CGroup "attach"
       [AObj (IGroup b); AObj (IGroup a); AStr relationship; arg_of_data data]
     = Ok false).
Proof.
  split.
  - intros Hchange Hread. rewrite check_group_attach by done.
    split; [done|]. intros H. f_equal. apply bool_decide_eq_false_2.
    unfold attach_overlap. destruct H as [H | [H | H]].
    + apply (non_empty_inhabited_L (group_pk a)). rewrite H at 2. set_solver.
    + apply (non_empty_inhabited_L (group_pk a)).
      apply elem_of_intersection. split; [set_solver|].
      apply elem_of_union. left. by apply elem_of_list_to_set.
    + apply (non_empty_inhabited_L (group_pk b)).
      apply elem_of_intersection. split; [|set_solver].
      apply elem_of_union. left. by apply elem_of_list_to_set.
  - intros Hrow Hchange Hread. rewrite check_group_attach by done.
    f_equal. apply bool_decide_eq_false_2.
    apply (non_empty_inhabited_L (group_pk a)). unfold attach_overlap.
    apply elem_of_intersection. split; [|set_solver].
    apply elem_of_union. left. apply elem_of_list_to_set.
    by apply all_parents_attach.
Qed.

Lemma group_attach_cycle_witness :
  check_user_access demo.db demo.production demo.root CGroup "attach"
    [AObj (IGroup demo.groupA); AObj (IGroup demo.groupB); AStr "children";
     ANone] = Ok true
  ∧ check_user_access (attach_group demo.db demo.groupA demo.groupB)
      demo.production demo.root CGroup "attach"
      [AObj (IGroup demo.groupB); AObj (IGroup demo.groupA); AStr "children";
       ANone] = Ok false.
Proof.
  split.
  - refine (proj1 (proj1 (group_attach_cycle demo.db demo.production demo.root
                     demo.groupA demo.groupB "children" None) _ _));
      reflexivity.
  - refine (proj2 (group_attach_cycle demo.db demo.production demo.root
                     demo.groupA demo.groupB "children" None) _ _ _);
      [left | reflexivity | reflexivity].
Defined.

(** ** Superusers *)

(** A call whose arguments fit the signature of the method, on an object of
    the model. *)
Inductive request (c : model_class) : string → list arg → Prop :=
| request_read obj :
    type_of obj = c → request c "read" [AObj obj]
| request_add data :
    request c "add" [arg_of_data data]
| request_change obj data :
    type_of obj = c → request c "change" [AObj obj; arg_of_data data]
| request_write obj data :
    type_of obj = c → request c "write" [AObj obj; arg_of_data data]
| request_admin obj data :
    type_of obj = c → request c "admin" [AObj obj; arg_of_data data]
| request_delete obj :
    type_of obj = c → request c "delete" [AObj obj]
| request_unattach obj sub_obj relationship :
    type_of obj = c →
    request c "unattach" [AObj obj; arg_of_obj sub_obj; AStr relationship].

(** The calls on one object. *)
Inductive request_on (obj : instance) : string → list arg → Prop :=
| on_read : request_on obj "read" [AObj obj]
| on_change data : request_on obj "change" [AObj obj; arg_of_data data]
| on_write data : request_on obj "write" [AObj obj; arg_of_data data]
| on_admin data : request_on obj "admin" [AObj obj; arg_of_data data]
| on_delete : request_on obj "delete" [AObj obj]
| on_unattach sub_obj relationship :
    request_on obj "unattach" [AObj obj; arg_of_obj sub_obj; AStr relationship].

(** The actions a superuser is granted whatever the object, the payload
    and the store are.  The others read the store first: deleting a user
    or a credential, reading a permission or a job template, changing a
    job, everything on an inventory but adding one, and everything on
    hosts and groups but deleting one. *)
Definition granted_to_superusers (c : model_class) (action : string) : bool :=
  match c with
  | CUser | CCredential => negb (bool_decide (action = "delete"))
  | CPermission | CJobTemplate => negb (bool_decide (action = "read"))
  | CInventory => bool_decide (action = "add")
  | CHost | CGroup => bool_decide (action = "delete")
  | CJob => bool_decide (action ∈ ["read"; "add"; "delete"])
  | COrganization | CTeam | CProject | CJobHostSummary | CJobEvent => true
  end.

(** The row a foreign key points to, if the key is set, is in its table. *)
Definition row_exists {A} (pk : A → Z) (table : list A) (k : option Z)
  : Prop :=
  ∀ z, k = Some z → is_Some (get_by_pk pk table z).

(** No payload among the arguments moves the host to another inventory. *)
Definition keeps_inventory (h : Host) (args : list arg) : Prop :=
  ∀ d, ADict d ∈ args →
    d = ∅ ∨ dict_get "inventory" d = VInt (host_inventory h).

(** The rows a superuser sees: where a class filters on its soft-delete
    flag, the rows that are active. *)
Definition seen_by_superusers (s : store) (i : instance) : bool :=
  match i with
  | IUser u => is_active u
  | IInventory i => inv_active i
  | IHost h =>
      host_active h
      && bool_decide (host_inventory h
                      ∈ inv_pk <$> filter (λ i, inv_active i) (inventories s))
  | IGroup g =>
      group_active g
      && bool_decide (group_inventory g
                      ∈ inv_pk <$> filter (λ i, inv_active i) (inventories s))
  | ICredential c => cred_active c
  | ITeam t => team_active t
  | _ => true
  end.

Lemma fmap_filter {A B} (f : A → B) (P : A → Prop) `{!∀ x, Decision (P x)}
    (q : B → bool) (l : list A) :
  (∀ x, q (f x) = true ↔ P x) →
  f <$> filter P l = filter (λ y, q y) (f <$> l).
Proof.
  intros Hq. induction l as [|x l IH]; [done|].
  rewrite fmap_cons, !filter_cons.
  destruct (decide (P x)) as [HP|HP].
  - rewrite decide_True by (by apply Is_true_true, Hq).
    by rewrite fmap_cons, IH.
  - rewrite decide_False; [done|]. intros Hx. by apply HP, Hq, Is_true_true.
Qed.

Lemma fmap_all {A B} (f : A → B) (q : B → bool) (l : list A) :
  (∀ x, q (f x) = true) → f <$> l = filter (λ y, q y) (f <$> l).
Proof.
  intros H. induction l as [|x l IH]; [done|].
  rewrite fmap_cons, filter_cons, decide_True by (by apply Is_true_true).
  by rewrite <-IH.
Qed.

Lemma superuser_queryset s user c :
  is_superuser user = true →
  get_user_queryset s user c
  = Ok (filter (λ i, seen_by_superusers s i) (objects_all s c)).
Proof.
  intros Hsuper. rewrite get_user_queryset_unfold.
  destruct c; simpl.
  - unfold UserAccess.get_queryset. rewrite Hsuper. f_equal.
    apply fmap_filter. intros x. simpl. by rewrite Is_true_true.
  - unfold OrganizationAccess.get_queryset. rewrite Hsuper. f_equal.
    by apply fmap_all.
  - unfold InventoryAccess.get_queryset. rewrite Hsuper. f_equal.
    apply fmap_filter. intros x. simpl. by rewrite Is_true_true.
  - unfold InventoryAccess.get_queryset. rewrite Hsuper. simpl. f_equal.
    rewrite list_filter_filter. apply fmap_filter. intros x. simpl.
    rewrite <-list_fmap_compose.
    rewrite andb_true_iff, bool_decide_eq_true, Is_true_true. tauto.
  - unfold InventoryAccess.get_queryset. rewrite Hsuper. simpl. f_equal.
    rewrite list_filter_filter. apply fmap_filter. intros x. simpl.
    rewrite <-list_fmap_compose.
    rewrite andb_true_iff, bool_decide_eq_true, Is_true_true. tauto.
  - unfold CredentialAccess.get_queryset. rewrite Hsuper. f_equal.
    apply fmap_filter. intros x. simpl. by rewrite Is_true_true.
  - unfold TeamAccess.get_queryset. rewrite Hsuper. f_equal.
    apply fmap_filter. intros x. simpl. by rewrite Is_true_true.
  - unfold ProjectAccess.get_queryset. rewrite Hsuper. f_equal.
    by apply fmap_all.
  - f_equal. by apply fmap_all.
  - unfold JobTemplateAccess.get_queryset. rewrite Hsuper. f_equal.
    by apply fmap_all.
  - f_equal. by apply fmap_all.
  - f_equal. by apply fmap_all.
  - f_equal. by apply fmap_all.
Qed.

Ltac superuser Hsuper :=
  simpl;
  unfold BaseAccess.can_read, BaseAccess.can_add, BaseAccess.can_change,
    BaseAccess.can_write, BaseAccess.can_admin, BaseAccess.can_delete,
    BaseAccess.can_unattach,
    UserAccess.can_read, UserAccess.can_add, UserAccess.can_change,
    UserAccess.can_admin,
    OrganizationAccess.can_read, OrganizationAccess.can_delete,
    OrganizationAccess.can_change,
    InventoryAccess.can_add,
    CredentialAccess.can_read, CredentialAccess.can_add,
    CredentialAccess.can_change,
    TeamAccess.can_read, TeamAccess.can_add, TeamAccess.can_delete,
    TeamAccess.can_change,
    ProjectAccess.can_read, ProjectAccess.can_delete, ProjectAccess.can_change,
    PermissionAccess.can_delete, PermissionAccess.can_change,
    JobTemplateAccess.can_add, JobTemplateAccess.can_change;
  simpl; rewrite ?Hsuper; unfold py_or, py_and; simpl;
  repeat case_match; simpl; rewrite ?Hsuper; try done.

Lemma superuser_request s e user c action args :
  is_superuser user = true →
  request c action args →
  granted_to_superusers c action = true →
  check_user_access s e user c action args = Ok true.
Proof.
  intros Hsuper Hrequest Hgranted. rewrite check_user_access_unfold.
  destruct Hrequest as [obj <-| data |obj data <-|obj data <-|obj data <-
                        |obj <-|obj sub_obj relationship <-].
  - destruct obj; try done; superuser Hsuper.
  - destruct c, data; try done; superuser Hsuper.
  - destruct obj, data; try done; superuser Hsuper.
  - destruct obj, data; try done; superuser Hsuper.
  - destruct obj, data; try done; superuser Hsuper.
  - destruct obj; try done; superuser Hsuper.
  - destruct obj, sub_obj; try done; superuser Hsuper.
Qed.

Lemma follow_null_row {A} (pk : A → Z) table k :
  row_exists pk table k →
  ∃ row, follow_null pk table k = Ok row ∧ (k = None → row = None).
Proof.
  intros H. destruct k as [z|]; simpl; [|by eauto].
  destruct (H z eq_refl) as [x Hx]. unfold follow. rewrite Hx.
  by exists (Some x).
Qed.

Lemma superuser_credential_delete s e user c :
  is_superuser user = true →
  row_exists user_pk (users s) (cred_user c) →
  row_exists team_pk (teams s) (cred_team c) →
  check_user_access s e user CCredential "delete" [AObj (ICredential c)]
  = Ok true.
Proof.
  intros Hsuper Huser Hteam. rewrite check_user_access_unfold. simpl.
  unfold CredentialAccess.can_delete, CredentialAccess.can_change. simpl.
  destruct (follow_null_row _ _ _ Huser) as (owner & -> & _).
  destruct (follow_null_row _ _ _ Hteam) as (team & -> & _).
  rewrite Hsuper. simpl. by destruct owner, team.
Qed.

Lemma superuser_permission_read s e user p :
  is_superuser user = true →
  row_exists user_pk (users s) (perm_user p) →
  row_exists team_pk (teams s) (perm_team p) →
  check_user_access s e user CPermission "read" [AObj (IPermission p)]
  = Ok true.
Proof.
  intros Hsuper Huser Hteam. rewrite check_user_access_unfold. simpl.
  unfold PermissionAccess.can_read, PermissionAccess.can_change. simpl.
  destruct (follow_null_row _ _ _ Huser) as (grantee & -> & _).
  destruct (follow_null_row _ _ _ Hteam) as (team & -> & _).
  rewrite Hsuper. simpl. by repeat case_match.
Qed.

Lemma superuser_job_template_read s e user t :
  is_superuser user = true →
  row_exists inv_pk (inventories s) (Some (jt_inventory t)) →
  row_exists project_pk (projects s) (Some (jt_project t)) →
  check_user_access s e user CJobTemplate "read" [AObj (IJobTemplate t)]
  = Ok true.
Proof.
  intros Hsuper Hinventory Hproject. rewrite check_user_access_unfold. simpl.
  unfold JobTemplateAccess.can_read, JobTemplateAccess.can_add, follow. simpl.
  destruct (Hinventory _ eq_refl) as [i ->].
  destruct (Hproject _ eq_refl) as [p ->]. simpl. by rewrite Hsuper.
Qed.

(** For a superuser the three levels of access to an inventory ask the
    same: a row with the key of the object among the active inventories. *)
Lemma superuser_inventory s e user i action args :
  is_superuser user = true →
  i ∈ inventories s → inv_active i = true →
  request_on (IInventory i) action args →
  check_user_access s e user CInventory action args = Ok true.
Proof.
  intros Hsuper Hrow Hactive Hrequest.
  assert (∀ allowed,
            InventoryAccess.has_permission_types s user (Some (IInventory i))
              allowed = Ok true) as Hlevel.
  { intros allowed. unfold InventoryAccess.has_permission_types,
      InventoryAccess.get_queryset. rewrite Hsuper. f_equal.
    apply truthy_count_true. exists i. apply elem_of_filter_pk.
    split; [done|]. apply list_elem_of_filter.
    split; [by apply Is_true_true | done]. }
  assert (∀ data,
            InventoryAccess.organization_refused s user
              (check_user_access s e user) data = Ok false) as Hrefused.
  { intros data. unfold InventoryAccess.organization_refused,
      InventoryAccess.can_add.
    destruct (falsy_data data) eqn:Hdata; [done|]. simpl.
    rewrite Hsuper. by destruct (has_key _ _). }
  rewrite check_user_access_unfold.
  destruct Hrequest as [|data|data|data| |sub_obj relationship]; simpl;
    try destruct data; try destruct sub_obj; simpl;
    unfold InventoryAccess.can_read, InventoryAccess.can_delete,
      BaseAccess.can_write, BaseAccess.can_unattach,
      InventoryAccess.can_change, InventoryAccess.can_admin;
    rewrite ?Hrefused, ?Hlevel; first [done | exact (Hlevel _)].
Qed.

(** Reading or changing a host asks about its inventory; a payload that
    keeps the host where it is does not raise. *)
Lemma superuser_host s e user h i action args :
  is_superuser user = true →
  get_by_pk inv_pk (inventories s) (host_inventory h) = Some i →
  inv_active i = true →
  request_on (IHost h) action args →
  keeps_inventory h args →
  check_user_access s e user CHost action args = Ok true.
Proof.
  intros Hsuper Hrow Hactive Hrequest Hkeeps.
  destruct (get_by_pk_Some _ _ _ _ Hrow) as [Hpk Hin].
  pose proof (superuser_inventory s e user i "read" _ Hsuper Hin Hactive
                (on_read _)) as Hread.
  pose proof (superuser_inventory s e user i "change" _ Hsuper Hin Hactive
                (on_change _ None)) as Hchange.
  assert (∀ data,
            (∀ d, data = Some d →
               d = ∅ ∨ dict_get "inventory" d = VInt (host_inventory h)) →
            HostAccess.can_change s (check_user_access s e user)
              (Some (IHost h)) data = Ok true) as Hhost.
  { intros data Hdata. unfold HostAccess.can_change, follow. simpl.
    rewrite Hrow. simpl. rewrite Hpk.
    destruct data as [d|]; simpl; [|done].
    destruct (Hdata d eq_refl) as [-> | ->].
    - by rewrite bool_decide_eq_true_2.
    - destruct (bool_decide (d = ∅)); simpl; [done|].
      by rewrite bool_decide_eq_false_2 by (by intros []). }
  rewrite check_user_access_unfold.
  destruct Hrequest as [|data|data|data| |sub_obj relationship]; simpl.
  - unfold HostAccess.can_read, follow. simpl. by rewrite Hrow.
  - destruct data as [d|]; simpl; apply Hhost; [|done].
    intros ? [= <-]. apply Hkeeps. right. left.
  - destruct data as [d|]; simpl; apply Hhost; [|done].
    intros ? [= <-]. apply Hkeeps. right. left.
  - destruct data as [d|]; simpl; apply Hhost; [|done].
    intros ? [= <-]. apply Hkeeps. right. left.
  - unfold BaseAccess.can_delete. by rewrite Hsuper.
  - destruct sub_obj; simpl; by apply Hhost.
Qed.

Lemma superuser_host_add s e user d i :
  is_superuser user = true →
  d !! "inventory" = Some (VInt (inv_pk i)) →
  get_by_pk inv_pk (inventories s) (inv_pk i) = Some i →
  inv_active i = true →
  "test" ∈ argv e ∨ 0 < default 0 (validation_info e !! "free_instances") →
  check_user_access s e user CHost "add" [ADict d] = Ok true.
Proof.
  intros Hsuper Hd Hrow Hactive Hlicence.
  destruct (get_by_pk_Some _ _ _ _ Hrow) as [_ Hin].
  rewrite (host_add_cases s e user d i Hd Hrow).
  - destruct Hlicence; repeat case_bool_decide; done.
  - exact (superuser_inventory s e user i "change" _ Hsuper Hin Hactive
             (on_change _ None)).
Qed.

Lemma superuser_group s e user g i action args :
  is_superuser user = true →
  get_by_pk inv_pk (inventories s) (group_inventory g) = Some i →
  inv_active i = true →
  request_on (IGroup g) action args →
  check_user_access s e user CGroup action args = Ok true.
Proof.
  intros Hsuper Hrow Hactive Hrequest.
  destruct (get_by_pk_Some _ _ _ _ Hrow) as [_ Hin].
  pose proof (superuser_inventory s e user i "read" _ Hsuper Hin Hactive
                (on_read _)) as Hread.
  pose proof (superuser_inventory s e user i "change" _ Hsuper Hin Hactive
                (on_change _ None)) as Hchange.
  rewrite check_user_access_unfold.
  destruct Hrequest as [|data|data|data| |sub_obj relationship]; simpl;
    try destruct data; try destruct sub_obj; simpl;
    unfold GroupAccess.can_read, GroupAccess.can_change,
      BaseAccess.can_write, BaseAccess.can_admin, BaseAccess.can_delete,
      BaseAccess.can_unattach, GroupAccess.can_change, follow; simpl;
    by rewrite ?Hrow, ?Hsuper.
Qed.

Lemma superuser_group_add s e user d i :
  is_superuser user = true →
  d !! "inventory" = Some (VInt (inv_pk i)) →
  get_by_pk inv_pk (inventories s) (inv_pk i) = Some i →
  inv_active i = true →
  check_user_access s e user CGroup "add" [ADict d] = Ok true.
Proof.
  intros Hsuper Hd Hrow Hactive.
  destruct (get_by_pk_Some _ _ _ _ Hrow) as [_ Hin].
  rewrite check_user_access_unfold. simpl. unfold GroupAccess.can_add.
  rewrite (falsy_data_lookup d _ _ Hd). change (default ∅ (Some d)) with d.
  rewrite (has_key_Some d _ _ Hd). simpl.
  unfold get_object_or_400, dict_get. rewrite Hd. simpl. rewrite Hrow.
  exact (superuser_inventory s e user i "change" _ Hsuper Hin Hactive
           (on_change _ None)).
Qed.

(** Attaching asks for the change of the object and the read of what is
    attached; only a group attached to a group is tested further. *)
Lemma attach_granted s e user obj sub_obj relationship data :
  ¬ (type_of obj = CGroup ∧ type_of sub_obj = CGroup) →
  check_user_access s e user (type_of obj) "change" [AObj obj; ANone]
  = Ok true →
  check_user_access s e user (type_of sub_obj) "read" [AObj sub_obj]
  = Ok true →
  check_user_access s e user (type_of obj) "attach"
    [AObj obj; AObj sub_obj; AStr relationship; arg_of_data data] = Ok true.
Proof.
  intros Hgroups Hchange Hread.
  rewrite check_user_access_unfold in Hchange.
  rewrite (check_user_access_unfold _ _ _ _ "attach").
  change (getattr_can s e user (check_user_access s e user)
            (evaluator (type_of obj)) "attach")
    with (Some (call_attach
            (can_attach s user (check_user_access s e user)
               (evaluator (type_of obj))))).
  change (getattr_can s e user (check_user_access s e user)
            (evaluator (type_of obj)) "change")
    with (Some (call_obj_data
            (can_change s user (check_user_access s e user)
               (evaluator (type_of obj))))) in Hchange.
  cbv beta iota in *. simpl in Hchange.
  assert (BaseAccess.can_attach (check_user_access s e user)
            (can_change s user (check_user_access s e user)
               (evaluator (type_of obj)))
            (Some obj) (Some sub_obj) relationship data false = Ok true)
    as Hbase.
  { unfold BaseAccess.can_attach. rewrite Hchange. simpl. exact Hread. }
  assert (call_attach
            (can_attach s user (check_user_access s e user)
               (evaluator (type_of obj)))
            [AObj obj; AObj sub_obj; AStr relationship; arg_of_data data]
          = can_attach s user (check_user_access s e user)
              (evaluator (type_of obj)) (Some obj) (Some sub_obj)
              relationship data false) as -> by (by destruct data).
  destruct obj; cbn [evaluator type_of can_attach can_change] in *;
    try exact Hbase.
  unfold GroupAccess.can_attach. rewrite Hbase. simpl.
  rewrite bool_decide_eq_false_2; [done|].
  intros [= Hsub]. by apply Hgroups.
Qed.

Lemma superuser_user_delete s e user target :
  is_superuser user = true →
  check_user_access s e user CUser "delete" [AObj (IUser target)]
  = Ok (negb (bool_decide (user_pk target = user_pk user))
        && negb (is_superuser target
                 && bool_decide
                      (count (filter (λ u, is_active u && is_superuser u)
                                     (users s)) = 1%nat))).
Proof.
  intros Hsuper. rewrite check_user_access_unfold. simpl.
  unfold UserAccess.can_delete, instance_eqb. simpl.
  destruct (bool_decide (user_pk target = user_pk user)); [done|]. simpl.
  destruct (is_superuser target && _); [done|]. by rewrite Hsuper.
Qed.

Lemma superuser_job_change s e user j action args :
  is_superuser user = true →
  request_on (IJob j) action args →
  action ∈ ["change"; "write"; "admin"; "unattach"] →
  check_user_access s e user CJob action args
  = Ok (bool_decide (job_status j = "new")).
Proof.
  intros Hsuper Hrequest Haction. rewrite check_user_access_unfold.
  destruct Hrequest as [|data|data|data| |sub_obj relationship];
    try destruct data; try destruct sub_obj; simpl;
    unfold BaseAccess.can_write, BaseAccess.can_admin,
      BaseAccess.can_unattach, JobAccess.can_change;
    rewrite ?Hsuper; try done.
  all: exfalso;
    repeat (apply elem_of_cons in Haction as [? | Haction]; [done|]);
    by apply not_elem_of_nil in Haction.
Qed.

Lemma job_start_cancel_denied s e user j action :
  action = "start" ∨ action = "cancel" →
  check_user_access s e user CJob action [AObj (IJob j)] = Ok false.
Proof. intros [-> | ->]; by rewrite check_user_access_unfold. Qed.

(** C1, as the code has it.  For a superuser:
    - every well-formed request among those of [granted_to_superusers] is
      allowed, whatever the object, the payload and the store are;
    - deleting a credential, reading a permission and reading a job
      template are allowed when the rows the object points to exist;
    - every request on an inventory that is an active row is allowed, and
      so is every request on a host or a group whose inventory is an active
      row, provided the payload leaves a host in its inventory; adding a
      group to an active inventory is allowed, and adding a host as far as
      the licence goes;
    - attaching is allowed when the change of the object and the read of
      what is attached are, a group attached to a group apart;
    - deleting a user is allowed unless it is the superuser's own account
      or the last active superuser; changing, writing, administering and
      detaching a job exactly when its status is new; and starting or
      cancelling a job is denied;
    - the queryset of a model other than job templates is its rows without
      the inactive ones where the class filters on the flag: all the rows
      for organizations, projects, permissions, jobs, job host summaries
      and job events. *)
Theorem superuser_access s e user :
  is_superuser user = true →
  (∀ c action args,
     request c action args → granted_to_superusers c action = true →
     check_user_access s e user c action args = Ok true)
  ∧ (∀ c,
       row_exists user_pk (users s) (cred_user c) →
       row_exists team_pk (teams s) (cred_team c) →
       check_user_access s e user CCredential "delete" [AObj (ICredential c)]
       = Ok true)
  ∧ (∀ p,
       row_exists user_pk (users s) (perm_user p) →
       row_exists team_pk (teams s) (perm_team p) →
       check_user_access s e user CPermission "read" [AObj (IPermission p)]
       = Ok true)
  ∧ (∀ t,
       row_exists inv_pk (inventories s) (Some (jt_inventory t)) →
       row_exists project_pk (projects s) (Some (jt_project t)) →
       check_user_access s e user CJobTemplate "read" [AObj (IJobTemplate t)]
       = Ok true)
  ∧ (∀ i action args,
       i ∈ inventories s → inv_active i = true →
       request_on (IInventory i) action args →
       check_user_access s e user CInventory action args = Ok true)
  ∧ (∀ h i action args,
       get_by_pk inv_pk (inventories s) (host_inventory h) = Some i →
       inv_active i = true →
       request_on (IHost h) action args → keeps_inventory h args →
       check_user_access s e user CHost action args = Ok true)
  ∧ (∀ g i action args,
       get_by_pk inv_pk (inventories s) (group_inventory g) = Some i →
       inv_active i = true →
       request_on (IGroup g) action args →
       check_user_access s e user CGroup action args = Ok true)
  ∧ (∀ d i,
       d !! "inventory" = Some (VInt (inv_pk i)) →
       get_by_pk inv_pk (inventories s) (inv_pk i) = Some i →
       inv_active i = true →
       check_user_access s e user CGroup "add" [ADict d] = Ok true
       ∧ ("test" ∈ argv e
          ∨ 0 < default 0 (validation_info e !! "free_instances") →
          check_user_access s e user CHost "add" [ADict d] = Ok true))
  ∧ (∀ obj sub_obj relationship data,
       ¬ (type_of obj = CGroup ∧ type_of sub_obj = CGroup) →
       check_user_access s e user (type_of obj) "change" [AObj obj; ANone]
       = Ok true →
       check_user_access s e user (type_of sub_obj) "read" [AObj sub_obj]
       = Ok true →
       check_user_access s e user (type_of obj) "attach"
         [AObj obj; AObj sub_obj; AStr relationship; arg_of_data data]
       = Ok true)
  ∧ (∀ target,
       check_user_access s e user CUser "delete" [AObj (IUser target)]
       = Ok (negb (bool_decide (user_pk target = user_pk user))
             && negb (is_superuser target
                      && bool_decide
                           (count (filter (λ u, is_active u && is_superuser u)
                                          (users s)) = 1%nat))))
  ∧ (∀ j action args,
       request_on (IJob j) action args →
       action ∈ ["change"; "write"; "admin"; "unattach"] →
       check_user_access s e user CJob action args
       = Ok (bool_decide (job_status j = "new")))
  ∧ (∀ j, check_user_access s e user CJob "start" [AObj (IJob j)] = Ok false
          ∧ check_user_access s e user CJob "cancel" [AObj (IJob j)]
            = Ok false)
  ∧ (∀ c, c ≠ CJobTemplate →
          get_user_queryset s user c
          = Ok (filter (λ i, seen_by_superusers s i) (objects_all s c)))
  ∧ (∀ c, c ∈ [COrganization; CProject; CPermission; CJob; CJobHostSummary;
               CJobEvent] →
          get_user_queryset s user c = Ok (objects_all s c)).
Proof.
  intros Hsuper. repeat apply conj.
  - intros c action args. by apply superuser_request.
  - intros c. by apply superuser_credential_delete.
  - intros p. by apply superuser_permission_read.
  - intros t. by apply superuser_job_template_read.
  - intros i action args. by apply superuser_inventory.
  - intros h i action args. by apply superuser_host.
  - intros g i action args. by apply superuser_group.
  - intros d i Hd Hrow Hactive. split.
    + by apply (superuser_group_add s e user d i).
    + intros Hlicence. by apply (superuser_host_add s e user d i).
  - intros obj sub_obj relationship data. apply attach_granted.
  - intros target. by apply superuser_user_delete.
  - intros j action args. by apply superuser_job_change.
  - intros j. split; apply job_start_cancel_denied; [by left | by right].
  - intros c _. by apply superuser_queryset.
  - intros c Hc. rewrite superuser_queryset by done. f_equal.
    symmetry.
    repeat (apply elem_of_cons in Hc as [-> | Hc]; [by apply fmap_all|]).
    by apply not_elem_of_nil in Hc.
Qed.

Lemma superuser_access_witness :
  check_user_access demo.db demo.production demo.root CProject "change"
    [AObj (IProject demo.proj1); ANone] = Ok true
  ∧ check_user_access demo.db demo.production demo.root CInventory "admin"
      [AObj (IInventory demo.inv1); ANone] = Ok true
  ∧ check_user_access demo.db demo.production demo.root CHost "read"
      [AObj (IHost demo.host1)] = Ok true
  ∧ get_user_queryset demo.db demo.root CInventory
    = Ok [IInventory demo.inv1]
  ∧ get_user_queryset demo.db demo.root CJob = Ok [IJob demo.job1].
Proof.
  pose proof (superuser_access demo.db demo.production demo.root eq_refl)
    as (Hgranted & _ & _ & _ & Hinventory & Hhost & _ & _ & _ & _ & _ & _
        & Hseen & Hall).
  split; [|split; [|split; [|split]]].
  - apply Hgranted; [|reflexivity].
    apply (request_change CProject (IProject demo.proj1) None). reflexivity.
  - apply (Hinventory demo.inv1); [left | reflexivity |].
    apply (on_admin _ None).
  - apply (Hhost demo.host1 demo.inv1); [reflexivity | reflexivity | |].
    + apply on_read.
    + intros d Hd. apply list_elem_of_singleton in Hd. discriminate.
  - apply (Hseen CInventory). discriminate.
  - apply (Hall CJob). apply (bool_decide_unpack _). vm_compute. exact I.
Defined.

(** C1 as stated fails: root is a superuser and may not start a job, may
    not delete their own account, and does not see the inactive
    inventory 2. *)
Lemma superuser_denied :
  is_superuser demo.root = true
  ∧ check_user_access demo.db demo.production demo.root CJob "start"
      [AObj (IJob demo.job1)] = Ok false
  ∧ check_user_access demo.db demo.production demo.root CUser "delete"
      [AObj (IUser demo.root)] = Ok false
  ∧ inventories demo.db = [demo.inv1; demo.inv2]
  ∧ get_user_queryset demo.db demo.root CInventory
    = Ok [IInventory demo.inv1].
Proof. by vm_compute. Qed.

(** * Further properties of the module *)

(** ** Registration and dispatch *)

(** X1. Registering a list of pairs gives each model the classes registered for
    it, in the order of registration, after those it had; a class registered
    twice is listed twice. *)
Theorem register_access_foldl (l : list (model_class * access_class))
    (r : registry) (c : model_class) :
  foldl (λ r '(m, a), register_access m a r) r l c
  = r c ++ (filter (λ p, p.1 = c) l).*2.
Proof.
  revert r. induction l as [|[m a] l IH]; intros r; simpl.
  { by rewrite app_nil_r. }
  rewrite IH. unfold register_access at 1. rewrite filter_cons. simpl.
  destruct (decide (c = m)) as [->|Hne].
  - rewrite decide_True by done. simpl. by rewrite <-app_assoc.
  - by rewrite decide_False by done.
Qed.

(** X2. The loop of [check_user_access]: classes without the method and classes
    that deny are passed over, the first class that allows decides, and an
    exception of a class ends the loop whatever the later classes say. *)
Theorem check_access_list_first before access_method after args :
  Forall (λ m, ∀ m', m = Some m' → m' args = Ok false) before →
  check_access_list before args = Ok false
  ∧ (access_method args = Ok true →
     check_access_list (before ++ Some access_method :: after) args = Ok true)
  ∧ (access_method args = Ok false →
     check_access_list (before ++ Some access_method :: after) args
     = check_access_list after args)
  ∧ (∀ e, access_method args = Raise e →
     check_access_list (before ++ Some access_method :: after) args = Raise e).
Proof.
  induction 1 as [|m before Hm _ IH]; simpl.
  { repeat split; [by intros -> | by intros -> |]. by intros e ->. }
  destruct m as [m'|]; [rewrite (Hm m') by done; simpl|]; exact IH.
Qed.

Lemma check_access_list_first_witness :
  check_access_list
    [None; Some (call_obj JobAccess.can_start);
     Some (call_obj (BaseAccess.can_read demo.root));
     Some (call_obj JobAccess.can_cancel)]
    [AObj (IJob demo.job1)] = Ok true.
Proof.
  refine (proj1 (proj2 (check_access_list_first
            [None; Some (call_obj JobAccess.can_start)]
            (call_obj (BaseAccess.can_read demo.root))
            [Some (call_obj JobAccess.can_cancel)]
            [AObj (IJob demo.job1)] _)) _).
  - repeat constructor; intros m' [= <-]; reflexivity.
  - reflexivity.
Defined.

(** X3. An action that no class has a method for is denied: the call returns
    false and raises nothing, whatever the arguments are. *)
Theorem check_user_access_unknown_action s e user c action args :
  action ∉ ["read"; "add"; "change"; "write"; "admin"; "delete"; "attach";
            "unattach"] →
  (c = CJob → action ≠ "start" ∧ action ≠ "cancel") →
  check_user_access s e user c action args = Ok false.
Proof.
  intros Hbase Hjob. rewrite check_user_access_unfold. unfold getattr_can.
  rewrite !bool_decide_eq_false_2
    by (intros Heq; apply Hbase; rewrite Heq;
        apply (bool_decide_unpack _); vm_compute; exact I).
  destruct c; try done. simpl.
  destruct (Hjob eq_refl) as [Hstart Hcancel].
  by rewrite !bool_decide_eq_false_2 by done.
Qed.

Lemma check_user_access_unknown_action_witness :
  check_user_access demo.db demo.production demo.root CJob "launch"
    [AObj (IJob demo.job1)] = Ok false
  ∧ check_user_access demo.db demo.production demo.root CHost "start" []
    = Ok false.
Proof.
  split; apply check_user_access_unknown_action.
  - apply (bool_decide_unpack _). vm_compute. exact I.
  - intros _. split; discriminate.
  - apply (bool_decide_unpack _). vm_compute. exact I.
  - discriminate.
Defined.

(** X4. The depth of the calls through [user.can_access] is bounded: from four
    nested dispatches on the answer no longer depends on the bound, and the
    bound is not what the call ends on. *)
Theorem check_user_access_depth n s e user c action args :
  (call_depth ≤ n)%nat →
  check_user_access_at n s e user c action args
  = check_user_access s e user c action args
  ∧ check_user_access_at n s e user c action args ≠ Raise RecursionError.
Proof.
  intros Hn. rewrite check_user_access_at_stable by done.
  split; [done | apply check_user_access_within_depth].
Qed.

Lemma check_user_access_depth_witness :
  check_user_access_at 7 demo.db demo.production demo.carol CGroup "attach"
    [AObj (IGroup demo.groupA); AObj (IHost demo.host1); AStr "hosts"; ANone]
  = check_user_access demo.db demo.production demo.carol CGroup "attach"
      [AObj (IGroup demo.groupA); AObj (IHost demo.host1); AStr "hosts"; ANone]
  ∧ check_user_access_at 7 demo.db demo.production demo.carol CGroup "attach"
      [AObj (IGroup demo.groupA); AObj (IHost demo.host1); AStr "hosts"; ANone]
    ≠ Raise RecursionError.
Proof. apply check_user_access_depth. vm_compute. lia. Defined.

(** ** What the classes inherit *)

(** X5. For every class, writing is changing and detaching is changing without
    payload; administering is changing too, except for users and
    inventories, which define it. *)
Theorem check_user_access_aliases s e user c :
  (∀ args, check_user_access s e user c "write" args
           = check_user_access s e user c "change" args)
  ∧ (∀ obj sub_obj relationship,
       check_user_access s e user c "unattach"
         [arg_of_obj obj; arg_of_obj sub_obj; AStr relationship]
       = check_user_access s e user c "change" [arg_of_obj obj; ANone])
  ∧ (c ≠ CUser → c ≠ CInventory →
     ∀ args, check_user_access s e user c "admin" args
             = check_user_access s e user c "change" args).
Proof.
  split; [|split].
  - intros args. by rewrite !check_user_access_unfold.
  - intros obj sub_obj relationship. rewrite !check_user_access_unfold.
    change (getattr_can s e user (check_user_access s e user) (evaluator c)
              "unattach")
      with (Some (call_unattach
              (can_unattach s user (check_user_access s e user)
                            (evaluator c)))).
    change (getattr_can s e user (check_user_access s e user) (evaluator c)
              "change")
      with (Some (call_obj_data
              (can_change s user (check_user_access s e user)
                          (evaluator c)))).
    cbv beta iota. rewrite call_unattach_arg.
    by rewrite (call_obj_data_arg _ obj None).
  - intros Huser Hinventory args. rewrite !check_user_access_unfold.
    by destruct c.
Qed.

Lemma check_user_access_aliases_witness :
  check_user_access demo.db demo.production demo.alice CHost "admin"
    [AObj (IHost demo.host1); ANone]
  = check_user_access demo.db demo.production demo.alice CHost "change"
      [AObj (IHost demo.host1); ANone].
Proof.
  refine (proj2 (proj2 (check_user_access_aliases demo.db demo.production
                          demo.alice CHost)) _ _ _); discriminate.
Defined.

(** X6. Deleting an organization, a team, a project or a permission is changing
    it without payload, and deleting an inventory is administering it
    without payload.  Hosts, groups, job templates, jobs, job host summaries
    and job events inherit the deletion of [BaseAccess]: it is for
    superusers, whatever the object and the grants on its inventory are. *)
Theorem check_user_access_delete s e user c obj :
  (c ∈ [COrganization; CTeam; CProject; CPermission] →
   check_user_access s e user c "delete" [arg_of_obj obj]
   = check_user_access s e user c "change" [arg_of_obj obj; ANone])
  ∧ (c = CInventory →
     check_user_access s e user c "delete" [arg_of_obj obj]
     = check_user_access s e user c "admin" [arg_of_obj obj; ANone])
  ∧ (c ∈ [CHost; CGroup; CJobTemplate; CJob; CJobHostSummary; CJobEvent] →
     check_user_access s e user c "delete" [arg_of_obj obj]
     = Ok (is_superuser user)).
Proof.
  rewrite !check_user_access_unfold.
  change (getattr_can s e user (check_user_access s e user) (evaluator c)
            "delete")
    with (Some (call_obj
            (can_delete s user (check_user_access s e user) (evaluator c)))).
  change (getattr_can s e user (check_user_access s e user) (evaluator c)
            "change")
    with (Some (call_obj_data
            (can_change s user (check_user_access s e user) (evaluator c)))).
  change (getattr_can s e user (check_user_access s e user) (evaluator c)
            "admin")
    with (Some (call_obj_data
            (can_admin s user (check_user_access s e user) (evaluator c)))).
  cbv beta iota. rewrite call_obj_arg, !(call_obj_data_arg _ obj None).
  split; [|split].
  - intros Hc.
    repeat (apply elem_of_cons in Hc as [-> | Hc]; [done|]).
    by apply not_elem_of_nil in Hc.
  - by intros ->.
  - intros Hc.
    repeat (apply elem_of_cons in Hc as [-> | Hc]; [done|]).
    by apply not_elem_of_nil in Hc.
Qed.

Lemma check_user_access_delete_witness :
  check_user_access demo.db demo.production demo.alice CHost "delete"
    [AObj (IHost demo.host1)] = Ok false
  ∧ check_user_access demo.db demo.production demo.alice CHost "change"
      [AObj (IHost demo.host1); ANone] = Ok true.
Proof.
  split; [|reflexivity].
  refine (proj2 (proj2 (check_user_access_delete demo.db demo.production
                          demo.alice CHost (Some (IHost demo.host1)))) _).
  apply (bool_decide_unpack _). vm_compute. exact I.
Defined.

(** X7. Job host summaries and job events: every user gets all the rows in
    the queryset; reading, adding, changing, writing, administering,
    deleting and detaching are for superusers; attaching is denied to
    everyone else, and for a superuser it is the read of what is
    attached. *)
Theorem telemetry_access s e user c :
  c ∈ [CJobHostSummary; CJobEvent] →
  get_user_queryset s user c = Ok (objects_all s c)
  ∧ (∀ action args,
       request c action args →
       check_user_access s e user c action args = Ok (is_superuser user))
  ∧ (∀ obj sub_obj relationship data,
       type_of obj = c →
       check_user_access s e user c "attach"
         [AObj obj; AObj sub_obj; AStr relationship; arg_of_data data]
       = if is_superuser user
         then check_user_access s e user (type_of sub_obj) "read"
                [AObj sub_obj]
         else Ok false).
Proof.
  intros Hc.
  rewrite get_user_queryset_unfold.
  apply elem_of_cons in Hc as [-> | Hc];
    [|apply list_elem_of_singleton in Hc as ->].
  all: split; [done|]; split.
  all: try (intros action args Hrequest; rewrite check_user_access_unfold;
    destruct Hrequest as [obj _| data |obj data _|obj data _|obj data _
                          |obj _|obj sub_obj relationship _];
    simpl; try done; try (by destruct data); by destruct sub_obj).
  all: intros obj sub_obj relationship data _;
    rewrite (check_user_access_unfold _ _ _ _ "attach");
    destruct data; simpl;
    unfold BaseAccess.can_attach, BaseAccess.can_change; simpl;
    by destruct (is_superuser user).
Qed.

Lemma telemetry_access_witness :
  get_user_queryset demo.db demo.bob CJobEvent = Ok []
  ∧ check_user_access demo.db demo.production demo.bob CJobEvent "read"
      [AObj (IJobEvent {| je_pk := 1 |})] = Ok false
  ∧ check_user_access demo.db demo.production demo.root CJobEvent "attach"
      [AObj (IJobEvent {| je_pk := 1 |}); AObj (IInventory demo.inv2);
       AStr "inventories"; ANone] = Ok false.
Proof.
  pose proof (telemetry_access demo.db demo.production demo.bob CJobEvent)
    as (Hqs & Hrequest & _).
  { apply (bool_decide_unpack _). vm_compute. exact I. }
  pose proof (telemetry_access demo.db demo.production demo.root CJobEvent)
    as (_ & _ & Hattach).
  { apply (bool_decide_unpack _). vm_compute. exact I. }
  split; [exact Hqs|]. split.
  - apply Hrequest.
    by apply (request_read CJobEvent (IJobEvent {| je_pk := 1 |})).
  - etrans; [|reflexivity].
    exact (Hattach (IJobEvent {| je_pk := 1 |}) (IInventory demo.inv2)
             "inventories" None eq_refl).
Defined.

(** X8. Creating a user or a team, and an inventory when no payload is given, is
    for superusers and for the admins of some organization; creating an
    organization, a project, a permission or a job is for superusers. *)
Theorem add_by_superuser_or_admin s e user data :
  check_user_access s e user CUser "add" [arg_of_data data]
  = Ok (is_superuser user || truthy (count (admin_of_organizations s user)))
  ∧ check_user_access s e user CTeam "add" [arg_of_data data]
    = Ok (is_superuser user || truthy (count (admin_of_organizations s user)))
  ∧ (falsy_data data = true →
     check_user_access s e user CInventory "add" [arg_of_data data]
     = Ok (is_superuser user
           || truthy (count (admin_of_organizations s user))))
  ∧ (∀ c, c ∈ [COrganization; CProject; CPermission; CJob] →
     check_user_access s e user c "add" [arg_of_data data]
     = Ok (is_superuser user)).
Proof.
  rewrite !check_user_access_unfold.
  split; [|split; [|split]].
  - by destruct data.
  - destruct data; simpl; unfold TeamAccess.can_add;
      by destruct (is_superuser user), (truthy _).
  - intros Hdata. destruct data; simpl; unfold InventoryAccess.can_add;
      by rewrite Hdata.
  - intros c Hc. rewrite check_user_access_unfold.
    repeat (apply elem_of_cons in Hc as [-> | Hc]; [by destruct data|]).
    by apply not_elem_of_nil in Hc.
Qed.

Lemma add_by_superuser_or_admin_witness :
  check_user_access demo.db demo.production demo.bob CInventory "add" [ANone]
  = Ok false
  ∧ check_user_access demo.db demo.production demo.bob CProject "add" [ANone]
    = Ok false.
Proof.
  split.
  - refine (proj1 (proj2 (proj2 (add_by_superuser_or_admin demo.db
              demo.production demo.bob None))) _).
    reflexivity.
  - refine (proj2 (proj2 (proj2 (add_by_superuser_or_admin demo.db
              demo.production demo.bob None))) CProject _).
    apply (bool_decide_unpack _). vm_compute. exact I.
Defined.

(** ** What a user sees and what a user may read *)

Lemma has_pk_fmap {A} (pk : A → Z) k (l : list A) :
  k ∈ pk <$> l ↔ ∃ x, x ∈ filter_pk pk k l.
Proof.
  rewrite list_elem_of_fmap. split.
  - intros (x & -> & Hx). exists x. by apply elem_of_filter_pk.
  - intros (x & Hx). apply elem_of_filter_pk in Hx as [<- Hx]. eauto.
Qed.

Lemma elem_of_fmap_injective {A B} (f : A → B) (l : list A) x :
  (∀ y, f x = f y → x = y) → f x ∈ f <$> l ↔ x ∈ l.
Proof.
  intros Hf. rewrite list_elem_of_fmap. split.
  - intros (y & Hy & Hin). by rewrite (Hf y Hy).
  - eauto.
Qed.

(** X9. An organization is in the queryset of a user exactly when the user may
    read it; it may be changed by superusers and by its admins. *)
Theorem organization_visible_readable s e user o qs data :
  o ∈ organizations s →
  get_user_queryset s user COrganization = Ok qs →
  (IOrganization o ∈ qs ↔
   check_user_access s e user COrganization "read" [AObj (IOrganization o)]
   = Ok true)
  ∧ check_user_access s e user COrganization "change"
      [AObj (IOrganization o); arg_of_data data]
    = Ok (is_superuser user
          || related (organization_admins s) (org_pk o) (user_pk user)).
Proof.
  intros Ho. rewrite get_user_queryset_unfold, !check_user_access_unfold.
  intros [= <-]. split.
  - simpl. unfold OrganizationAccess.get_queryset, OrganizationAccess.can_read,
      OrganizationAccess.can_change.
    destruct (is_superuser user); simpl.
    { split; [done|]. intros _. by apply list_elem_of_fmap_2. }
    rewrite elem_of_fmap_injective by (by intros ? [= ->]).
    rewrite list_elem_of_filter.
    destruct (related (organization_admins s) _ _),
      (related (organization_users s) _ _); simpl; intuition done.
  - destruct data; simpl; unfold OrganizationAccess.can_change;
      by destruct (is_superuser user).
Qed.

Lemma organization_visible_readable_witness :
  (IOrganization demo.org1 ∈ [IOrganization demo.org1] ↔
   check_user_access demo.db demo.production demo.alice COrganization "read"
     [AObj (IOrganization demo.org1)] = Ok true)
  ∧ check_user_access demo.db demo.production demo.alice COrganization "change"
      [AObj (IOrganization demo.org1); ANone] = Ok false.
Proof.
  apply (organization_visible_readable demo.db demo.production demo.alice
           demo.org1 [IOrganization demo.org1] None).
  - left.
  - reflexivity.
Defined.

(** X10. An active team whose organization exists is in the queryset of a user
    exactly when the user may read it. *)
Theorem team_visible_readable s e user t org qs :
  t ∈ teams s →
  team_active t = true →
  get_by_pk org_pk (organizations s) (team_organization t) = Some org →
  get_user_queryset s user CTeam = Ok qs →
  ITeam t ∈ qs ↔
  check_user_access s e user CTeam "read" [AObj (ITeam t)] = Ok true.
Proof.
  intros Ht Hactive Horg. apply get_by_pk_Some in Horg as Hpk.
  destruct Hpk as [Hpk _].
  rewrite get_user_queryset_unfold, check_user_access_unfold.
  intros [= <-]. simpl.
  unfold TeamAccess.get_queryset, TeamAccess.can_read, TeamAccess.can_change,
    follow.
  rewrite elem_of_fmap_injective by (by intros ? [= ->]).
  destruct (is_superuser user); simpl.
  { rewrite list_elem_of_filter, Is_true_true. intuition done. }
  rewrite Horg. simpl. rewrite Hpk.
  rewrite !list_elem_of_filter, !Is_true_true.
  destruct (related (organization_admins s) _ _),
    (related (team_users s) _ _); simpl; intuition done.
Qed.

Lemma team_visible_readable_witness :
  ITeam demo.team1 ∈ [ITeam demo.team1] ↔
  check_user_access demo.db demo.production demo.bob CTeam "read"
    [AObj (ITeam demo.team1)] = Ok true.
Proof.
  apply (team_visible_readable demo.db demo.production demo.bob demo.team1
           demo.org1).
  - left.
  - reflexivity.
  - reflexivity.
  - reflexivity.
Defined.

(** ** Inventories, hosts and groups *)

Lemma inventory_queryset_default s user :
  InventoryAccess.get_queryset s user []
  = InventoryAccess.get_queryset s user
      PERMISSION_TYPES_ALLOWING_INVENTORY_READ.
Proof. done. Qed.

Lemma inventory_queryset_rows s user allowed x :
  x ∈ InventoryAccess.get_queryset s user allowed → x ∈ inventories s.
Proof.
  unfold InventoryAccess.get_queryset. intros H.
  destruct (is_superuser user);
    repeat first
      [ apply list_elem_of_filter in H as [_ H]
      | apply elem_of_qs_or in H as [H | [_ H]] ];
    done.
Qed.




(** X12. An inventory in the queryset of a user may be read by that user, and,
    keys being unique, an inventory the user may read is in the queryset. *)
Theorem inventory_visible_readable s e user inv qs :
  get_user_queryset s user CInventory = Ok qs →
  (IInventory inv ∈ qs →
   check_user_access s e user CInventory "read" [AObj (IInventory inv)]
   = Ok true)
  ∧ ((∀ row, row ∈ inventories s → inv_pk row = inv_pk inv → row = inv) →
     check_user_access s e user CInventory "read" [AObj (IInventory inv)]
     = Ok true →
     IInventory inv ∈ qs).
Proof.
  rewrite get_user_queryset_unfold, check_inventory_read. intros [= <-].
  simpl. rewrite inventory_queryset_default.
  unfold InventoryAccess.has_permission_types. simpl.
  rewrite elem_of_fmap_injective by (by intros ? [= ->]).
  split.
  - intros Hin. f_equal. apply truthy_count_true. exists inv.
    by apply elem_of_filter_pk.
  - intros Hunique [= H]. apply truthy_count_true in H as (row & H).
    apply elem_of_filter_pk in H as [Hpk H].
    by rewrite <-(Hunique row (inventory_queryset_rows _ _ _ _ H) Hpk).
Qed.

Lemma inventory_visible_readable_witness :
  check_user_access demo.db demo.production demo.carol CInventory "read"
    [AObj (IInventory demo.inv1)] = Ok true.
Proof.
  refine (proj1 (inventory_visible_readable demo.db demo.production demo.carol
                   demo.inv1 [IInventory demo.inv1] _) _).
  - reflexivity.
  - left.
Defined.

Lemma check_host_read s e user h :
  check_user_access s e user CHost "read" [AObj (IHost h)]
  = (inventory ← follow inv_pk (inventories s) (host_inventory h);
     check_user_access s e user CInventory "read"
       [AObj (IInventory inventory)]).
Proof. by rewrite check_user_access_unfold. Qed.

(** X13. Reading or changing a host or a group is reading or changing its
    inventory, and fails with [DoesNotExist] when that row is gone. *)
Theorem host_group_follow_inventory s e user h g :
  (∀ inventory,
     get_by_pk inv_pk (inventories s) (host_inventory h) = Some inventory →
     check_user_access s e user CHost "read" [AObj (IHost h)]
     = check_user_access s e user CInventory "read"
         [AObj (IInventory inventory)]
     ∧ check_user_access s e user CHost "change" [AObj (IHost h); ANone]
       = check_user_access s e user CInventory "change"
           [AObj (IInventory inventory); ANone])
  ∧ (∀ inventory,
     get_by_pk inv_pk (inventories s) (group_inventory g) = Some inventory →
     check_user_access s e user CGroup "read" [AObj (IGroup g)]
     = check_user_access s e user CInventory "read"
         [AObj (IInventory inventory)]
     ∧ check_user_access s e user CGroup "change" [AObj (IGroup g); ANone]
       = check_user_access s e user CInventory "change"
           [AObj (IInventory inventory); ANone])
  ∧ (get_by_pk inv_pk (inventories s) (host_inventory h) = None →
     check_user_access s e user CHost "read" [AObj (IHost h)]
     = Raise DoesNotExist
     ∧ check_user_access s e user CHost "change" [AObj (IHost h); ANone]
       = Raise DoesNotExist)
  ∧ (get_by_pk inv_pk (inventories s) (group_inventory g) = None →
     check_user_access s e user CGroup "read" [AObj (IGroup g)]
     = Raise DoesNotExist
     ∧ check_user_access s e user CGroup "change" [AObj (IGroup g); ANone]
       = Raise DoesNotExist).
Proof.
  rewrite (check_user_access_unfold s e user CHost),
    (check_user_access_unfold s e user CHost "change"),
    (check_user_access_unfold s e user CGroup),
    (check_user_access_unfold s e user CGroup "change").
  simpl. unfold HostAccess.can_change, GroupAccess.can_change, follow. simpl.
  split; [|split; [|split]].
  - intros inventory H. by rewrite H.
  - intros inventory H. by rewrite H.
  - intros H. by rewrite H.
  - intros H. by rewrite H.
Qed.

Lemma host_group_follow_inventory_witness :
  check_user_access demo.db demo.production demo.carol CHost "read"
    [AObj (IHost demo.host1)]
  = check_user_access demo.db demo.production demo.carol CInventory "read"
      [AObj (IInventory demo.inv1)]
  ∧ check_user_access demo.db demo.production demo.carol CHost "change"
      [AObj (IHost demo.host1); ANone]
    = check_user_access demo.db demo.production demo.carol CInventory "change"
        [AObj (IInventory demo.inv1); ANone].
Proof.
  refine (proj1 (host_group_follow_inventory demo.db demo.production demo.carol
                   demo.host1 demo.groupA) demo.inv1 _).
  reflexivity.
Defined.

(** X14. An active host whose inventory exists is in the queryset of a user
    exactly when the user may read it. *)
Theorem host_visible_readable s e user h inventory qs :
  h ∈ hosts s →
  host_active h = true →
  get_by_pk inv_pk (inventories s) (host_inventory h) = Some inventory →
  get_user_queryset s user CHost = Ok qs →
  IHost h ∈ qs ↔
  check_user_access s e user CHost "read" [AObj (IHost h)] = Ok true.
Proof.
  intros Hh Hactive Hinv. apply get_by_pk_Some in Hinv as Hpk.
  destruct Hpk as [Hpk _].
  rewrite get_user_queryset_unfold, check_host_read.
  unfold follow. rewrite Hinv. simpl. rewrite check_inventory_read.
  intros [= <-].
  rewrite elem_of_fmap_injective by (by intros ? [= ->]).
  rewrite !list_elem_of_filter, <-list_fmap_compose.
  unfold InventoryAccess.has_permission_types. simpl.
  rewrite inventory_queryset_default, Hpk.
  change (pk_of ∘ IInventory) with inv_pk.
  rewrite has_pk_fmap, <-truthy_count_true, Is_true_true.
  split; [intros (H & _ & _); by rewrite H | intros [= H]; done].
Qed.

Lemma host_visible_readable_witness :
  IHost demo.host1 ∈ [IHost demo.host1] ↔
  check_user_access demo.db demo.production demo.carol CHost "read"
    [AObj (IHost demo.host1)] = Ok true.
Proof.
  apply (host_visible_readable demo.db demo.production demo.carol demo.host1
           demo.inv1).
  - left.
  - reflexivity.
  - reflexivity.
  - reflexivity.
Defined.

(** ** Adding hosts and groups, attaching to groups *)

Lemma check_host_add s e user data :
  check_user_access s e user CHost "add" [arg_of_data data]
  = HostAccess.can_add s e (check_user_access s e user) data.
Proof. rewrite check_user_access_unfold. by destruct data. Qed.

Lemma check_group_add s e user data :
  check_user_access s e user CGroup "add" [arg_of_data data]
  = GroupAccess.can_add s (check_user_access s e user) data.
Proof. rewrite check_user_access_unfold. by destruct data. Qed.

(** X15. Where adding a host ends before the licence is read: without payload or
    without an inventory in it the answer is a denial; an inventory that
    does not exist is a client error; and a user who may not change the
    inventory is denied, whatever the licence says. *)
Theorem host_add_before_licence s e user :
  (∀ data,
     falsy_data data = true
     ∨ from_option (λ d : dict, d !! "inventory") None data = None →
     check_user_access s e user CHost "add" [arg_of_data data] = Ok false)
  ∧ (∀ d k,
     d !! "inventory" = Some (VInt k) →
     get_by_pk inv_pk (inventories s) k = None →
     check_user_access s e user CHost "add" [ADict d] = Raise ParseError)
  ∧ (∀ d inventory,
     d !! "inventory" = Some (VInt (inv_pk inventory)) →
     get_by_pk inv_pk (inventories s) (inv_pk inventory) = Some inventory →
     check_user_access s e user CInventory "change"
       [AObj (IInventory inventory); ANone] = Ok false →
     check_user_access s e user CHost "add" [ADict d] = Ok false).
Proof.
  split; [|split].
  - intros data H. rewrite check_host_add. unfold HostAccess.can_add.
    destruct H as [-> | H]; [done|].
    destruct data as [d|]; [|done]. simpl in H.
    change (default ∅ (Some d)) with d.
    by rewrite (has_key_None d "inventory" H), orb_true_r.
  - intros d k Hd Hrow. change (ADict d) with (arg_of_data (Some d)).
    rewrite check_host_add. unfold HostAccess.can_add.
    change (default ∅ (Some d)) with d.
    rewrite (falsy_data_lookup d _ _ Hd), (has_key_Some d _ _ Hd). simpl.
    unfold get_object_or_400, dict_get. rewrite Hd. simpl. by rewrite Hrow.
  - intros d inventory Hd Hrow Hchange.
    change (ADict d) with (arg_of_data (Some d)).
    rewrite check_host_add. unfold HostAccess.can_add.
    change (default ∅ (Some d)) with d.
    rewrite (falsy_data_lookup d _ _ Hd), (has_key_Some d _ _ Hd). simpl.
    unfold get_object_or_400, dict_get. rewrite Hd. simpl. rewrite Hrow.
    simpl. by rewrite Hchange.
Qed.

Lemma host_add_before_licence_witness :
  check_user_access demo.db demo.production demo.carol CHost "add"
    [ADict {[ "name" := VStr "web1" ]}] = Ok false
  ∧ check_user_access demo.db demo.production demo.alice CHost "add"
      [ADict {[ "inventory" := VInt 7 ]}] = Raise ParseError
  ∧ check_user_access demo.db demo.production demo.carol CHost "add"
      [ADict {[ "inventory" := VInt 1 ]}] = Ok false.
Proof.
  split; [|split].
  - refine (proj1 (host_add_before_licence demo.db demo.production demo.carol)
              (Some {[ "name" := VStr "web1" ]}) _).
    right. reflexivity.
  - refine (proj1 (proj2 (host_add_before_licence demo.db demo.production
                            demo.alice)) {[ "inventory" := VInt 7 ]} 7 _ _);
      reflexivity.
  - refine (proj2 (proj2 (host_add_before_licence demo.db demo.production
                            demo.carol)) {[ "inventory" := VInt 1 ]}
              demo.inv1 _ _ _); reflexivity.
Defined.

(** X16. Adding a group is changing the inventory the payload names: no licence
    is read, and without payload or inventory the answer is a denial. *)
Theorem group_add_follows_inventory s e user :
  (∀ data,
     falsy_data data = true
     ∨ from_option (λ d : dict, d !! "inventory") None data = None →
     check_user_access s e user CGroup "add" [arg_of_data data] = Ok false)
  ∧ (∀ d inventory,
     d !! "inventory" = Some (VInt (inv_pk inventory)) →
     get_by_pk inv_pk (inventories s) (inv_pk inventory) = Some inventory →
     check_user_access s e user CGroup "add" [ADict d]
     = check_user_access s e user CInventory "change"
         [AObj (IInventory inventory); ANone]).
Proof.
  split.
  - intros data H. rewrite check_group_add. unfold GroupAccess.can_add.
    destruct H as [-> | H]; [done|].
    destruct data as [d|]; [|done]. simpl in H.
    change (default ∅ (Some d)) with d.
    by rewrite (has_key_None d "inventory" H), orb_true_r.
  - intros d inventory Hd Hrow. change (ADict d) with (arg_of_data (Some d)).
    rewrite check_group_add. unfold GroupAccess.can_add.
    change (default ∅ (Some d)) with d.
    rewrite (falsy_data_lookup d _ _ Hd), (has_key_Some d _ _ Hd). simpl.
    unfold get_object_or_400, dict_get. rewrite Hd. simpl. by rewrite Hrow.
Qed.

Lemma group_add_follows_inventory_witness :
  check_user_access demo.db demo.production demo.alice CGroup "add"
    [ADict {[ "inventory" := VInt 1 ]}]
  = check_user_access demo.db demo.production demo.alice CInventory "change"
      [AObj (IInventory demo.inv1); ANone].
Proof.
  refine (proj2 (group_add_follows_inventory demo.db demo.production
                   demo.alice) {[ "inventory" := VInt 1 ]} demo.inv1 _ _);
    reflexivity.
Defined.

(** X17. Attaching a host to a group asks for the change of the group and the
    read of the host and nothing else; with [skip_sub_obj_read_check] set
    the read is not asked for either. *)
Theorem group_attach_host s e user g h relationship data :
  check_user_access s e user CGroup "attach"
    [AObj (IGroup g); AObj (IHost h); AStr relationship; arg_of_data data]
  = (c ← check_user_access s e user CGroup "change"
           [AObj (IGroup g); ANone];
     py_and c (check_user_access s e user CHost "read" [AObj (IHost h)]))
  ∧ check_user_access s e user CGroup "attach"
      [AObj (IGroup g); AObj (IHost h); AStr relationship; arg_of_data data;
       ABool true]
    = (c ← check_user_access s e user CGroup "change"
             [AObj (IGroup g); ANone];
       Ok c).
Proof.
  rewrite check_group_change.
  assert (∀ skip,
            check_user_access s e user CGroup "attach"
              [AObj (IGroup g); AObj (IHost h); AStr relationship;
               arg_of_data data; ABool skip]
            = GroupAccess.can_attach s (check_user_access s e user)
                (Some (IGroup g)) (Some (IHost h)) relationship data skip)
    as Hskip by (intros; rewrite check_user_access_unfold; by destruct data).
  assert (check_user_access s e user CGroup "attach"
            [AObj (IGroup g); AObj (IHost h); AStr relationship;
             arg_of_data data]
          = GroupAccess.can_attach s (check_user_access s e user)
              (Some (IGroup g)) (Some (IHost h)) relationship data false)
    as -> by (rewrite check_user_access_unfold; by destruct data).
  rewrite Hskip. unfold GroupAccess.can_attach, BaseAccess.can_attach.
  destruct (GroupAccess.can_change s (check_user_access s e user)
              (Some (IGroup g)) None) as [[]|]; simpl; try done.
  split; [|done].
  by destruct (check_user_access s e user CHost "read" [AObj (IHost h)])
    as [[]|].
Qed.

(** ** An installation with an organization admin *)

(** The small installation with a second superuser, where alice administers
    organization 1 and root and bob are members of it, and with a job
    template on project 3, the project team 2 works on. *)
Module office.
Definition root2 :=
  {| user_pk := 6; is_superuser := true; is_active := true |}.

Definition orphan :=
  {| cred_pk := 2; cred_user := None; cred_team := None;
     cred_active := true |}.

Definition template3 :=
  {| jt_pk := 3; jt_inventory := 1; jt_project := 3;
     jt_job_type := PERM_INVENTORY_CHECK; jt_active := true |}.

Definition db : store :=
  {| users := users demo.db ++ [root2];
     organizations := organizations demo.db;
     teams := teams demo.db;
     inventories := inventories demo.db;
     hosts := hosts demo.db;
     groups := groups demo.db;
     credentials := credentials demo.db ++ [orphan];
     projects := projects demo.db;
     permissions := permissions demo.db;
     job_templates := job_templates demo.db ++ [template3];
     jobs := jobs demo.db;
     job_host_summaries := job_host_summaries demo.db;
     job_events := job_events demo.db;
     organization_admins := [(1, 2)];
     organization_users := [(1, 1); (1, 3)];
     organization_projects := organization_projects demo.db;
     team_users := team_users demo.db;
     team_projects := team_projects demo.db;
     group_parents := group_parents demo.db |}.
End office.

(** ** Inventories and their organization *)

Lemma check_inventory_add s e user data :
  check_user_access s e user CInventory "add" [arg_of_data data]
  = InventoryAccess.can_add s user (check_user_access s e user) data.
Proof. rewrite check_user_access_unfold. by destruct data. Qed.

Lemma check_organization_change s e user o :
  check_user_access s e user COrganization "change"
    [AObj (IOrganization o); ANone]
  = Ok (is_superuser user
        || related (organization_admins s) (org_pk o) (user_pk user)).
Proof.
  rewrite check_user_access_unfold. simpl.
  unfold OrganizationAccess.can_change. by destruct (is_superuser user).
Qed.

Lemma inventory_add_named_organization s e user d org :
  is_superuser user = false →
  d !! "organization" = Some (VInt (org_pk org)) →
  get_by_pk org_pk (organizations s) (org_pk org) = Some org →
  InventoryAccess.can_add s user (check_user_access s e user) (Some d)
  = Ok (related (organization_admins s) (org_pk org) (user_pk user)).
Proof.
  intros Huser Hd Horg. unfold InventoryAccess.can_add.
  rewrite (falsy_data_lookup d _ _ Hd), Huser.
  change (default ∅ (Some d)) with d.
  unfold get_object_or_400, dict_get. rewrite Hd. simpl. rewrite Horg. simpl.
  by rewrite check_organization_change, Huser.
Qed.

(** X18. For a user who is no superuser, adding an inventory with a payload is
    being an admin of the organization the payload names; a payload that
    names none, or one that does not exist, is a client error and not a
    denial. *)
Theorem inventory_add_follows_organization s e user d :
  is_superuser user = false →
  d ≠ ∅ →
  (∀ org,
     d !! "organization" = Some (VInt (org_pk org)) →
     get_by_pk org_pk (organizations s) (org_pk org) = Some org →
     check_user_access s e user CInventory "add" [ADict d]
     = Ok (related (organization_admins s) (org_pk org) (user_pk user)))
  ∧ (d !! "organization" = None →
     check_user_access s e user CInventory "add" [ADict d]
     = Raise ParseError)
  ∧ (∀ k,
     d !! "organization" = Some (VInt k) →
     get_by_pk org_pk (organizations s) k = None →
     check_user_access s e user CInventory "add" [ADict d]
     = Raise ParseError).
Proof.
  intros Huser Hd. change (ADict d) with (arg_of_data (Some d)).
  rewrite check_inventory_add. unfold InventoryAccess.can_add.
  rewrite falsy_data_Some, (bool_decide_eq_false_2 (d = ∅)) by done.
  rewrite Huser. change (default ∅ (Some d)) with d.
  unfold get_object_or_400, dict_get.
  split; [|split].
  - intros org -> Horg. simpl. rewrite Horg. simpl.
    by rewrite check_organization_change, Huser.
  - by intros ->.
  - intros k -> Horg. simpl. by rewrite Horg.
Qed.

Lemma inventory_add_follows_organization_witness :
  check_user_access office.db demo.production demo.alice CInventory "add"
    [ADict {[ "organization" := VInt 1 ]}] = Ok true
  ∧ check_user_access office.db demo.production demo.alice CInventory "add"
      [ADict {[ "name" := VStr "lab" ]}] = Raise ParseError.
Proof.
  split.
  - refine (proj1 (inventory_add_follows_organization office.db
              demo.production demo.alice {[ "organization" := VInt 1 ]} _ _)
              demo.org1 _ _); try reflexivity.
    apply (bool_decide_unpack _). vm_compute. exact I.
  - refine (proj1 (proj2 (inventory_add_follows_organization office.db
              demo.production demo.alice {[ "name" := VStr "lab" ]} _ _)) _);
      try reflexivity.
    apply (bool_decide_unpack _). vm_compute. exact I.
Defined.

(** X19. A payload that names an organization the user does not administer makes
    the change and the administration of an inventory a denial, whatever
    grants the user holds on the inventory. *)
Theorem inventory_change_checks_organization s e user inv d org :
  is_superuser user = false →
  d !! "organization" = Some (VInt (org_pk org)) →
  get_by_pk org_pk (organizations s) (org_pk org) = Some org →
  related (organization_admins s) (org_pk org) (user_pk user) = false →
  check_user_access s e user CInventory "change"
    [AObj (IInventory inv); ADict d] = Ok false
  ∧ check_user_access s e user CInventory "write"
      [AObj (IInventory inv); ADict d] = Ok false
  ∧ check_user_access s e user CInventory "admin"
      [AObj (IInventory inv); ADict d] = Ok false.
Proof.
  intros Huser Hd Horg Hadmin.
  assert (InventoryAccess.organization_refused s user
            (check_user_access s e user) (Some d) = Ok true) as Hrefused.
  { unfold InventoryAccess.organization_refused.
    rewrite (falsy_data_lookup d _ _ Hd). change (default ∅ (Some d)) with d.
    rewrite (has_key_Some d _ _ Hd). simpl.
    by rewrite (inventory_add_named_organization s e user d org Huser Hd Horg),
      Hadmin. }
  rewrite !check_user_access_unfold. simpl.
  unfold InventoryAccess.can_change, InventoryAccess.can_admin.
  by rewrite Hrefused.
Qed.

Lemma inventory_change_checks_organization_witness :
  check_user_access demo.db demo.production demo.alice CInventory "change"
    [AObj (IInventory demo.inv1); ANone] = Ok true
  ∧ check_user_access demo.db demo.production demo.alice CInventory "change"
      [AObj (IInventory demo.inv1); ADict {[ "organization" := VInt 1 ]}]
    = Ok false.
Proof.
  split; [reflexivity|].
  refine (proj1 (inventory_change_checks_organization demo.db demo.production
                   demo.alice demo.inv1 {[ "organization" := VInt 1 ]}
                   demo.org1 _ _ _ _)); reflexivity.
Defined.

(** ** Credentials *)

(** X20. A credential that belongs to nobody may be deleted by anyone, and the
    user a credential belongs to, whose row the checks load, may read,
    change and delete it. *)
Theorem credential_owner_and_orphan s e user c data :
  (cred_user c = None → cred_team c = None →
   check_user_access s e user CCredential "delete" [AObj (ICredential c)]
   = Ok true)
  ∧ (cred_user c = Some (user_pk user) →
     row_exists user_pk (users s) (cred_user c) →
     check_user_access s e user CCredential "read" [AObj (ICredential c)]
     = Ok true
     ∧ check_user_access s e user CCredential "change"
         [AObj (ICredential c); arg_of_data data] = Ok true
     ∧ check_user_access s e user CCredential "delete" [AObj (ICredential c)]
       = Ok true).
Proof.
  rewrite !check_user_access_unfold. split.
  - intros Hu Ht. simpl. unfold CredentialAccess.can_delete. simpl.
    by rewrite Hu, Ht.
  - intros Hu Hrow. destruct (Hrow _ Hu) as [owner Howner].
    destruct (get_by_pk_Some _ _ _ _ Howner) as [Hpk _].
    assert (∀ data', CredentialAccess.can_change s user
                       (Some (ICredential c)) data' = Ok true) as Hchange.
    { intros. unfold CredentialAccess.can_change. simpl.
      rewrite Hu. simpl. unfold follow. rewrite Howner. simpl.
      rewrite bool_decide_eq_true_2 by done.
      by destruct (is_superuser user). }
    split; [|split].
    + simpl. apply Hchange.
    + destruct data; simpl; apply Hchange.
    + simpl. unfold CredentialAccess.can_delete. simpl.
      rewrite Hu. simpl. unfold follow. rewrite Howner. simpl.
      apply Hchange.
Qed.

Lemma credential_owner_and_orphan_witness :
  check_user_access office.db demo.production demo.dave CCredential "delete"
    [AObj (ICredential office.orphan)] = Ok true
  ∧ check_user_access office.db demo.production demo.alice CCredential "change"
      [AObj (ICredential demo.cred1); ANone] = Ok true.
Proof.
  split.
  - refine (proj1 (credential_owner_and_orphan office.db demo.production
                     demo.dave office.orphan None) _ _); reflexivity.
  - refine (proj1 (proj2 (proj2 (credential_owner_and_orphan office.db
              demo.production demo.alice demo.cred1 None) _ _))).
    + reflexivity.
    + intros z [= <-]. by eexists.
Defined.

Lemma check_credential_add s e user data :
  check_user_access s e user CCredential "add" [arg_of_data data]
  = CredentialAccess.can_add s user (check_user_access s e user) data.
Proof. rewrite check_user_access_unfold. by destruct data. Qed.

(** X21. For a user who is no superuser, adding a credential for a user is
    changing that user, and otherwise adding one for a team is changing that
    team; a payload that names neither is denied, and no payload at all is
    a [TypeError]. *)
Theorem credential_add_follows_owner s e user :
  is_superuser user = false →
  (∀ d owner,
     d !! "user" = Some (VInt (user_pk owner)) →
     get_by_pk user_pk (users s) (user_pk owner) = Some owner →
     check_user_access s e user CCredential "add" [ADict d]
     = check_user_access s e user CUser "change" [AObj (IUser owner); ANone])
  ∧ (∀ d team,
     d !! "user" = None →
     d !! "team" = Some (VInt (team_pk team)) →
     get_by_pk team_pk (teams s) (team_pk team) = Some team →
     check_user_access s e user CCredential "add" [ADict d]
     = check_user_access s e user CTeam "change" [AObj (ITeam team); ANone])
  ∧ (∀ d,
     d !! "user" = None → d !! "team" = None →
     check_user_access s e user CCredential "add" [ADict d] = Ok false)
  ∧ check_user_access s e user CCredential "add" [ANone] = Raise TypeError.
Proof.
  intros Huser.
  change ANone with (arg_of_data None).
  assert (∀ d, ADict d = arg_of_data (Some d)) as Hd by done.
  split; [|split; [|split]].
  - intros d owner Hu Hrow. rewrite Hd, check_credential_add.
    unfold CredentialAccess.can_add. rewrite Huser, (has_key_Some d _ _ Hu).
    unfold dict_item, objects_get. rewrite Hu. simpl. by rewrite Hrow.
  - intros d team Hu Ht Hrow. rewrite Hd, check_credential_add.
    unfold CredentialAccess.can_add.
    rewrite Huser, (has_key_None d _ Hu), (has_key_Some d _ _ Ht).
    unfold dict_item, objects_get. rewrite Ht. simpl. by rewrite Hrow.
  - intros d Hu Ht. rewrite Hd, check_credential_add.
    unfold CredentialAccess.can_add.
    by rewrite Huser, (has_key_None d _ Hu), (has_key_None d _ Ht).
  - rewrite check_credential_add. unfold CredentialAccess.can_add.
    by rewrite Huser.
Qed.

Lemma credential_add_follows_owner_witness :
  check_user_access demo.db demo.production demo.bob CCredential "add"
    [ADict {[ "user" := VInt 3 ]}]
  = check_user_access demo.db demo.production demo.bob CUser "change"
      [AObj (IUser demo.bob); ANone]
  ∧ check_user_access demo.db demo.production demo.bob CCredential "add"
      [ADict {[ "name" := VStr "key" ]}] = Ok false.
Proof.
  split.
  - refine (proj1 (credential_add_follows_owner demo.db demo.production
                     demo.bob _) {[ "user" := VInt 3 ]} demo.bob _ _);
      reflexivity.
  - refine (proj1 (proj2 (proj2 (credential_add_follows_owner demo.db
              demo.production demo.bob _))) {[ "name" := VStr "key" ]} _ _);
      reflexivity.
Defined.

(** ** Projects and permissions *)

(** X22. For a project whose creator, if it has one, is a row of the users
    table: the user who created the project may read, change and delete
    it.  A user who is no superuser, did not create the project and
    administers no organization of it is denied all three, also when the
    project is in the queryset of the user. *)
Theorem project_creator s e user p data :
  row_exists user_pk (users s) (created_by p) →
  (created_by p = Some (user_pk user) →
   check_user_access s e user CProject "read" [AObj (IProject p)] = Ok true
   ∧ check_user_access s e user CProject "change"
       [AObj (IProject p); arg_of_data data] = Ok true
   ∧ check_user_access s e user CProject "delete" [AObj (IProject p)]
     = Ok true)
  ∧ (is_superuser user = false →
     created_by p ≠ Some (user_pk user) →
     filter (λ o, related (organization_admins s) (org_pk o) (user_pk user)
                  && related (organization_projects s) (org_pk o)
                             (project_pk p))
            (organizations s) = [] →
     check_user_access s e user CProject "read" [AObj (IProject p)] = Ok false
     ∧ check_user_access s e user CProject "change"
         [AObj (IProject p); arg_of_data data] = Ok false
     ∧ check_user_access s e user CProject "delete" [AObj (IProject p)]
       = Ok false).
Proof.
  intros Hrow. rewrite !check_user_access_unfold.
  assert (call_obj_data (ProjectAccess.can_change s user)
            [AObj (IProject p); arg_of_data data]
          = ProjectAccess.can_change s user (Some (IProject p)) None) as Hdata
    by (by destruct data).
  simpl evaluator.
  change (getattr_can s e user (check_user_access s e user) ProjectAccess
            "change")
    with (Some (call_obj_data (ProjectAccess.can_change s user))).
  cbv beta iota. rewrite Hdata. simpl.
  unfold ProjectAccess.can_read, ProjectAccess.can_delete,
    ProjectAccess.can_change. simpl.
  split.
  - intros Hcreator. destruct (is_superuser user); [done|].
    destruct (Hrow _ Hcreator) as [creator Hload].
    destruct (get_by_pk_Some _ _ _ _ Hload) as [Hpk _].
    rewrite Hcreator. simpl. unfold follow. rewrite Hload. simpl.
    by rewrite bool_decide_eq_true_2.
  - intros Huser Hcreator Hnone. rewrite Huser.
    destruct (created_by p) as [k|] eqn:Hk; simpl.
    + destruct (Hrow _ eq_refl) as [creator Hload].
      destruct (get_by_pk_Some _ _ _ _ Hload) as [Hpk _].
      unfold follow. rewrite Hload. simpl.
      rewrite bool_decide_eq_false_2 by congruence.
      by rewrite Hnone.
    + by rewrite Hnone.
Qed.

Lemma project_creator_witness :
  get_user_queryset demo.db demo.dave CProject = Ok [IProject demo.proj3]
  ∧ check_user_access demo.db demo.production demo.dave CProject "read"
      [AObj (IProject demo.proj3)] = Ok false.
Proof.
  split; [reflexivity|].
  refine (proj1 (proj2 (project_creator demo.db demo.production demo.dave
                          demo.proj3 None _) _ _ _)); try reflexivity.
  - intros z [= <-]. by eexists.
  - vm_compute. discriminate.
Defined.

(** X23. Every user gets every permission in the queryset; the user a
    permission is granted to and the members of the team it is granted to
    may read it, the rows of that user and that team being loaded. *)
Theorem permission_read_by_grantee s e user p :
  get_user_queryset s user CPermission = Ok (objects_all s CPermission)
  ∧ (perm_user p = Some (user_pk user) →
     row_exists user_pk (users s) (perm_user p) →
     check_user_access s e user CPermission "read" [AObj (IPermission p)]
     = Ok true)
  ∧ (∀ t, perm_team p = Some t →
     related (team_users s) t (user_pk user) = true →
     row_exists user_pk (users s) (perm_user p) →
     row_exists team_pk (teams s) (perm_team p) →
     check_user_access s e user CPermission "read" [AObj (IPermission p)]
     = Ok true).
Proof.
  rewrite get_user_queryset_unfold, check_user_access_unfold.
  split; [done|]. simpl. unfold PermissionAccess.can_read. simpl.
  split.
  - intros Hu Hrow. destruct (Hrow _ Hu) as [grantee Hload].
    destruct (get_by_pk_Some _ _ _ _ Hload) as [Hpk _].
    rewrite Hu. simpl. unfold follow. rewrite Hload. simpl.
    by rewrite bool_decide_eq_true_2.
  - intros t Ht Hmember Huser Hteam.
    destruct (follow_null_row _ _ _ Huser) as (grantee & -> & _). simpl.
    destruct (from_option _ false grantee); [done|].
    destruct (Hteam _ Ht) as [team Hload].
    destruct (get_by_pk_Some _ _ _ _ Hload) as [Hpk _].
    rewrite Ht. simpl. unfold follow. rewrite Hload. simpl.
    by rewrite Hpk, Hmember.
Qed.

Lemma permission_read_by_grantee_witness :
  check_user_access demo.db demo.production demo.bob CPermission "read"
    [AObj (IPermission demo.perm2)] = Ok true
  ∧ check_user_access demo.db demo.production demo.dave CPermission "read"
      [AObj (IPermission demo.perm4)] = Ok true.
Proof.
  split.
  - refine (proj1 (proj2 (permission_read_by_grantee demo.db demo.production
                            demo.bob demo.perm2)) _ _).
    + reflexivity.
    + intros z [= <-]. by eexists.
  - refine (proj2 (proj2 (permission_read_by_grantee demo.db demo.production
                            demo.dave demo.perm4)) 2 _ _ _ _).
    + reflexivity.
    + reflexivity.
    + intros z [=].
    + intros z [= <-]. by eexists.
Defined.

(** ** Job templates *)

Lemma check_job_template_add s e user data :
  check_user_access s e user CJobTemplate "add" [arg_of_data data]
  = JobTemplateAccess.can_add s user data.
Proof. rewrite check_user_access_unfold. by destruct data. Qed.

(** X24. Adding a job template is allowed to every user when there is no payload
    or the payload has a [_method] key, and to the admins of an organization
    of the project whatever the job type, the grants and the credential
    are. *)
Theorem job_template_add_shortcuts s e user :
  (∀ data,
     falsy_data data = true
     ∨ is_Some (from_option (λ d : dict, d !! "_method") None data) →
     check_user_access s e user CJobTemplate "add" [arg_of_data data]
     = Ok true)
  ∧ (∀ d project inventory,
     d !! "project" = Some (VInt (project_pk project)) →
     get_by_pk project_pk (projects s) (project_pk project) = Some project →
     d !! "inventory" = Some (VInt (inv_pk inventory)) →
     get_by_pk inv_pk (inventories s) (inv_pk inventory) = Some inventory →
     filter (λ o, related (organization_admins s) (org_pk o) (user_pk user))
            (project_organizations s project) ≠ [] →
     check_user_access s e user CJobTemplate "add" [ADict d] = Ok true).
Proof.
  split.
  - intros data H. rewrite check_job_template_add.
    unfold JobTemplateAccess.can_add.
    destruct (is_superuser user); [done|].
    destruct H as [-> | H]; [done|].
    destruct data as [d|]; [|by destruct H]. simpl in H.
    change (default ∅ (Some d)) with d. unfold has_key.
    by rewrite (bool_decide_eq_true_2 _ H), orb_true_r.
  - intros d project inventory Hp Hproject Hi Hinventory Hadmin.
    change (ADict d) with (arg_of_data (Some d)).
    rewrite check_job_template_add. unfold JobTemplateAccess.can_add.
    destruct (is_superuser user); [done|].
    destruct (falsy_data (Some d) || has_key "_method" (default ∅ (Some d)));
      [done|].
    change (default ∅ (Some d)) with d. unfold dict_item.
    rewrite Hp, Hi. simpl.
    rewrite (objects_get_pk _ _ _ _ Hproject). simpl.
    rewrite (objects_get_pk _ _ _ _ Hinventory). simpl.
    destruct (filter _ (project_organizations s project)); [done|].
    rewrite bool_decide_eq_true_2; [done|]. simpl. lia.
Qed.

Lemma job_template_add_shortcuts_witness :
  check_user_access demo.db demo.production demo.carol CJobTemplate "add"
    [ADict {[ "_method" := VStr "PUT"; "project" := VInt 1 ]}] = Ok true
  ∧ check_user_access office.db demo.production demo.alice CJobTemplate "add"
      [ADict (demo.template_payload 1 PERM_INVENTORY_DEPLOY)] = Ok true.
Proof.
  split.
  - refine (proj1 (job_template_add_shortcuts demo.db demo.production
                     demo.carol)
              (Some {[ "_method" := VStr "PUT"; "project" := VInt 1 ]}) _).
    right. apply (bool_decide_unpack _). vm_compute. exact I.
  - refine (proj2 (job_template_add_shortcuts office.db demo.production
                     demo.alice)
              (demo.template_payload 1 PERM_INVENTORY_DEPLOY)
              demo.proj1 demo.inv1 _ _ _ _ _); try reflexivity.
    vm_compute. discriminate.
Defined.

(** X25. For a user who is no superuser and a payload without [_method] key:
    a payload without project or without inventory is a [KeyError], and a
    project or an inventory that does not exist is [DoesNotExist]; none is
    a denial. *)
Theorem job_template_add_lookups s e user d :
  is_superuser user = false →
  d ≠ ∅ →
  d !! "_method" = None →
  (d !! "project" = None →
   check_user_access s e user CJobTemplate "add" [ADict d]
   = Raise (KeyError "project"))
  ∧ (∀ k, d !! "project" = Some (VInt k) →
     get_by_pk project_pk (projects s) k = None →
     check_user_access s e user CJobTemplate "add" [ADict d]
     = Raise DoesNotExist)
  ∧ (∀ project, d !! "project" = Some (VInt (project_pk project)) →
     get_by_pk project_pk (projects s) (project_pk project) = Some project →
     (d !! "inventory" = None →
      check_user_access s e user CJobTemplate "add" [ADict d]
      = Raise (KeyError "inventory"))
     ∧ (∀ k, d !! "inventory" = Some (VInt k) →
        get_by_pk inv_pk (inventories s) k = None →
        check_user_access s e user CJobTemplate "add" [ADict d]
        = Raise DoesNotExist)).
Proof.
  intros Huser Hd Hmethod. change (ADict d) with (arg_of_data (Some d)).
  rewrite check_job_template_add. unfold JobTemplateAccess.can_add.
  rewrite Huser, falsy_data_Some, (bool_decide_eq_false_2 (d = ∅)) by done.
  change (default ∅ (Some d)) with d.
  rewrite (has_key_None d _ Hmethod). simpl. unfold dict_item, objects_get.
  split; [|split].
  - by intros ->.
  - intros k -> Hrow. simpl. by rewrite Hrow.
  - intros project -> Hrow. simpl. rewrite Hrow. simpl. split.
    + by intros ->.
    + intros k -> Hk. simpl. by rewrite Hk.
Qed.

Lemma job_template_add_lookups_witness :
  check_user_access demo.db demo.production demo.bob CJobTemplate "add"
    [ADict {[ "job_type" := VStr "check" ]}] = Raise (KeyError "project")
  ∧ check_user_access demo.db demo.production demo.bob CJobTemplate "add"
      [ADict {[ "project" := VInt 9 ]}] = Raise DoesNotExist.
Proof.
  split.
  - refine (proj1 (job_template_add_lookups demo.db demo.production demo.bob
                     {[ "job_type" := VStr "check" ]} _ _ _) _);
      try reflexivity.
    apply (bool_decide_unpack _). vm_compute. exact I.
  - refine (proj1 (proj2 (job_template_add_lookups demo.db demo.production
                     demo.bob {[ "project" := VInt 9 ]} _ _ _)) 9 _ _);
      try reflexivity.
    apply (bool_decide_unpack _). vm_compute. exact I.
Defined.

(** Reading a job template loads its inventory and its project, and asks
    whether their like may be added. *)
Lemma check_job_template_read s e user t inventory project :
  get_by_pk inv_pk (inventories s) (jt_inventory t) = Some inventory →
  get_by_pk project_pk (projects s) (jt_project t) = Some project →
  check_user_access s e user CJobTemplate "read" [AObj (IJobTemplate t)]
  = check_user_access s e user CJobTemplate "add"
      [ADict {[ "inventory" := VInt (inv_pk inventory);
                "project" := VInt (project_pk project);
                "job_type" := VStr (jt_job_type t) ]}].
Proof.
  intros Hinventory Hproject. rewrite !check_user_access_unfold. simpl.
  unfold JobTemplateAccess.can_read, follow. simpl.
  by rewrite Hinventory, Hproject.
Qed.

(** X26. A user who is no superuser and no admin of an organization of the
    project, and who is on a team of the project, gets the active job
    templates of the project in the queryset and may neither read nor
    change them. *)
Theorem job_template_team_member_unreadable s e user t project inventory m
    data :
  is_superuser user = false →
  get_by_pk project_pk (projects s) (jt_project t) = Some project →
  get_by_pk inv_pk (inventories s) (jt_inventory t) = Some inventory →
  filter (λ o, related (organization_admins s) (org_pk o) (user_pk user))
         (project_organizations s project) = [] →
  m ∈ teams s →
  related (team_projects s) (team_pk m) (jt_project t) = true →
  related (team_users s) (team_pk m) (user_pk user) = true →
  check_user_access s e user CJobTemplate "read" [AObj (IJobTemplate t)]
  = Ok false
  ∧ check_user_access s e user CJobTemplate "change"
      [AObj (IJobTemplate t); arg_of_data data] = Ok false
  ∧ (t ∈ job_templates s → jt_active t = true →
     ∀ qs, get_user_queryset s user CJobTemplate = Ok qs →
           IJobTemplate t ∈ qs).
Proof.
  intros Huser Hproject Hinventory Hadmin Hm Hmp Hmu.
  destruct (get_by_pk_Some _ _ _ _ Hproject) as [Hpk _].
  destruct (get_by_pk_Some _ _ _ _ Hinventory) as [Hik _].
  split; [|split].
  - rewrite (check_job_template_read s e user t inventory project) by done.
    rewrite (job_template_add_stages s e user _ project inventory);
      [| done | done | done | by rewrite Hpk | done | by rewrite Hik | done].
    unfold dict_item, JobTemplateAccess.has_credential, has_key.
    replace (({[ "inventory" := VInt (inv_pk inventory);
                 "project" := VInt (project_pk project);
                 "job_type" := VStr (jt_job_type t) ]} : dict)
             !! "job_type") with (Some (VStr (jt_job_type t))) by done.
    simpl.
    destruct (JobTemplateAccess.has_launch_permission _ _ _ _ _); [|done].
    simpl.
    rewrite (bool_decide_eq_false_2 (is_Some _)); [|by intros [? ?]].
    simpl.
    assert (truthy (count
              (filter (λ t0, related (team_users s) (team_pk t0) (user_pk user))
                      (project_teams s project))) = true) as ->; [|done].
    apply truthy_count_true. exists m.
    apply list_elem_of_filter. split; [by apply Is_true_true|].
    unfold project_teams. apply list_elem_of_filter. split; [|done].
    apply Is_true_true. by rewrite Hpk.
  - rewrite check_user_access_unfold. destruct data; simpl;
      unfold JobTemplateAccess.can_change; by rewrite Huser.
  - intros Ht Hactive qs. rewrite get_user_queryset_unfold. simpl.
    unfold JobTemplateAccess.get_queryset. rewrite Huser. intros [= <-].
    apply list_elem_of_fmap. exists t. split; [done|].
    apply list_elem_of_filter. split.
    + apply Is_true_true, orb_true_iff. right.
      apply existsb_true. exists m. split; [done|].
      by rewrite Hmp, Hmu.
    + apply list_elem_of_filter. split; [by apply Is_true_true|done].
Qed.

Lemma job_template_team_member_unreadable_witness :
  check_user_access office.db demo.production demo.dave CJobTemplate "read"
    [AObj (IJobTemplate office.template3)] = Ok false
  ∧ get_user_queryset office.db demo.dave CJobTemplate
    = Ok [IJobTemplate office.template3]
  ∧ IJobTemplate office.template3 ∈ [IJobTemplate office.template3].
Proof.
  pose proof (job_template_team_member_unreadable office.db demo.production
                demo.dave office.template3 demo.proj3 demo.inv1 demo.team2
                None) as H.
  destruct H as (Hread & _ & Hqs); try reflexivity.
  { right. left. }
  split; [exact Hread|]. split; [reflexivity|].
  apply Hqs; try reflexivity. do 2 right. left.
Defined.

(** ** Users and their accounts *)

(** X27. Every user may read and change their own record, and an active user is
    in their own queryset. *)
Theorem user_self s e user data :
  check_user_access s e user CUser "read" [AObj (IUser user)] = Ok true
  ∧ check_user_access s e user CUser "change"
      [AObj (IUser user); arg_of_data data] = Ok true
  ∧ (∀ qs, user ∈ users s → is_active user = true →
     get_user_queryset s user CUser = Ok qs → IUser user ∈ qs).
Proof.
  rewrite !check_user_access_unfold, get_user_queryset_unfold.
  assert (UserAccess.can_change s user (Some (IUser user)) None = Ok true)
    as Hchange.
  { unfold UserAccess.can_change, instance_eqb. simpl.
    by rewrite !bool_decide_eq_true_2. }
  split; [|split].
  - simpl. unfold UserAccess.can_read. rewrite Hchange.
    by destruct (truthy _).
  - destruct data; simpl; unfold UserAccess.can_change, instance_eqb; simpl;
      by rewrite !bool_decide_eq_true_2.
  - intros qs Hrow Hactive [= <-]. apply list_elem_of_fmap_2.
    unfold UserAccess.get_queryset.
    assert (user ∈ filter (λ u, is_active u) (users s)) as Hin.
    { apply list_elem_of_filter. split; [by apply Is_true_true | done]. }
    destruct (is_superuser user); [done|].
    apply list_elem_of_filter. split; [|done].
    by rewrite bool_decide_eq_true_2.
Qed.

Lemma user_self_witness :
  get_user_queryset demo.db demo.bob CUser = Ok [IUser demo.bob]
  ∧ IUser demo.bob ∈ [IUser demo.bob].
Proof.
  split; [reflexivity|].
  refine (proj2 (proj2 (user_self demo.db demo.production demo.bob None))
            [IUser demo.bob] _ _ _).
  - do 2 right. left.
  - reflexivity.
  - reflexivity.
Defined.

(** X28. Apart from one's own account and from the last active superuser, a user
    may be deleted by superusers and by the admins of an organization the
    user is a member of, superusers among the members included. *)
Theorem user_delete_by_admin s e user target :
  user_pk target ≠ user_pk user →
  (is_superuser target = true →
   count (filter (λ u, is_active u && is_superuser u) (users s)) ≠ 1%nat) →
  check_user_access s e user CUser "delete" [AObj (IUser target)]
  = Ok (is_superuser user
        || truthy (count
             (filter (λ g, related (organization_admins s) (org_pk g)
                                   (user_pk user))
                     (user_organizations s target)))).
Proof.
  intros Hother Hlast. rewrite check_user_access_unfold. simpl.
  unfold UserAccess.can_delete, instance_eqb. simpl.
  rewrite (bool_decide_eq_false_2 (user_pk target = user_pk user)) by done.
  destruct (is_superuser target).
  - rewrite bool_decide_eq_false_2 by auto. simpl.
    by destruct (is_superuser user).
  - simpl. by destruct (is_superuser user).
Qed.

Lemma user_delete_by_admin_witness :
  is_superuser demo.alice = false
  ∧ is_superuser demo.root = true
  ∧ check_user_access office.db demo.production demo.alice CUser "delete"
      [AObj (IUser demo.root)] = Ok true.
Proof.
  split; [reflexivity|]. split; [reflexivity|].
  refine (user_delete_by_admin office.db demo.production demo.alice demo.root
            _ _).
  - vm_compute. discriminate.
  - intros _. vm_compute. discriminate.
Defined.

(** ** Querysets and tables *)

(** X30. A queryset holds rows of the table of its model and no others. *)
Theorem get_user_queryset_rows s user c qs i :
  get_user_queryset s user c = Ok qs →
  i ∈ qs →
  i ∈ objects_all s c.
Proof.
  rewrite get_user_queryset_unfold.
  destruct c; simpl;
    unfold UserAccess.get_queryset, OrganizationAccess.get_queryset,
      InventoryAccess.get_queryset, CredentialAccess.get_queryset,
      TeamAccess.get_queryset, ProjectAccess.get_queryset,
      PermissionAccess.get_queryset,
      JobTemplateAccess.get_queryset;
    intros [= <-] Hin;
    apply list_elem_of_fmap in Hin as (x & -> & Hin);
    apply list_elem_of_fmap; exists x; (split; [done|]);
    destruct (is_superuser user);
    repeat first
      [ apply list_elem_of_filter in Hin as [? Hin]
      | apply elem_of_qs_or in Hin as [Hin | [? Hin]] ];
    done.
Qed.

Lemma get_user_queryset_rows_witness :
  IHost demo.host1 ∈ objects_all demo.db CHost.
Proof.
  refine (get_user_queryset_rows demo.db demo.carol CHost
            [IHost demo.host1] (IHost demo.host1) _ _).
  - reflexivity.
  - left.
Defined.
